(** * nx-workers: packet processing pipeline and worker lifecycle

    A shallow embedding of [nx/common/workers.py]: the worker base class with
    its SIGHUP-driven restart, the capture-loop wrapper, and the
    [PacketProcessor] that fingerprints a packet and builds one Redis
    pipeline per packet.

    Python objects become records, attribute access becomes projections,
    methods become computations in a small state-and-exception monad, and
    [try]/[except]/[finally] become combinators over it.  The libraries the
    module calls (scapy, hashlib, the Redis client, the protocol analyser's
    callback) are kept behind one record of externals so that every theorem
    holds for whatever these calls return or raise. *)

From Stdlib Require Import ZArith Strings.Byte Ascii String List Lia.
From stdpp Require Import base strings list gmap.

Import ListNotations.
Local Open Scope Z_scope.
Local Open Scope string_scope.
Local Open Scope list_scope.

Set Implicit Arguments.

(** ** Python values that reach the store *)

Abbreviation bytes := (list byte).

(** [packet.time] is a number the module only copies around; it is kept as
    an integer count of microseconds. *)
Definition timestamp := Z.

Inductive pyval : Type :=
| VNone
| VStr (s : string)
| VBytes (b : bytes)
| VTime (t : timestamp)
| VInt (n : Z).

(** ** Exceptions and outcomes *)

Inductive exn : Type :=
| RestartWorker
| AttributeError (attr : string)
| IndexError
| Exception (what : string).

Inductive result (A : Type) : Type :=
| Ok (a : A)
| Raise (e : exn).
Arguments Ok {A} a.
Arguments Raise {A} e.


Definition is_RestartWorker (e : exn) : bool :=
  match e with RestartWorker => true | _ => false end.

(** ** The state-and-exception monad

    A method of an object with state [S] returning [A] is a function from
    the state before to the outcome and the state after.  A raised exception
    keeps the state reached so far, as mutation in Python does. *)

Module Py.

Definition M (S A : Type) : Type := S -> result A * S.

Definition ret {S A} (a : A) : M S A := fun s => (Ok a, s).

Definition bind {S A B} (m : M S A) (k : A -> M S B) : M S B :=
  fun s => match m s with
           | (Ok a, s1) => k a s1
           | (Raise e, s1) => (Raise e, s1)
           end.

Definition raise {S A} (e : exn) : M S A := fun s => (Raise e, s).

Definition get {S} : M S S := fun s => (Ok s, s).

Definition modify {S} (f : S -> S) : M S unit := fun s => (Ok tt, f s).

(** Lift an outcome computed outside the object. *)
Definition call {S A} (r : result A) : M S A := fun s => (r, s).

(** [try: body finally: fin].  The finaliser always runs; when it raises,
    its exception replaces whatever the body did. *)
Definition try_finally {S A} (body : M S A) (fin : M S unit) : M S A :=
  fun s => let '(r, s1) := body s in
           match fin s1 with
           | (Ok _, s2) => (r, s2)
           | (Raise e, s2) => (Raise e, s2)
           end.

(** [try: body except: handler], the bare [except:] that catches
    everything. *)
Definition try_except {S A} (body : M S A) (handler : exn -> M S A) : M S A :=
  fun s => match body s with
           | (Ok a, s1) => (Ok a, s1)
           | (Raise e, s1) => handler e s1
           end.

(** [try: body except E: handler] for one exception class, selected by
    [catches]. *)
Definition try_except_only {S A} (catches : exn -> bool)
    (body : M S A) (handler : exn -> M S A) : M S A :=
  fun s => match body s with
           | (Ok a, s1) => (Ok a, s1)
           | (Raise e, s1) => if catches e then handler e s1 else (Raise e, s1)
           end.

(** Reading an attribute that is only created by an assignment. *)
Definition getattr {S A} (name : string) (proj : S -> option A) : M S A :=
  fun s => match proj s with
           | Some a => (Ok a, s)
           | None => (Raise (AttributeError name), s)
           end.

(** [for x in xs: body x] *)
Fixpoint for_each {S A} (xs : list A) (body : A -> M S unit) : M S unit :=
  match xs with
  | [] => ret tt
  | x :: rest => bind (body x) (fun _ => for_each rest body)
  end.

End Py.

Notation "'let*' x := m 'in' k" := (Py.bind m (fun x => k))
  (at level 10, x name, m at level 100, k at level 200, only parsing).

(** A property of the state that a computation keeps, whatever its
    outcome. *)
Definition keeps {S A} (I : S -> Prop) (m : Py.M S A) : Prop :=
  forall s, I s -> I (snd (m s)).

(** ** scapy packets

    A dissected packet is a chain of layers, outermost first; each layer is
    an instance of a layer class and carries that class's fields.  Only the
    fields the module reads or writes are named; the rest of a header stays
    with the layer as it was dissected. *)

Inductive LayerClass : Type :=
| Ether | Dot1Q | IP | ARP | Raw
| OtherLayer (cls_name : string).

Record EtherFields : Type := {
  eth_dst : string;
  eth_src : string;
  eth_type : Z;
}.

Record IPFields : Type := {
  ip_version_ihl : Z;
  ip_tos : Z;
  ip_len : Z;
  ip_id : Z;
  ip_flags_frag : Z;
  ip_ttl : Z;
  ip_proto : Z;
  ip_chksum : Z;
  ip_src : bytes;
  ip_dst : bytes;
  ip_options : bytes;
}.

Inductive Layer : Type :=
| EtherL (h : EtherFields)
| Dot1QL (tci : Z) (type : Z)
| IPL (h : IPFields)
| ARPL (body : bytes)
| RawL (load : bytes)
| OtherL (cls_name : string) (body : bytes).

Definition layer_class (l : Layer) : LayerClass :=
  match l with
  | EtherL _ => Ether
  | Dot1QL _ _ => Dot1Q
  | IPL _ => IP
  | ARPL _ => ARP
  | RawL _ => Raw
  | OtherL n _ => OtherLayer n
  end.

Definition LayerClass_eqb (a b : LayerClass) : bool :=
  match a, b with
  | Ether, Ether | Dot1Q, Dot1Q | IP, IP | ARP, ARP | Raw, Raw => true
  | OtherLayer n, OtherLayer m => String.eqb n m
  | _, _ => false
  end.

(** scapy compares layer classes exactly when it searches a packet. *)
Definition layer_is (cls : LayerClass) (l : Layer) : bool :=
  LayerClass_eqb (layer_class l) cls.

(** [pkt.getlayer(cls)]: the first layer of that class, searched from the
    outermost layer down through the payloads. *)
Definition getlayer (cls : LayerClass) (pkt : list Layer) : option Layer :=
  List.find (layer_is cls) pkt.

(** [cls in pkt] *)
Definition haslayer (cls : LayerClass) (pkt : list Layer) : bool :=
  List.existsb (layer_is cls) pkt.

(** Assigning to a field of the layer object returned by [getlayer]: the
    object is the one inside the packet, so the packet changes at that
    layer. *)
Fixpoint setattr_layer (cls : LayerClass) (f : Layer -> Layer)
    (pkt : list Layer) : list Layer :=
  match pkt with
  | [] => []
  | l :: payload =>
      if layer_is cls l then f l :: payload
      else l :: setattr_layer cls f payload
  end.

Definition set_id (v : Z) (l : Layer) : Layer :=
  match l with
  | IPL h =>
      IPL {| ip_version_ihl := ip_version_ihl h; ip_tos := ip_tos h;
             ip_len := ip_len h; ip_id := v;
             ip_flags_frag := ip_flags_frag h; ip_ttl := ip_ttl h;
             ip_proto := ip_proto h; ip_chksum := ip_chksum h;
             ip_src := ip_src h; ip_dst := ip_dst h;
             ip_options := ip_options h |}
  | _ => l
  end.

Definition set_chksum (v : Z) (l : Layer) : Layer :=
  match l with
  | IPL h =>
      IPL {| ip_version_ihl := ip_version_ihl h; ip_tos := ip_tos h;
             ip_len := ip_len h; ip_id := ip_id h;
             ip_flags_frag := ip_flags_frag h; ip_ttl := ip_ttl h;
             ip_proto := ip_proto h; ip_chksum := v;
             ip_src := ip_src h; ip_dst := ip_dst h;
             ip_options := ip_options h |}
  | _ => l
  end.

(** A captured packet as [sniff] hands it to the callback. *)
Record Packet : Type := {
  layers : list Layer;
  original : bytes;
  time : timestamp;
  sniffed_on : string;
}.

(** [str.lower()] on the characters a MAC address is made of. *)
Definition ascii_lower (c : ascii) : ascii :=
  let n := nat_of_ascii c in
  if ((65 <=? n) && (n <=? 90))%nat then ascii_of_nat (n + 32) else c.

Fixpoint lower (s : string) : string :=
  match s with
  | EmptyString => EmptyString
  | String c rest => String (ascii_lower c) (lower rest)
  end.

(** ** Redis pipeline commands *)

Inductive Op : Type :=
| HSet (key : string) (mapping : list (string * pyval))
| HSetNX (key field : string) (value : pyval)
| HIncrBy (key field : string) (amount : Z)
| SAdd (key : string) (member : pyval)
| Expire (key : string) (seconds : Z).

(** The client behind [worker.db]: what matters here is which pipelines
    were handed to it through [execute], in order. *)
Record Db : Type := {
  submitted : list (list Op);
}.

(** A Python [dict] in insertion order; [d[k] = v] replaces the value of an
    existing key in place and appends a new key. *)
Fixpoint dict_setitem (k : string) (v : pyval) (d : list (string * pyval))
    : list (string * pyval) :=
  match d with
  | [] => [(k, v)]
  | (k', v') :: rest =>
      if String.eqb k' k then (k, v) :: rest
      else (k', v') :: dict_setitem k v rest
  end.

(** ** Process-level effects *)

Inductive Effect : Type :=
| LogInfo (msg : string)
| LogError (msg : string) (exc_info : exn)
| InstallSIGHUP
| FlushStdout
| FlushStderr
| Execv (path : string) (argv : list string).

(** ** The worker object ([Worker], [RedisClientWorker]) *)

Record Worker : Type := {
  WORKER_NAME : string;
  name : string;
  _cmd : option (list string);
  _waiting_to_restart : option bool;
  db : Db;
  effects : list Effect;
}.

Definition with_cmd (c : list string) (w : Worker) : Worker :=
  {| WORKER_NAME := WORKER_NAME w; name := name w; _cmd := Some c;
     _waiting_to_restart := _waiting_to_restart w; db := db w;
     effects := effects w |}.

Definition with_waiting_to_restart (b : bool) (w : Worker) : Worker :=
  {| WORKER_NAME := WORKER_NAME w; name := name w; _cmd := _cmd w;
     _waiting_to_restart := Some b; db := db w; effects := effects w |}.

Definition with_db (d : Db) (w : Worker) : Worker :=
  {| WORKER_NAME := WORKER_NAME w; name := name w; _cmd := _cmd w;
     _waiting_to_restart := _waiting_to_restart w; db := d;
     effects := effects w |}.

Definition with_effect (e : Effect) (w : Worker) : Worker :=
  {| WORKER_NAME := WORKER_NAME w; name := name w; _cmd := _cmd w;
     _waiting_to_restart := _waiting_to_restart w; db := db w;
     effects := effects w ++ [e] |}.

(** [RedisClientWorker.__init__] *)
Definition RedisClientWorker_init (worker_name : string) (d : Db) : Worker :=
  {| WORKER_NAME := worker_name; name := lower worker_name; _cmd := None;
     _waiting_to_restart := None; db := d; effects := [] |}.

(** ** What the module calls but does not define *)

Record NetworkInterface : Type := {
  dev_name : string;
  is_valid : bool;
  flags : Z;
}.

Definition IFF_LOOPBACK : Z := 8.

(** The keyword arguments of the analyser's [process_packet]. *)
Record process_packet_kwargs : Type := {
  kw_packet : Packet;
  kw_pipeline : list Op;
  kw_common_fields : list (string * pyval);
  kw_macaddr : option string;
  kw_mac_key : string;
  kw_packet_hash : option string;
  kw_packet_key : string;
}.

Record Externals : Type := {
  (** [cls(packet_bytes)]: scapy dissecting bytes as a layer class *)
  scapy_dissect : LayerClass -> bytes -> result (list Layer);
  (** [bytes(pkt)]: scapy building a packet back into bytes *)
  scapy_build : list Layer -> result bytes;
  (** [hashlib.blake2s(data).hexdigest()] *)
  blake2s_hexdigest : bytes -> result string;
  (** the analyser's callback: the commands it appends to the pipeline it
      was given, and how it ends *)
  process_packet : process_packet_kwargs -> list Op * result pyval;
  (** how the store answers a submitted pipeline *)
  db_execute : Db -> list Op -> result unit;
  (** the analyser's BPF filter *)
  WANTED_PACKETS : string;
  (** [scapy.all.IFACES.values()] *)
  IFACES : list NetworkInterface;
  sys_executable : string;
  sys_argv : list string;
}.

(** ** [Worker] *)

Module WorkerBase.
Section Methods.
Context (ext : Externals).

Definition log_info (msg : string) : Py.M Worker unit :=
  Py.modify (with_effect (LogInfo msg)).

Definition log_error (msg : string) (e : exn) : Py.M Worker unit :=
  Py.modify (with_effect (LogError msg e)).

Definition _checkpoint_worker : Py.M Worker unit :=
  let* waiting := Py.getattr "_waiting_to_restart" _waiting_to_restart in
  if negb waiting then Py.ret tt
  else
    let* _ := log_info "going down for restart" in
    Py.raise RestartWorker.

Definition _handle_SIGHUP : Py.M Worker unit :=
  let* waiting := Py.getattr "_waiting_to_restart" _waiting_to_restart in
  let* _ := (if waiting then
               let* _ := log_info "received second SIGHUP, forcing restart now" in
               _checkpoint_worker
             else Py.ret tt) in
  let* _ := log_info "received SIGHUP, will restart at next checkpoint" in
  Py.modify (with_waiting_to_restart true).

(** The body of the abstract [Worker.run], reached through [super().run()]. *)
Definition run : Py.M Worker unit :=
  let* self := Py.get in
  let* _ := log_info ("Hi, I'm " +:+ WORKER_NAME self) in
  let* _ := Py.modify (with_cmd ([sys_executable ext] ++ sys_argv ext)) in
  let* _ := Py.modify (with_waiting_to_restart false) in
  Py.modify (with_effect InstallSIGHUP).

(** [Worker.main], for a subclass whose [run] is [subclass_run].  The
    state it starts from is the worker [cls()] has just built; logging
    set-up is left out.  [os.execv] replaces the process, so nothing follows
    it. *)
Definition main (subclass_run : Py.M Worker pyval) : Py.M Worker unit :=
  Py.try_except_only is_RestartWorker
    (let* _ := subclass_run in Py.ret tt)
    (fun _ =>
       let* command := Py.getattr "_cmd" _cmd in
       let* _ := log_info "restarting NOW..." in
       let* _ := Py.modify (with_effect FlushStdout) in
       let* _ := Py.modify (with_effect FlushStderr) in
       match command with
       | [] => Py.raise IndexError
       | path :: _ => Py.modify (with_effect (Execv path command))
       end).

End Methods.
End WorkerBase.

(** ** [PacketProcessor] *)

Record PacketProcessor : Type := {
  worker : Worker;
  packet : Packet;
  _issue_categories : list string;
  (** [None] is the [Unset] sentinel, [Some None] a cached Python [None] *)
  _ether_layer : option (option Layer);
  packet_hash : option string;
  src_mac : option string;
  (** attributes that exist only once assigned *)
  pipeline : option (list Op);
  common_fields : option (list (string * pyval));
  packet_key : option string;
  mac_key : option string;
}.

Module PP.

Definition set_worker (v : Worker) (s : PacketProcessor) : PacketProcessor :=
  {| worker := v; packet := packet s;
     _issue_categories := _issue_categories s;
     _ether_layer := _ether_layer s; packet_hash := packet_hash s;
     src_mac := src_mac s; pipeline := pipeline s;
     common_fields := common_fields s; packet_key := packet_key s;
     mac_key := mac_key s |}.

Definition set_issue_categories (v : list string) (s : PacketProcessor)
    : PacketProcessor :=
  {| worker := worker s; packet := packet s;
     _issue_categories := v;
     _ether_layer := _ether_layer s; packet_hash := packet_hash s;
     src_mac := src_mac s; pipeline := pipeline s;
     common_fields := common_fields s; packet_key := packet_key s;
     mac_key := mac_key s |}.

Definition set_ether_layer (v : option Layer) (s : PacketProcessor)
    : PacketProcessor :=
  {| worker := worker s; packet := packet s;
     _issue_categories := _issue_categories s;
     _ether_layer := Some v; packet_hash := packet_hash s;
     src_mac := src_mac s; pipeline := pipeline s;
     common_fields := common_fields s; packet_key := packet_key s;
     mac_key := mac_key s |}.

Definition set_packet_hash (v : option string) (s : PacketProcessor)
    : PacketProcessor :=
  {| worker := worker s; packet := packet s;
     _issue_categories := _issue_categories s;
     _ether_layer := _ether_layer s; packet_hash := v;
     src_mac := src_mac s; pipeline := pipeline s;
     common_fields := common_fields s; packet_key := packet_key s;
     mac_key := mac_key s |}.

Definition set_src_mac (v : option string) (s : PacketProcessor)
    : PacketProcessor :=
  {| worker := worker s; packet := packet s;
     _issue_categories := _issue_categories s;
     _ether_layer := _ether_layer s; packet_hash := packet_hash s;
     src_mac := v; pipeline := pipeline s;
     common_fields := common_fields s; packet_key := packet_key s;
     mac_key := mac_key s |}.

Definition set_pipeline (v : list Op) (s : PacketProcessor)
    : PacketProcessor :=
  {| worker := worker s; packet := packet s;
     _issue_categories := _issue_categories s;
     _ether_layer := _ether_layer s; packet_hash := packet_hash s;
     src_mac := src_mac s; pipeline := Some v;
     common_fields := common_fields s; packet_key := packet_key s;
     mac_key := mac_key s |}.

Definition set_common_fields (v : list (string * pyval))
    (s : PacketProcessor) : PacketProcessor :=
  {| worker := worker s; packet := packet s;
     _issue_categories := _issue_categories s;
     _ether_layer := _ether_layer s; packet_hash := packet_hash s;
     src_mac := src_mac s; pipeline := pipeline s;
     common_fields := Some v; packet_key := packet_key s;
     mac_key := mac_key s |}.

Definition set_packet_key (v : string) (s : PacketProcessor)
    : PacketProcessor :=
  {| worker := worker s; packet := packet s;
     _issue_categories := _issue_categories s;
     _ether_layer := _ether_layer s; packet_hash := packet_hash s;
     src_mac := src_mac s; pipeline := pipeline s;
     common_fields := common_fields s; packet_key := Some v;
     mac_key := mac_key s |}.

Definition set_mac_key (v : string) (s : PacketProcessor)
    : PacketProcessor :=
  {| worker := worker s; packet := packet s;
     _issue_categories := _issue_categories s;
     _ether_layer := _ether_layer s; packet_hash := packet_hash s;
     src_mac := src_mac s; pipeline := pipeline s;
     common_fields := common_fields s; packet_key := packet_key s;
     mac_key := Some v |}.

End PP.

(** How a value that may be [None] appears in an f-string, and as a
    command argument. *)
Definition fstr (o : option string) : string :=
  match o with Some s => s | None => "None" end.

Definition str_or_None (o : option string) : pyval :=
  match o with Some s => VStr s | None => VNone end.

Module PacketProcessor_.
Section Methods.
Context (ext : Externals).

Definition __init__ (w : Worker) (p : Packet) : PacketProcessor :=
  {| worker := w; packet := p;
     _issue_categories := [];
     _ether_layer := None; packet_hash := None; src_mac := None;
     pipeline := None; common_fields := None; packet_key := None;
     mac_key := None |}.

(** One command buffered on [self.pipeline]. *)
Definition pipeline_append (op : Op) : Py.M PacketProcessor unit :=
  let* buffered := Py.getattr "pipeline" pipeline in
  Py.modify (PP.set_pipeline (buffered ++ [op])).

(** Several commands buffered in order, as the analyser's callback does
    on the pipeline it is handed. *)
Definition pipeline_extend (ops : list Op) : Py.M PacketProcessor unit :=
  let* buffered := Py.getattr "pipeline" pipeline in
  Py.modify (PP.set_pipeline (buffered ++ ops)).

(** [self.pipeline.execute()]: the buffered commands go to the store, the
    buffer is reset, and the store's answer is the outcome. *)
Definition pipeline_execute : Py.M PacketProcessor unit :=
  let* buffered := Py.getattr "pipeline" pipeline in
  let* self := Py.get in
  let d := db (worker self) in
  let* _ := Py.modify (PP.set_worker
              (with_db {| submitted := submitted d ++ [buffered] |}
                       (worker self))) in
  let* _ := Py.modify (PP.set_pipeline []) in
  Py.call (db_execute ext d buffered).

Definition record_issue (category : string) : Py.M PacketProcessor unit :=
  let* self := Py.get in
  Py.modify (PP.set_issue_categories
               (_issue_categories self ++ ["unhandled:pkts:" +:+ category])).

(** The [ether_layer] property. *)
Definition ether_layer : Py.M PacketProcessor (option Layer) :=
  let* self := Py.get in
  match _ether_layer self with
  | None =>
      let* _ := Py.modify (PP.set_ether_layer
                  (getlayer Ether (layers (packet self)))) in
      let* self := Py.get in
      match _ether_layer self with
      | Some l => Py.ret l
      | None => Py.raise (AttributeError "_ether_layer")
      end
  | Some l => Py.ret l
  end.

Definition _packet_hash_bytes : Py.M PacketProcessor bytes :=
  let* self := Py.get in
  let packet_bytes := original (packet self) in
  let* el := ether_layer in
  match el with
  | None => Py.ret packet_bytes
  | Some eth =>
      let* copy_packet :=
        Py.call (scapy_dissect ext (layer_class eth) packet_bytes) in
      let ipv4_layer := getlayer IP copy_packet in
      match ipv4_layer with
      | None =>
          let* _ := (if negb (haslayer ARP copy_packet)
                     then record_issue "ether_payload"
                     else Py.ret tt) in
          Py.ret packet_bytes
      | Some _ =>
          let copy_packet := setattr_layer IP (set_id 0xdead) copy_packet in
          let copy_packet := setattr_layer IP (set_chksum 0xbeef) copy_packet in
          Py.call (scapy_build ext copy_packet)
      end
  end.

Definition _packet_hash : Py.M PacketProcessor string :=
  let* data := _packet_hash_bytes in
  Py.call (blake2s_hexdigest ext data).

Definition _record_raw_packet : Py.M PacketProcessor unit :=
  let* self := Py.get in
  let* fields := Py.getattr "common_fields" common_fields in
  let fields := dict_setitem "raw_bytes" (VBytes (original (packet self))) fields in
  let fields := dict_setitem "last_sniffed_on" (VStr (sniffed_on (packet self))) fields in
  let fields := match src_mac self with
                | Some mac => dict_setitem "last_seen_from" (VStr mac) fields
                | None => fields
                end in
  let* key := Py.getattr "packet_key" packet_key in
  let* _ := pipeline_append (HSet key fields) in
  let* _ := pipeline_append (HSetNX key "first_seen" (VTime (time (packet self)))) in
  pipeline_append (HIncrBy key "num_sightings" 1).

Definition _record_device_sighting : Py.M PacketProcessor unit :=
  let* self := Py.get in
  let* _ := pipeline_append (SAdd "macs" (str_or_None (src_mac self))) in
  let* key := Py.getattr "mac_key" mac_key in
  let* mapping := Py.getattr "common_fields" common_fields in
  let* _ := pipeline_append (HSet key mapping) in
  let* _ := pipeline_append (HSetNX key "first_seen" (VTime (time (packet self)))) in
  let key := "macpkts_" +:+ fstr (src_mac self) in
  match packet_hash self with
  | Some h => pipeline_append (HSet key [(h, VTime (time (packet self)))])
  | None => Py.raise (Exception "DataError")
  end.

Definition _run : Py.M PacketProcessor pyval :=
  let* self := Py.get in
  let common :=
    dict_setitem ("last_seen_by_" +:+ name (worker self)) (VTime (time (packet self)))
      (dict_setitem "last_seen_by" (VStr (name (worker self)))
         (dict_setitem "last_seen" (VTime (time (packet self))) [])) in
  let* _ := Py.modify (PP.set_common_fields common) in
  (* Log the raw packet. *)
  let* el := ether_layer in
  let* _ := (match el with
             | None => record_issue "first_layer"
             | Some _ => Py.ret tt
             end) in
  let* h := _packet_hash in
  let* _ := Py.modify (PP.set_packet_hash (Some h)) in
  let* self := Py.get in
  let* _ := Py.modify (PP.set_packet_key ("pkt_" +:+ fstr (packet_hash self))) in
  let* el := ether_layer in
  let* _ := (match el with
             | Some (EtherL hdr) =>
                 let* _ := Py.modify (PP.set_src_mac (Some (lower (eth_src hdr)))) in
                 let* self := Py.get in
                 Py.modify (PP.set_mac_key ("mac_" +:+ fstr (src_mac self)))
             | Some _ => Py.raise (AttributeError "src")
             | None => Py.ret tt
             end) in
  let* _ := _record_raw_packet in
  let* el := ether_layer in
  match el with
  | None => Py.ret VNone
  | Some _ =>
      (* Log the device sighting. *)
      let* _ := _record_device_sighting in
      (* Hand over to worker-specific code. *)
      let* self := Py.get in
      let* buffered := Py.getattr "pipeline" pipeline in
      let* common := Py.getattr "common_fields" common_fields in
      let* mk := Py.getattr "mac_key" mac_key in
      let* pk := Py.getattr "packet_key" packet_key in
      let '(appended, outcome) :=
        process_packet ext
          {| kw_packet := packet self; kw_pipeline := buffered;
             kw_common_fields := common; kw_macaddr := src_mac self;
             kw_mac_key := mk; kw_packet_hash := packet_hash self;
             kw_packet_key := pk |} in
      let* _ := pipeline_extend appended in
      Py.call outcome
  end.

Definition run : Py.M PacketProcessor unit :=
  let* self := Py.get in
  let heartbeat := (name (worker self), time (packet self)) in
  let* _ := Py.modify (PP.set_pipeline []) in
  Py.try_finally
    (Py.try_finally
       (Py.try_finally
          (let* _ := _run in Py.ret tt)
          (let* self := Py.get in
           Py.for_each (_issue_categories self)
             (fun set =>
                let* self := Py.get in
                pipeline_append (SAdd set (str_or_None (packet_hash self))))))
       (pipeline_append (HSet "heartbeats" [(fst heartbeat, VTime (snd heartbeat))])))
    pipeline_execute.

End Methods.
End PacketProcessor_.

(** ** [PacketSnifferWorker] *)

(** What the blocked capture call sees, in order: a packet handed to the
    callback, or a SIGHUP delivered while waiting for the next packet. *)
Inductive CaptureEvent : Type :=
| Captured (p : Packet)
| SIGHUP.

(** [sorted(names)] *)
Fixpoint sorted_insert (x : string) (l : list string) : list string :=
  match l with
  | [] => [x]
  | y :: rest => if String.leb x y then x :: l else y :: sorted_insert x rest
  end.

Definition sorted (l : list string) : list string :=
  List.fold_right sorted_insert [] l.

Module PacketSnifferWorker.
Section Methods.
Context (ext : Externals).

(** The [interfaces] property. *)
Definition interfaces : list NetworkInterface :=
  List.filter
    (fun dev => is_valid dev && Z.eqb (Z.land (flags dev) IFF_LOOPBACK) 0)
    (IFACES ext).

(** [PacketProcessor(self, packet).run()] *)
Definition _process_packet (p : Packet) : Py.M Worker pyval :=
  fun w =>
    let '(r, pp) := PacketProcessor_.run ext (PacketProcessor_.__init__ w p) in
    (match r with Ok _ => Ok VNone | Raise e => Raise e end, worker pp).

(** [_process_packet] is a method a subclass or a test may replace, and a
    signal handler may run while it does; the wrapper is stated over
    whichever computation on the worker is bound to it. *)
Definition _wrapped_process_packet
    (process : Packet -> Py.M Worker pyval) (p : Packet) : Py.M Worker pyval :=
  Py.try_finally
    (Py.try_except
       (process p)
       (fun e =>
          let* _ := WorkerBase.log_error "packet processing failed:" e in
          Py.ret VNone))
    WorkerBase._checkpoint_worker.

(** [sniff(prn=..., store=False)]: each captured packet goes through
    [prn]; a SIGHUP that arrives while the call waits runs the installed
    handler; an exception from either ends the call. *)
Fixpoint sniff (prn : Packet -> Py.M Worker pyval) (events : list CaptureEvent)
    : Py.M Worker pyval :=
  match events with
  | [] => Py.ret VNone
  | Captured p :: rest => let* _ := prn p in sniff prn rest
  | SIGHUP :: rest => let* _ := WorkerBase._handle_SIGHUP in sniff prn rest
  end.

Definition run_with (process : Packet -> Py.M Worker pyval)
    (events : list CaptureEvent) : Py.M Worker pyval :=
  let* _ := WorkerBase.run ext in
  let filter := WANTED_PACKETS ext in
  let* _ := WorkerBase.log_info ("monitoring packets matching: " +:+ filter) in
  let interfaces := List.map dev_name interfaces in
  let* _ := WorkerBase.log_info
              ("listening on: " +:+ String.concat ", " (sorted interfaces)) in
  sniff (_wrapped_process_packet process) events.

Definition run (events : list CaptureEvent) : Py.M Worker pyval :=
  run_with _process_packet events.

Definition main (events : list CaptureEvent) : Py.M Worker unit :=
  WorkerBase.main (run events).

End Methods.
End PacketSnifferWorker.

(** * Views of a run

    Names for what the theorems talk about: the state [_run] starts from and
    ends in, the pipeline that is submitted, and the fingerprint as a
    function of the packet. *)

Section Views.
Context (ext : Externals).

(** The worker (and so the store behind it) and the packet stay as they
    were, and the pipeline only grows from [ops0]. *)
Definition framed (w : Worker) (p : Packet) (ops0 : list Op)
    (s : PacketProcessor) : Prop :=
  worker s = w /\ packet s = p /\
  exists more, pipeline s = Some (ops0 ++ more).

Definition heartbeat_op (w : Worker) (p : Packet) : Op :=
  HSet "heartbeats" [(name w, VTime (time p))].

(** The set-add commands of the inner [finally] for the processor state
    [s] it runs in. *)
Definition issue_ops (s : PacketProcessor) : list Op :=
  List.map (fun set => SAdd set (str_or_None (packet_hash s)))
           (_issue_categories s).

(** The processor state in which [_run] starts, and the one it ends in. *)
Definition run_start (w : Worker) (p : Packet) : PacketProcessor :=
  PP.set_pipeline [] (PacketProcessor_.__init__ w p).

Definition after__run (w : Worker) (p : Packet) : PacketProcessor :=
  snd (PacketProcessor_._run ext (run_start w p)).

Definition outcome__run (w : Worker) (p : Packet) : result pyval :=
  fst (PacketProcessor_._run ext (run_start w p)).

(** What [_run] and the analyser left in the pipeline. *)
Definition body_ops (w : Worker) (p : Packet) : list Op :=
  match pipeline (after__run w p) with Some ops => ops | None => [] end.

Definition batch (w : Worker) (p : Packet) : list Op :=
  body_ops w p ++ issue_ops (after__run w p) ++ [heartbeat_op w p].

(** The link-layer view the [ether_layer] property yields in state [s]. *)
Definition ether_view (s : PacketProcessor) : option Layer :=
  match _ether_layer s with
  | Some l => l
  | None => getlayer Ether (layers (packet s))
  end.

Definition canonical (copy_packet : list Layer) : list Layer :=
  setattr_layer IP (set_chksum 0xbeef) (setattr_layer IP (set_id 0xdead) copy_packet).

Definition hash_input (el : option Layer) (packet_bytes : bytes) : result bytes :=
  match el with
  | None => Ok packet_bytes
  | Some eth =>
      match scapy_dissect ext (layer_class eth) packet_bytes with
      | Raise e => Raise e
      | Ok copy_packet =>
          match getlayer IP copy_packet with
          | None => Ok packet_bytes
          | Some _ => scapy_build ext (canonical copy_packet)
          end
      end
  end.

Definition hash_issues (el : option Layer) (packet_bytes : bytes) : list string :=
  match el with
  | None => []
  | Some eth =>
      match scapy_dissect ext (layer_class eth) packet_bytes with
      | Raise _ => []
      | Ok copy_packet =>
          match getlayer IP copy_packet with
          | None => if haslayer ARP copy_packet then []
                    else ["unhandled:pkts:ether_payload"]
          | Some _ => []
          end
      end
  end.

Definition fingerprint (el : option Layer) (packet_bytes : bytes) : result string :=
  match hash_input el packet_bytes with
  | Ok data => blake2s_hexdigest ext data
  | Raise e => Raise e
  end.

Definition common_fields_of (w : Worker) (p : Packet) : list (string * pyval) :=
  [("last_seen", VTime (time p));
   ("last_seen_by", VStr (name w));
   ("last_seen_by_" +:+ name w, VTime (time p))].

Definition raw_fields_of (w : Worker) (p : Packet) (mac : option string)
    : list (string * pyval) :=
  common_fields_of w p
  ++ [("raw_bytes", VBytes (original p));
      ("last_sniffed_on", VStr (sniffed_on p))]
  ++ match mac with
     | Some m => [("last_seen_from", VStr m)]
     | None => []
     end.

(** The commands of [_record_raw_packet]. *)
Definition raw_packet_ops (w : Worker) (p : Packet) (h : string)
    (mac : option string) : list Op :=
  [HSet ("pkt_" +:+ h) (raw_fields_of w p mac);
   HSetNX ("pkt_" +:+ h) "first_seen" (VTime (time p));
   HIncrBy ("pkt_" +:+ h) "num_sightings" 1].

(** The commands of [_record_device_sighting]. *)
Definition device_ops (w : Worker) (p : Packet) (h mac : string) : list Op :=
  [SAdd "macs" (VStr mac);
   HSet ("mac_" +:+ mac) (common_fields_of w p);
   HSetNX ("mac_" +:+ mac) "first_seen" (VTime (time p));
   HSet ("macpkts_" +:+ mac) [(h, VTime (time p))]].

(** What the analyser's callback is called with. *)
Definition callback_kwargs (w : Worker) (p : Packet) (h mac : string)
    : process_packet_kwargs :=
  {| kw_packet := p;
     kw_pipeline := raw_packet_ops w p h (Some mac) ++ device_ops w p h mac;
     kw_common_fields := common_fields_of w p;
     kw_macaddr := Some mac;
     kw_mac_key := "mac_" +:+ mac;
     kw_packet_hash := Some h;
     kw_packet_key := "pkt_" +:+ h |}.

End Views.

(** The worker as the [except:] clause leaves it. *)
Definition after_except (r : result pyval) (w : Worker) : Worker :=
  match r with
  | Ok _ => w
  | Raise e => with_effect (LogError "packet processing failed:" e) w
  end.

(** The worker as [PacketSnifferWorker.run] has it when it calls [sniff]. *)
Definition after_startup (ext : Externals) (w : Worker) : Worker :=
  with_effect
    (LogInfo ("listening on: " +:+
              String.concat ", "
                (sorted (List.map dev_name (PacketSnifferWorker.interfaces ext)))))
    (with_effect
       (LogInfo ("monitoring packets matching: " +:+ WANTED_PACKETS ext))
       (with_effect InstallSIGHUP
          (with_waiting_to_restart false
             (with_cmd ([sys_executable ext] ++ sys_argv ext)
                (with_effect (LogInfo ("Hi, I'm " +:+ WORKER_NAME w)) w))))).

(** The [os.execv] calls among the process's effects. *)
Definition is_Execv (e : Effect) : bool :=
  match e with Execv _ _ => true | _ => false end.

Definition execv_calls (w : Worker) : list Effect :=
  List.filter is_Execv (effects w).

(** The worker has been started: [_cmd] holds [c], and [os.execv] was
    called exactly as in [calls]. *)
Definition started (c : list string) (calls : list Effect) (w : Worker) : Prop :=
  _cmd w = Some c /\ is_Some (_waiting_to_restart w) /\ execv_calls w = calls.

(** Two IPv4 headers that agree on every field but the identification
    and the header checksum. *)
Definition same_but_id_chksum (h1 h2 : IPFields) : Prop :=
  ip_version_ihl h1 = ip_version_ihl h2 /\ ip_tos h1 = ip_tos h2 /\
  ip_len h1 = ip_len h2 /\ ip_flags_frag h1 = ip_flags_frag h2 /\
  ip_ttl h1 = ip_ttl h2 /\ ip_proto h1 = ip_proto h2 /\
  ip_src h1 = ip_src h2 /\ ip_dst h1 = ip_dst h2 /\
  ip_options h1 = ip_options h2.

(** * A concrete instance of the externals

    Enough of the libraries to run the module on real frames: Ethernet II,
    802.1Q, IPv4 and ARP as scapy lays them out, BLAKE2s as hashlib computes
    it (RFC 7693, 32-byte digest, no key).  Upper layers stay raw bytes, and
    a frame whose type field is a length (802.3) is read as Ethernet II with
    a raw payload. *)

Module Wire.

Local Open Scope Z_scope.

Definition byte_val (b : byte) : Z := Z.of_N (Byte.to_N b).

Definition byte_of (z : Z) : byte :=
  match Byte.of_N (Z.to_N (z mod 256)) with
  | Some b => b
  | None => x00
  end.

Definition be16 (hi lo : byte) : Z := byte_val hi * 256 + byte_val lo.

Definition put16 (z : Z) : bytes := [byte_of (z / 256); byte_of z].

Definition hexdigit (n : Z) : ascii :=
  List.nth (Z.to_nat n) (list_ascii_of_string "0123456789abcdef") "0"%char.

Definition hex2 (b : byte) : string :=
  String (hexdigit (byte_val b / 16))
    (String (hexdigit (byte_val b mod 16)) EmptyString).

(** A hardware address as scapy prints it. *)
Definition mac_str (bs : bytes) : string :=
  String.concat ":" (List.map hex2 bs).

Definition hexval (c : ascii) : Z :=
  let n := Z.of_nat (nat_of_ascii c) in
  if (48 <=? n) && (n <=? 57) then n - 48
  else if (97 <=? n) && (n <=? 102) then n - 87
  else if (65 <=? n) && (n <=? 70) then n - 55
  else 0.

Fixpoint mac_bytes (s : string) : bytes :=
  match s with
  | String a (String b rest) =>
      byte_of (hexval a * 16 + hexval b)
      :: match rest with
         | String _ rest' => mac_bytes rest'
         | EmptyString => []
         end
  | _ => []
  end.

(** ** Dissection *)

Definition raw_payload (b : bytes) : list Layer :=
  match b with
  | [] => []
  | _ => [RawL b]
  end.

Definition dissect_IP (b : bytes) : list Layer :=
  match b with
  | vi :: tos :: l0 :: l1 :: i0 :: i1 :: f0 :: f1 :: ttl :: proto
    :: c0 :: c1 :: s0 :: s1 :: s2 :: s3 :: d0 :: d1 :: d2 :: d3 :: rest =>
      let optlen := Z.to_nat (Z.max 0 ((byte_val vi mod 16) * 4 - 20)) in
      IPL {| ip_version_ihl := byte_val vi; ip_tos := byte_val tos;
             ip_len := be16 l0 l1; ip_id := be16 i0 i1;
             ip_flags_frag := be16 f0 f1; ip_ttl := byte_val ttl;
             ip_proto := byte_val proto; ip_chksum := be16 c0 c1;
             ip_src := [s0; s1; s2; s3]; ip_dst := [d0; d1; d2; d3];
             ip_options := firstn optlen rest |}
      :: raw_payload (skipn optlen rest)
  | _ => raw_payload b
  end.

(** The payload of a layer whose [type] field is [type]: the classes
    scapy binds to Ethernet types. *)
Fixpoint dissect_payload (type : Z) (b : bytes) {struct b} : list Layer :=
  if type =? 0x0800 then dissect_IP b
  else if type =? 0x0806 then
    match b with [] => [] | _ => [ARPL b] end
  else if type =? 0x8100 then
    match b with
    | t0 :: t1 :: y0 :: y1 :: rest =>
        Dot1QL (be16 t0 t1) (be16 y0 y1) :: dissect_payload (be16 y0 y1) rest
    | _ => raw_payload b
    end
  else raw_payload b.

Definition dissect_Ether (b : bytes) : result (list Layer) :=
  match b with
  | d0 :: d1 :: d2 :: d3 :: d4 :: d5 :: s0 :: s1 :: s2 :: s3 :: s4 :: s5
    :: t0 :: t1 :: payload =>
      Ok (EtherL {| eth_dst := mac_str [d0; d1; d2; d3; d4; d5];
                    eth_src := mac_str [s0; s1; s2; s3; s4; s5];
                    eth_type := be16 t0 t1 |}
          :: dissect_payload (be16 t0 t1) payload)
  | _ => Raise (Exception "struct.error")
  end.

Definition dissect (cls : LayerClass) (b : bytes) : result (list Layer) :=
  match cls with
  | Ether => dissect_Ether b
  | IP => Ok (dissect_IP b)
  | ARP => Ok (match b with [] => [] | _ => [ARPL b] end)
  | _ => Ok (raw_payload b)
  end.

(** ** Building *)

Definition build_layer (l : Layer) : bytes :=
  match l with
  | EtherL h => mac_bytes (eth_dst h) ++ mac_bytes (eth_src h) ++ put16 (eth_type h)
  | Dot1QL tci type => put16 tci ++ put16 type
  | IPL h =>
      [byte_of (ip_version_ihl h); byte_of (ip_tos h)]
      ++ put16 (ip_len h) ++ put16 (ip_id h) ++ put16 (ip_flags_frag h)
      ++ [byte_of (ip_ttl h); byte_of (ip_proto h)]
      ++ put16 (ip_chksum h) ++ ip_src h ++ ip_dst h ++ ip_options h
  | ARPL body => body
  | RawL load => load
  | OtherL _ body => body
  end.

Definition build (pkt : list Layer) : bytes :=
  List.concat (List.map build_layer pkt).

(** ** BLAKE2s *)

Definition w32 (x : Z) : Z := x mod 4294967296.

Definition rotr32 (x n : Z) : Z :=
  w32 (Z.lor (Z.shiftr x n) (Z.shiftl x (32 - n))).

Definition IV : list Z :=
  [0x6A09E667; 0xBB67AE85; 0x3C6EF372; 0xA54FF53A;
   0x510E527F; 0x9B05688C; 0x1F83D9AB; 0x5BE0CD19].

Definition SIGMA : list (list nat) :=
  [[0; 1; 2; 3; 4; 5; 6; 7; 8; 9; 10; 11; 12; 13; 14; 15];
   [14; 10; 4; 8; 9; 15; 13; 6; 1; 12; 0; 2; 11; 7; 5; 3];
   [11; 8; 12; 0; 5; 2; 15; 13; 10; 14; 3; 6; 7; 1; 9; 4];
   [7; 9; 3; 1; 13; 12; 11; 14; 2; 6; 5; 10; 4; 0; 15; 8];
   [9; 0; 5; 7; 2; 4; 10; 15; 14; 1; 11; 12; 6; 8; 3; 13];
   [2; 12; 6; 10; 0; 11; 8; 3; 4; 13; 7; 5; 15; 14; 1; 9];
   [12; 5; 1; 15; 14; 13; 4; 10; 0; 7; 6; 3; 9; 2; 8; 11];
   [13; 11; 7; 14; 12; 1; 3; 9; 5; 0; 15; 4; 8; 6; 2; 10];
   [6; 15; 14; 9; 11; 3; 0; 8; 12; 2; 13; 7; 1; 4; 10; 5];
   [10; 2; 8; 4; 7; 6; 1; 5; 15; 11; 9; 14; 3; 12; 13; 0]]%nat.

Definition word (v : list Z) (i : nat) : Z := List.nth i v 0.

Fixpoint set_word (i : nat) (x : Z) (v : list Z) : list Z :=
  match v, i with
  | [], _ => []
  | _ :: rest, O => x :: rest
  | y :: rest, S i' => y :: set_word i' x rest
  end.

Definition G (a b c d : nat) (x y : Z) (v : list Z) : list Z :=
  let va := w32 (word v a + word v b + x) in
  let vd := rotr32 (Z.lxor (word v d) va) 16 in
  let vc := w32 (word v c + vd) in
  let vb := rotr32 (Z.lxor (word v b) vc) 12 in
  let va := w32 (va + vb + y) in
  let vd := rotr32 (Z.lxor vd va) 8 in
  let vc := w32 (vc + vd) in
  let vb := rotr32 (Z.lxor vb vc) 7 in
  set_word a va (set_word b vb (set_word c vc (set_word d vd v))).

Definition round (m : list Z) (s : list nat) (v : list Z) : list Z :=
  let mw i := word m (List.nth i s O) in
  let v := G 0 4 8 12 (mw 0%nat) (mw 1%nat) v in
  let v := G 1 5 9 13 (mw 2%nat) (mw 3%nat) v in
  let v := G 2 6 10 14 (mw 4%nat) (mw 5%nat) v in
  let v := G 3 7 11 15 (mw 6%nat) (mw 7%nat) v in
  let v := G 0 5 10 15 (mw 8%nat) (mw 9%nat) v in
  let v := G 1 6 11 12 (mw 10%nat) (mw 11%nat) v in
  let v := G 2 7 8 13 (mw 12%nat) (mw 13%nat) v in
  G 3 4 9 14 (mw 14%nat) (mw 15%nat) v.

(** The compression function: state [h], message block [m] as sixteen
    words, byte counter [t], last-block flag [last]. *)
Definition compress (h m : list Z) (t : Z) (last : bool) : list Z :=
  let v := h ++ IV in
  let v := set_word 12 (Z.lxor (word v 12) (w32 t)) v in
  let v := set_word 13 (Z.lxor (word v 13) (w32 (Z.shiftr t 32))) v in
  let v := if last then set_word 14 (Z.lxor (word v 14) 0xFFFFFFFF) v else v in
  let v := List.fold_left (fun v s => round m s v) SIGMA v in
  List.map (fun i => Z.lxor (Z.lxor (word h i) (word v i)) (word v (i + 8)))
           (List.seq 0 8).

(** Little-endian words of a block, zero-padded to sixteen words. *)
Fixpoint le_words (n : nat) (b : list Z) : list Z :=
  match n with
  | O => []
  | S n' =>
      match b with
      | b0 :: b1 :: b2 :: b3 :: rest =>
          (b0 + 256 * b1 + 65536 * b2 + 16777216 * b3) :: le_words n' rest
      | [b0; b1; b2] => (b0 + 256 * b1 + 65536 * b2) :: le_words n' []
      | [b0; b1] => (b0 + 256 * b1) :: le_words n' []
      | [b0] => b0 :: le_words n' []
      | [] => 0 :: le_words n' []
      end
  end.

(** Absorb the message: full blocks while more input follows, the rest
    (possibly empty, possibly a full block) as the last block. *)
Fixpoint absorb (fuel : nat) (h : list Z) (t : Z) (data : list Z) : list Z :=
  match fuel with
  | O => h
  | S fuel' =>
      if (Z.of_nat (length data) <=? 64) then
        compress h (le_words 16 data) (t + Z.of_nat (length data)) true
      else
        absorb fuel' (compress h (le_words 16 (firstn 64 data)) (t + 64) false)
               (t + 64) (skipn 64 data)
  end.

Definition le_bytes (x : Z) : bytes :=
  [byte_of x; byte_of (Z.shiftr x 8); byte_of (Z.shiftr x 16);
   byte_of (Z.shiftr x 24)].

Definition blake2s_digest (data : bytes) : bytes :=
  let h0 := set_word 0 (Z.lxor (word IV 0) 0x01010020) IV in
  let h := absorb (S (length data)) h0 0 (List.map byte_val data) in
  List.concat (List.map le_bytes h).

Definition blake2s (data : bytes) : string :=
  String.concat "" (List.map hex2 (blake2s_digest data)).

End Wire.

(** * The store behind the pipeline

    Redis as the module relies on it: hash records, sets and expiry times
    under string keys, and the five commands the pipelines are made of.
    A command executed from a pipeline without a transaction changes the
    store on its own, in the order the commands were buffered. *)

#[global] Instance byte_eq_decision : EqDecision byte := Byte.byte_eq_dec.

#[global] Instance pyval_eq_decision : EqDecision pyval.
Proof. solve_decision. Defined.

Record Store : Type := {
  hashes : gmap string (gmap string pyval);
  sets : gmap string (list pyval);
  expiry : gmap string Z;
}.

Definition record_of (st : Store) (key : string) : gmap string pyval :=
  default ∅ (hashes st !! key).

(** [HGET key field] *)
Definition hget (st : Store) (key field : string) : option pyval :=
  record_of st key !! field.

Definition put_record (key : string) (r : gmap string pyval) (st : Store) : Store :=
  {| hashes := <[key := r]> (hashes st); sets := sets st; expiry := expiry st |}.

Definition hset_fields (mapping : list (string * pyval)) (r : gmap string pyval)
    : gmap string pyval :=
  List.fold_left (fun r kv => <[fst kv := snd kv]> r) mapping r.

Definition apply_op (op : Op) (st : Store) : Store :=
  match op with
  | HSet key mapping =>
      put_record key (hset_fields mapping (record_of st key)) st
  | HSetNX key field value =>
      match record_of st key !! field with
      | Some _ => st
      | None => put_record key (<[field := value]> (record_of st key)) st
      end
  | HIncrBy key field amount =>
      match record_of st key !! field with
      | None => put_record key (<[field := VInt amount]> (record_of st key)) st
      | Some (VInt n) =>
          put_record key (<[field := VInt (n + amount)]> (record_of st key)) st
      | Some _ => st
      end
  | SAdd key member =>
      let members := default [] (sets st !! key) in
      if decide (member ∈ members) then st
      else {| hashes := hashes st;
              sets := <[key := members ++ [member]]> (sets st);
              expiry := expiry st |}
  | Expire key seconds =>
      {| hashes := hashes st; sets := sets st;
         expiry := <[key := seconds]> (expiry st) |}
  end.

Definition empty_store : Store :=
  {| hashes := ∅; sets := ∅; expiry := ∅ |}.

(** The store after a submitted pipeline. *)
Definition exec_batch (ops : list Op) (st : Store) : Store :=
  List.fold_left (fun st op => apply_op op st) ops st.

(** Whether a command writes field [field] of the hash at [key]. *)
Definition writes_field (key field : string) (op : Op) : bool :=
  match op with
  | HSet k mapping =>
      String.eqb k key && List.existsb (fun kv => String.eqb (fst kv) field) mapping
  | HSetNX k f _ => String.eqb k key && String.eqb f field
  | HIncrBy k f _ => String.eqb k key && String.eqb f field
  | SAdd _ _ => false
  | Expire _ _ => false
  end.

Definition is_Expire (op : Op) : bool :=
  match op with Expire _ _ => true | _ => false end.

(** * The DNS analyser's callback *)

(** Modelled from the spec: [DNSMonitorWorker.process_packet]
    (nx/workers/susan.py is not among the sources, only its test is).  The
    end-to-end scenario of section 8 has the analyser append its
    protocol-extension writes and then a TTL of 2,419,200 seconds on the
    packet record, before the heartbeat.  The protocol-extension writes are
    left to [protocol_writes]; the spec does not fix them beyond that
    scenario. *)
Definition DNSMonitorWorker_process_packet
    (protocol_writes : process_packet_kwargs -> list Op)
    (kw : process_packet_kwargs) : list Op * result pyval :=
  (protocol_writes kw ++ [Expire (kw_packet_key kw) 2419200], Ok VNone).

(** * Sample frames and workers *)

Module Sample.

Definition mac_dst : bytes := [xc8; xe1; x30; xba; xbe; x23].
Definition mac_src : bytes := [x00; x0d; xf7; x12; xca; xfe].

(** An IPv4 header 1.2.3.4 -> 5.6.7.8, UDP, with the given identification
    and header checksum bytes. *)
Definition ipv4_header (i0 i1 c0 c1 : byte) : bytes :=
  [x45; x00; x00; x1c; i0; i1; x00; x00; x40; x11; c0; c1;
   x01; x02; x03; x04; x05; x06; x07; x08].

Definition udp_datagram : bytes := [x30; x39; x00; x35; x00; x08; x00; x00].

(** Ether / IP / UDP *)
Definition frame_ipv4 (i0 i1 c0 c1 : byte) : bytes :=
  mac_dst ++ mac_src ++ [x08; x00] ++ ipv4_header i0 i1 c0 c1 ++ udp_datagram.

(** Ether / 802.1Q (VLAN 1) / IP / UDP *)
Definition frame_vlan_ipv4 : bytes :=
  mac_dst ++ mac_src ++ [x81; x00; x00; x01; x08; x00]
  ++ ipv4_header x00 x01 x6a xcd ++ udp_datagram.

(** Ether / ARP: who-has 5.6.7.8 tell 1.2.3.4 *)
Definition frame_arp : bytes :=
  [xff; xff; xff; xff; xff; xff] ++ mac_src ++ [x08; x06]
  ++ [x00; x01; x08; x00; x06; x04; x00; x01] ++ mac_src
  ++ [x01; x02; x03; x04; x00; x00; x00; x00; x00; x00; x05; x06; x07; x08].

(** Ether with Ethernet type 0x88cc (LLDP), which is neither IPv4 nor ARP *)
Definition frame_lldp : bytes :=
  mac_dst ++ mac_src ++ [x88; xcc; x02; x07; x04; x00].

Definition t0 : timestamp := 1686086875268219.

(** A frame as [sniff] delivers it from an Ethernet interface. *)
Definition captured_at (t : timestamp) (frame : bytes) : Packet :=
  {| layers := match Wire.dissect_Ether frame with
               | Ok pkt => pkt
               | Raise _ => [RawL frame]
               end;
     original := frame;
     time := t;
     sniffed_on := "wlx0023cafebabe" |}.

Definition captured (frame : bytes) : Packet := captured_at t0 frame.

(** A packet from a capture with no Ethernet header (Linux cooked mode). *)
Definition cooked : Packet :=
  {| layers := [OtherL "CookedLinux" [x00; x00; x03; x04]; RawL udp_datagram];
     original := [x00; x00; x03; x04] ++ udp_datagram;
     time := t0;
     sniffed_on := "any" |}.

(** The writes of the scenario's DNS query. *)
Definition dns_query_writes (kw : process_packet_kwargs) : list Op :=
  [HSet "dnsq:nx.example.com.:IN:A"
     [("last_seen", VTime (time (kw_packet kw)));
      ("last_seen_in", str_or_None (kw_packet_hash kw))];
   SAdd "dns_queries" (VStr "nx.example.com.:IN:A");
   HSet "dnsq_pkts:nx.example.com.:IN:A"
     [(fstr (kw_packet_hash kw), VTime (time (kw_packet kw)))];
   HSet (kw_mac_key kw) [("last_dns_query", VStr "nx.example.com.:IN:A")]].

(** The libraries as they are, with the analyser and the store's answers
    as given. *)
Definition externals
    (callback : process_packet_kwargs -> list Op * result pyval)
    (answer : Db -> list Op -> result unit) : Externals :=
  {| scapy_dissect := Wire.dissect;
     scapy_build := fun pkt => Ok (Wire.build pkt);
     blake2s_hexdigest := fun data => Ok (Wire.blake2s data);
     process_packet := callback;
     db_execute := answer;
     WANTED_PACKETS := "udp port 53";
     IFACES := [{| dev_name := "lo"; is_valid := true; flags := 73 |};
                {| dev_name := "wlx0023cafebabe"; is_valid := true; flags := 4163 |}];
     sys_executable := "/usr/bin/python3";
     sys_argv := ["/usr/bin/susan"] |}.

Definition store_ok (_ : Db) (_ : list Op) : result unit := Ok tt.

Definition store_down (_ : Db) (_ : list Op) : result unit :=
  Raise (Exception "ConnectionError").

(** The DNS analyser against a store that answers. *)
Definition susan_ext : Externals :=
  externals (DNSMonitorWorker_process_packet dns_query_writes) store_ok.

(** An analyser whose callback writes one command and then fails. *)
Definition failing_callback (kw : process_packet_kwargs) : list Op * result pyval :=
  ([SAdd "dns_queries" (VStr "nx.example.com.:IN:A")],
   Raise (Exception "ValueError")).

Definition failing_ext : Externals := externals failing_callback store_ok.

(** The libraries with a hash call that fails. *)
Definition unhashable_ext : Externals :=
  {| scapy_dissect := Wire.dissect;
     scapy_build := fun pkt => Ok (Wire.build pkt);
     blake2s_hexdigest := fun _ => Raise (Exception "TypeError");
     process_packet := DNSMonitorWorker_process_packet dns_query_writes;
     db_execute := store_ok;
     WANTED_PACKETS := "udp port 53";
     IFACES := [];
     sys_executable := "/usr/bin/python3";
     sys_argv := ["/usr/bin/susan"] |}.

Definition susan : Worker := RedisClientWorker_init "Susan" {| submitted := [] |}.

(** The worker once [run] has started it. *)
Definition susan_running (waiting : bool) : Worker :=
  with_waiting_to_restart waiting
    (with_cmd ["/usr/bin/python3"; "/usr/bin/susan"] susan).

End Sample.

(** * Secrets ([Worker.load_secret])

    A worker's secrets come from the environment first and from a file
    under the configuration directory second.  [os.getenv], the validity
    test and the audited file read belong to other modules and are taken as
    given; the state of these methods is the list of paths handed to
    [audited_open], in order.

    A Python [str] is held as the bytes of its UTF-8 encoding.  [str.upper]
    follows the Unicode case mappings, so it is taken as given as well
    ([str_upper]); what is known of it here is its restriction to ASCII
    text, [upper].  Replacing the ASCII character "." byte by byte is what
    [str.replace] does on the encoded text, since that byte occurs in no
    multi-byte sequence. *)

Definition ascii_upper (c : ascii) : ascii :=
  let n := nat_of_ascii c in
  if ((97 <=? n) && (n <=? 122))%nat then ascii_of_nat (n - 32) else c.

(** What [str.upper()] does to ASCII text: a-z become A-Z, nothing else
    changes. *)
Fixpoint upper (s : string) : string :=
  match s with
  | EmptyString => EmptyString
  | String c rest => String (ascii_upper c) (upper rest)
  end.

(** [s.replace(old, new)] for single characters. *)
Fixpoint replace (old new : ascii) (s : string) : string :=
  match s with
  | EmptyString => EmptyString
  | String c rest =>
      String (if Ascii.eqb c old then new else c) (replace old new rest)
  end.

Definition is_ascii_lowercase (c : ascii) : bool :=
  let n := nat_of_ascii c in ((97 <=? n) && (n <=? 122))%nat.

(** [c] is an ASCII character (a one-byte code point). *)
Definition is_ascii_char (c : ascii) : bool := (nat_of_ascii c <? 128)%nat.

Fixpoint all_chars (test : ascii -> bool) (s : string) : bool :=
  match s with
  | EmptyString => true
  | String c rest => test c && all_chars test rest
  end.

(** [s.isascii()] *)
Definition is_ascii (s : string) : bool := all_chars is_ascii_char s.

Definition startswith_sep (s : string) : bool :=
  match s with
  | String c _ => Ascii.eqb c "/"
  | EmptyString => false
  end.

Fixpoint endswith_sep (s : string) : bool :=
  match s with
  | EmptyString => false
  | String c EmptyString => Ascii.eqb c "/"
  | String _ rest => endswith_sep rest
  end.

(** One round of the loop of [os.path.join] on POSIX: an absolute
    component replaces what was joined so far. *)
Definition join_step (path b : string) : string :=
  if startswith_sep b then b
  else if String.eqb path "" || endswith_sep path then path +:+ b
  else path +:+ "/" +:+ b.

(** [os.path.join(a, *p)] *)
Definition os_path_join (a : string) (p : list string) : string :=
  List.fold_left join_step p a.

Record SecretSources : Type := {
  (** [str.upper] *)
  str_upper : string -> string;
  (** [os.getenv] *)
  os_getenv : string -> option string;
  (** [is_valid_secret] of the audit module, also asked about [None] *)
  is_valid_secret : option string -> bool;
  (** [audited_open(path).read()] *)
  audited_open_read : string -> result string;
}.

(** [KeyError(key)] *)
Definition KeyError (key : string) : exn := Exception ("KeyError: " +:+ key).

Module WorkerSecrets.
Section Methods.
Context (src : SecretSources) (self : Worker).

Definition _getenv_secret (key : string) : option string :=
  let key := str_upper src (WORKER_NAME self +:+ "_" +:+ replace "." "_" key) in
  os_getenv src key.

Definition _readfile_secret (key : string) : Py.M (list string) (option string) :=
  let nx_confdir := os_getenv src "CONFIGURATION_DIRECTORY" in
  match nx_confdir with
  | None => Py.ret None
  | Some EmptyString => Py.ret None
  | Some confdir =>
      let path := os_path_join confdir [lower (WORKER_NAME self); key] in
      let* _ := Py.modify (fun opened => opened ++ [path]) in
      let* text := Py.call (audited_open_read src path) in
      Py.ret (Some text)
  end.

Definition load_secret (key : string) : Py.M (list string) (option string) :=
  let value := _getenv_secret key in
  if is_valid_secret src value then Py.ret value
  else
    let* value := _readfile_secret key in
    if is_valid_secret src value then Py.ret value
    else Py.raise (KeyError key).

End Methods.
End WorkerSecrets.

(** Sample sources: one secret in the environment, one in a file. *)
Definition sample_secrets : SecretSources :=
  {| str_upper := upper;
     os_getenv := fun k =>
       if String.eqb k "SUSAN_REDIS_PASSWORD" then Some "hunter2"
       else if String.eqb k "CONFIGURATION_DIRECTORY" then Some "/etc/nx"
       else None;
     is_valid_secret := fun v =>
       match v with
       | Some text => negb (String.eqb text "")
       | None => false
       end;
     audited_open_read := fun path =>
       if String.eqb path "/etc/nx/susan/api.token" then Ok "s3cret"
       else if String.eqb path "/etc/nx/susan/empty" then Ok ""
       else Raise (Exception "FileNotFoundError") |}.

(** The same sources without a configuration directory. *)
Definition sample_secrets_no_confdir : SecretSources :=
  {| str_upper := upper;
     os_getenv := fun k =>
       if String.eqb k "SUSAN_REDIS_PASSWORD" then Some "hunter2" else None;
     is_valid_secret := is_valid_secret sample_secrets;
     audited_open_read := audited_open_read sample_secrets |}.

(** * Reasoning about computations *)

(** ** Invariants kept by a computation, whatever its outcome *)

Section Keeps.
Context {S : Type} (I : S -> Prop).



Lemma keeps_ret {A} (a : A) : keeps I (Py.ret a).
Proof. intros s Hs. exact Hs. Qed.

Lemma keeps_raise {A} (e : exn) : keeps I (@Py.raise S A e).
Proof. intros s Hs. exact Hs. Qed.

Lemma keeps_get : keeps I (@Py.get S).
Proof. intros s Hs. exact Hs. Qed.

Lemma keeps_call {A} (r : result A) : keeps I (@Py.call S A r).
Proof. intros s Hs. exact Hs. Qed.

Lemma keeps_getattr {A} (n : string) (proj : S -> option A) :
  keeps I (Py.getattr n proj).
Proof. intros s Hs. unfold Py.getattr. destruct (proj s); exact Hs. Qed.

Lemma keeps_modify (f : S -> S) :
  (forall s, I s -> I (f s)) -> keeps I (Py.modify f).
Proof. intros Hf s Hs. apply Hf, Hs. Qed.

Lemma keeps_bind {A B} (m : Py.M S A) (k : A -> Py.M S B) :
  keeps I m -> (forall a, keeps I (k a)) -> keeps I (Py.bind m k).
Proof.
  intros Hm Hk s Hs. unfold Py.bind.
  specialize (Hm s Hs). destruct (m s) as [[a|e] s1]; simpl in *.
  - apply Hk, Hm.
  - exact Hm.
Qed.

Lemma keeps_try_finally {A} (body : Py.M S A) (fin : Py.M S unit) :
  keeps I body -> keeps I fin -> keeps I (Py.try_finally body fin).
Proof.
  intros Hb Hf s Hs. unfold Py.try_finally.
  specialize (Hb s Hs). destruct (body s) as [r s1]; simpl in *.
  specialize (Hf s1 Hb). destruct (fin s1) as [[u|e] s2]; exact Hf.
Qed.

Lemma keeps_try_except {A} (body : Py.M S A) (handler : exn -> Py.M S A) :
  keeps I body -> (forall e, keeps I (handler e)) ->
  keeps I (Py.try_except body handler).
Proof.
  intros Hb Hh s Hs. unfold Py.try_except.
  specialize (Hb s Hs). destruct (body s) as [[a|e] s1]; simpl in *.
  - exact Hb.
  - apply Hh, Hb.
Qed.

Lemma keeps_for_each {A} (xs : list A) (body : A -> Py.M S unit) :
  (forall x, keeps I (body x)) -> keeps I (Py.for_each xs body).
Proof.
  intros Hb. induction xs as [|x xs IH]; simpl.
  - apply keeps_ret.
  - apply keeps_bind; [apply Hb | intros _; exact IH].
Qed.

End Keeps.

Create HintDb keeps.
#[export] Hint Resolve keeps_ret keeps_raise keeps_get keeps_call keeps_getattr
  keeps_modify keeps_bind keeps_try_finally keeps_try_except keeps_for_each
  : keeps.

(** ** What [PacketProcessor._run] leaves alone *)

Section ProcessorFrame.
Context (ext : Externals).

Lemma framed_set_issue_categories w p ops0 v s :
  framed w p ops0 s -> framed w p ops0 (PP.set_issue_categories v s).
Proof. intros H; exact H. Qed.

Lemma framed_set_ether_layer w p ops0 v s :
  framed w p ops0 s -> framed w p ops0 (PP.set_ether_layer v s).
Proof. intros H; exact H. Qed.

Lemma framed_set_packet_hash w p ops0 v s :
  framed w p ops0 s -> framed w p ops0 (PP.set_packet_hash v s).
Proof. intros H; exact H. Qed.

Lemma framed_set_src_mac w p ops0 v s :
  framed w p ops0 s -> framed w p ops0 (PP.set_src_mac v s).
Proof. intros H; exact H. Qed.

Lemma framed_set_common_fields w p ops0 v s :
  framed w p ops0 s -> framed w p ops0 (PP.set_common_fields v s).
Proof. intros H; exact H. Qed.

Lemma framed_set_packet_key w p ops0 v s :
  framed w p ops0 s -> framed w p ops0 (PP.set_packet_key v s).
Proof. intros H; exact H. Qed.

Lemma framed_set_mac_key w p ops0 v s :
  framed w p ops0 s -> framed w p ops0 (PP.set_mac_key v s).
Proof. intros H; exact H. Qed.

Lemma framed_extend w p ops0 buffered more s :
  framed w p ops0 s -> pipeline s = Some buffered ->
  framed w p ops0 (PP.set_pipeline (buffered ++ more) s).
Proof.
  intros (Hw & Hp & ops & Hops) Hb. rewrite Hops in Hb. inversion Hb; subst.
  repeat split; simpl. exists (ops ++ more). by rewrite app_assoc.
Qed.

Hint Resolve framed_set_issue_categories framed_set_ether_layer
  framed_set_packet_hash framed_set_src_mac framed_set_common_fields
  framed_set_packet_key framed_set_mac_key : keeps.

Lemma keeps_pipeline_extend w p ops0 ops :
  keeps (framed w p ops0) (PacketProcessor_.pipeline_extend ops).
Proof.
  intros s Hs. unfold PacketProcessor_.pipeline_extend, Py.bind, Py.getattr.
  destruct (pipeline s) as [buffered|] eqn:Hb; simpl; [|exact Hs].
  by apply framed_extend.
Qed.

Lemma keeps_pipeline_append w p ops0 op :
  keeps (framed w p ops0) (PacketProcessor_.pipeline_append op).
Proof. apply (@keeps_pipeline_extend w p ops0 [op]). Qed.

Lemma keeps_record_issue w p ops0 c :
  keeps (framed w p ops0) (PacketProcessor_.record_issue c).
Proof. unfold PacketProcessor_.record_issue. auto with keeps. Qed.

Lemma keeps_ether_layer w p ops0 :
  keeps (framed w p ops0) PacketProcessor_.ether_layer.
Proof.
  unfold PacketProcessor_.ether_layer.
  apply keeps_bind; [auto with keeps|]. intros self.
  destruct (_ether_layer self); [auto with keeps|].
  apply keeps_bind; [auto with keeps|]. intros _.
  apply keeps_bind; [auto with keeps|]. intros self'.
  destruct (_ether_layer self'); auto with keeps.
Qed.

Hint Resolve keeps_pipeline_extend keeps_pipeline_append keeps_record_issue
  keeps_ether_layer : keeps.

(** One step of a sequence: the first computation by the hint base, the
    continuation left as the goal. *)
Ltac keeps_step :=
  cbv zeta;
  lazymatch goal with
  | |- keeps _ (Py.bind _ _) =>
      apply keeps_bind; [solve [auto with keeps] | intros ?]
  end.

Lemma keeps__packet_hash_bytes w p ops0 :
  keeps (framed w p ops0) (PacketProcessor_._packet_hash_bytes ext).
Proof.
  unfold PacketProcessor_._packet_hash_bytes.
  keeps_step. keeps_step.
  match goal with el : option Layer |- _ => destruct el as [eth|] end;
    [|auto with keeps].
  keeps_step.
  destruct (getlayer IP _); [auto with keeps|].
  cbv zeta; apply keeps_bind; [|auto with keeps].
  destruct (negb (haslayer ARP _)); auto with keeps.
Qed.

Lemma keeps__packet_hash w p ops0 :
  keeps (framed w p ops0) (PacketProcessor_._packet_hash ext).
Proof.
  unfold PacketProcessor_._packet_hash.
  apply keeps_bind; [apply keeps__packet_hash_bytes | auto with keeps].
Qed.

Lemma keeps__record_raw_packet w p ops0 :
  keeps (framed w p ops0) PacketProcessor_._record_raw_packet.
Proof.
  unfold PacketProcessor_._record_raw_packet.
  repeat keeps_step. auto with keeps.
Qed.

Lemma keeps__record_device_sighting w p ops0 :
  keeps (framed w p ops0) PacketProcessor_._record_device_sighting.
Proof.
  unfold PacketProcessor_._record_device_sighting.
  repeat keeps_step. cbv zeta.
  destruct (packet_hash _); auto with keeps.
Qed.

Hint Resolve keeps__packet_hash keeps__record_raw_packet
  keeps__record_device_sighting : keeps.

Lemma keeps__run w p ops0 :
  keeps (framed w p ops0) (PacketProcessor_._run ext).
Proof.
  unfold PacketProcessor_._run.
  keeps_step. keeps_step. keeps_step.
  cbv zeta; apply keeps_bind.
  { match goal with el : option Layer |- _ => destruct el end; auto with keeps. }
  intros _.
  keeps_step. keeps_step. keeps_step. keeps_step. keeps_step.
  apply keeps_bind.
  { match goal with el : option Layer |- _ => destruct el as [[]|] end;
      auto 6 with keeps. }
  intros _.
  keeps_step. keeps_step.
  match goal with el : option Layer |- _ => destruct el as [eth|] end;
    [|auto with keeps].
  repeat keeps_step.
  destruct (process_packet ext _) as [appended outcome].
  auto with keeps.
Qed.

End ProcessorFrame.

(** ** The pipeline [PacketProcessor.run] submits *)

Section RunShape.
Context (ext : Externals).

Lemma after__run_framed w p : framed w p [] (after__run ext w p).
Proof.
  apply keeps__run. repeat split. by exists [].
Qed.

Lemma after__run_pipeline w p :
  pipeline (after__run ext w p) = Some (body_ops ext w p).
Proof.
  unfold body_ops. destruct (after__run_framed w p) as (_ & _ & more & ->).
  reflexivity.
Qed.

Lemma pipeline_append_eq (s : PacketProcessor) ops op :
  pipeline s = Some ops ->
  PacketProcessor_.pipeline_append op s
  = (Ok tt, PP.set_pipeline (ops ++ [op]) s).
Proof.
  intros Hs. unfold PacketProcessor_.pipeline_append, Py.bind, Py.getattr.
  rewrite Hs. reflexivity.
Qed.

Lemma flush_issue_categories (cats : list string) (s : PacketProcessor) ops :
  pipeline s = Some ops ->
  Py.for_each cats
    (fun set =>
       let* self := Py.get in
       PacketProcessor_.pipeline_append
         (SAdd set (str_or_None (packet_hash self)))) s
  = (Ok tt,
     PP.set_pipeline
       (ops ++ List.map (fun set => SAdd set (str_or_None (packet_hash s))) cats) s).
Proof.
  set (body := fun set : string => Py.bind Py.get _).
  revert s ops. induction cats as [|c cats IH]; intros s ops Hs; simpl.
  - unfold Py.ret. f_equal. rewrite app_nil_r.
    destruct s; simpl in *; subst; reflexivity.
  - unfold Py.bind at 1.
    assert (body c s
            = (Ok tt, PP.set_pipeline
                        (ops ++ [SAdd c (str_or_None (packet_hash s))]) s)) as ->.
    { unfold body, Py.bind at 1, Py.get. by apply pipeline_append_eq. }
    rewrite (IH (PP.set_pipeline (ops ++ [SAdd c (str_or_None (packet_hash s))]) s)
                (ops ++ [SAdd c (str_or_None (packet_hash s))]) eq_refl).
    f_equal. simpl. rewrite <- app_assoc. reflexivity.
Qed.

(** [run] in closed form: the outcome and final state in terms of what
    [_run] did. *)
Lemma run_closed_form w p :
  PacketProcessor_.run ext (PacketProcessor_.__init__ w p)
  = (match db_execute ext (db w) (batch ext w p) with
     | Raise e => Raise e
     | Ok _ => match outcome__run ext w p with
               | Ok _ => Ok tt
               | Raise e => Raise e
               end
     end,
     PP.set_pipeline []
       (PP.set_worker
          (with_db {| submitted := submitted (db w) ++ [batch ext w p] |} w)
          (after__run ext w p))).
Proof.
  pose proof (after__run_framed w p) as (Hw & Hp & _).
  pose proof (after__run_pipeline w p) as Hops.
  unfold batch, PacketProcessor_.run.
  unfold Py.bind at 1. simpl.
  unfold Py.bind at 1. simpl.
  fold (run_start w p).
  unfold Py.try_finally at 1.
  unfold Py.try_finally at 1.
  unfold Py.try_finally at 1.
  unfold Py.bind at 1.
  unfold after__run, outcome__run in *.
  destruct (PacketProcessor_._run ext (run_start w p)) as [r1 s1] eqn:E1.
  simpl in *.
  set (r1' := match r1 with Ok _ => Ok tt | Raise e => Raise e end).
  replace (match r1 with Ok _ => Py.ret tt s1 | Raise e => (Raise e, s1) end)
    with (r1', s1) by (destruct r1; reflexivity).
  unfold Py.bind at 1, Py.get.
  rewrite (flush_issue_categories _ s1 Hops).
  fold (issue_ops s1).
  rewrite (@pipeline_append_eq _ (body_ops ext w p ++ issue_ops s1)) by reflexivity.
  unfold PacketProcessor_.pipeline_execute, Py.bind, Py.getattr, Py.get,
    Py.modify, Py.call.
  simpl. rewrite Hw. unfold heartbeat_op. rewrite <- app_assoc.
  destruct (db_execute ext (db w) _); reflexivity.
Qed.

End RunShape.

(** ** The fingerprint as a function of the packet

    [_packet_hash_bytes] reads the processor only through its link-layer
    view and the packet's bytes.  The functions below say what it returns
    and which set keys it records for them; [_packet_hash_bytes_eq] ties
    them to the method. *)

Section Fingerprint.
Context (ext : Externals).

Lemma ether_layer_eq s :
  PacketProcessor_.ether_layer s
  = (Ok (ether_view s), PP.set_ether_layer (ether_view s) s).
Proof.
  unfold PacketProcessor_.ether_layer, ether_view, Py.bind, Py.get, Py.modify,
    Py.ret.
  destruct s as [w p cats [l|] h m pl cf pk mk]; reflexivity.
Qed.

Lemma _packet_hash_bytes_eq s :
  PacketProcessor_._packet_hash_bytes ext s
  = (hash_input ext (ether_view s) (original (packet s)),
     PP.set_issue_categories
       (_issue_categories s ++ hash_issues ext (ether_view s) (original (packet s)))
       (PP.set_ether_layer (ether_view s) s)).
Proof.
  unfold PacketProcessor_._packet_hash_bytes.
  unfold Py.bind at 1, Py.get. unfold Py.bind at 1.
  rewrite ether_layer_eq. unfold hash_input, hash_issues.
  assert (Hnil : forall v,
             PP.set_ether_layer v s
             = PP.set_issue_categories (_issue_categories s ++ [])
                 (PP.set_ether_layer v s)).
  { intros v. rewrite app_nil_r. destruct s; reflexivity. }
  destruct (ether_view s) as [eth|].
  - unfold Py.bind at 1, Py.call.
    destruct (scapy_dissect ext (layer_class eth) (original (packet s)))
      as [copy_packet|e].
    + destruct (getlayer IP copy_packet).
      * by rewrite <- Hnil.
      * destruct (haslayer ARP copy_packet); simpl.
        -- unfold Py.bind, Py.ret. by rewrite <- Hnil.
        -- reflexivity.
    + by rewrite <- Hnil.
  - unfold Py.ret. by rewrite <- Hnil.
Qed.

Lemma _packet_hash_eq s :
  PacketProcessor_._packet_hash ext s
  = (fingerprint ext (ether_view s) (original (packet s)),
     PP.set_issue_categories
       (_issue_categories s ++ hash_issues ext (ether_view s) (original (packet s)))
       (PP.set_ether_layer (ether_view s) s)).
Proof.
  unfold PacketProcessor_._packet_hash, Py.bind, fingerprint.
  rewrite _packet_hash_bytes_eq.
  destruct (hash_input _ _); reflexivity.
Qed.

Lemma getlayer_class cls pkt l : getlayer cls pkt = Some l -> layer_is cls l = true.
Proof.
  unfold getlayer. intros H. apply List.find_some in H. tauto.
Qed.

Lemma getlayer_Ether_inv pkt l :
  getlayer Ether pkt = Some l -> exists hdr, l = EtherL hdr.
Proof.
  intros H. apply getlayer_class in H. destruct l; try discriminate. eauto.
Qed.

End Fingerprint.

(** ** [_run] in closed form *)

Section RunClosedForm.
Context (ext : Externals).

(** Symbolic execution: evaluate with sharing, keeping the calls on
    packets and strings that cannot be computed folded. *)
Ltac py_eval :=
  cbv beta iota zeta delta
    [PacketProcessor_._run PacketProcessor_._packet_hash
     PacketProcessor_._packet_hash_bytes PacketProcessor_._record_raw_packet
     PacketProcessor_._record_device_sighting PacketProcessor_.ether_layer
     PacketProcessor_.record_issue PacketProcessor_.pipeline_append
     PacketProcessor_.pipeline_extend PacketProcessor_.__init__
     Py.bind Py.get Py.modify Py.ret Py.call Py.raise Py.getattr
     PP.set_worker PP.set_issue_categories PP.set_ether_layer
     PP.set_packet_hash PP.set_src_mac PP.set_pipeline PP.set_common_fields
     PP.set_packet_key PP.set_mac_key
     worker packet _issue_categories _ether_layer packet_hash src_mac
     pipeline common_fields packet_key mac_key
     fstr str_or_None dict_setitem String.eqb Ascii.eqb Bool.eqb
     String.append app fst snd layer_class negb
     after__run outcome__run body_ops run_start
     raw_packet_ops device_ops raw_fields_of common_fields_of callback_kwargs
     fingerprint hash_input hash_issues canonical].

Ltac py_eval_in H :=
  cbv beta iota zeta delta
    [PacketProcessor_._run PacketProcessor_._packet_hash
     PacketProcessor_._packet_hash_bytes PacketProcessor_._record_raw_packet
     PacketProcessor_._record_device_sighting PacketProcessor_.ether_layer
     PacketProcessor_.record_issue PacketProcessor_.pipeline_append
     PacketProcessor_.pipeline_extend PacketProcessor_.__init__
     Py.bind Py.get Py.modify Py.ret Py.call Py.raise Py.getattr
     PP.set_worker PP.set_issue_categories PP.set_ether_layer
     PP.set_packet_hash PP.set_src_mac PP.set_pipeline PP.set_common_fields
     PP.set_packet_key PP.set_mac_key
     worker packet _issue_categories _ether_layer packet_hash src_mac
     pipeline common_fields packet_key mac_key
     fstr str_or_None dict_setitem String.eqb Ascii.eqb Bool.eqb
     String.append app fst snd layer_class negb
     after__run outcome__run body_ops run_start
     raw_packet_ops device_ops raw_fields_of common_fields_of callback_kwargs
     fingerprint hash_input hash_issues canonical] in H.

(** The first thing [_run] does with the link-layer view is to cache it,
    so it may as well start with the cache filled. *)
Lemma _run_cached w p :
  PacketProcessor_._run ext (run_start w p)
  = PacketProcessor_._run ext
      (PP.set_ether_layer (getlayer Ether (layers p)) (run_start w p)).
Proof.
  unfold PacketProcessor_._run.
  unfold Py.bind at 1. unfold Py.bind at 1. unfold Py.bind at 1.
  symmetry.
  unfold Py.bind at 1. unfold Py.bind at 1. unfold Py.bind at 1.
  symmetry.
  unfold Py.get at 1. unfold Py.modify at 1.
  unfold Py.get at 3. unfold Py.modify at 3.
  rewrite !ether_layer_eq.
  reflexivity.
Qed.

(** A packet with no link-layer view. *)
Lemma _run_no_ether w p :
  getlayer Ether (layers p) = None ->
  _issue_categories (after__run ext w p) = ["unhandled:pkts:first_layer"] /\
  match blake2s_hexdigest ext (original p) with
  | Raise e =>
      outcome__run ext w p = Raise e /\
      packet_hash (after__run ext w p) = None /\
      body_ops ext w p = []
  | Ok h =>
      outcome__run ext w p = Ok VNone /\
      packet_hash (after__run ext w p) = Some h /\
      body_ops ext w p = raw_packet_ops w p h None
  end.
Proof.
  intros He. unfold body_ops. unfold after__run, outcome__run.
  rewrite _run_cached, He.
  remember (PacketProcessor_._run ext _) as R eqn:HR.
  py_eval_in HR. revert HR.
  destruct (blake2s_hexdigest ext (original p)) as [h|e];
    intros HR; subst R; py_eval; auto.
Qed.

(** A packet with a link-layer view. *)
Lemma _run_ether w p hdr :
  getlayer Ether (layers p) = Some (EtherL hdr) ->
  _issue_categories (after__run ext w p)
    = hash_issues ext (Some (EtherL hdr)) (original p) /\
  match fingerprint ext (Some (EtherL hdr)) (original p) with
  | Raise e =>
      outcome__run ext w p = Raise e /\
      packet_hash (after__run ext w p) = None /\
      body_ops ext w p = []
  | Ok h =>
      let mac := lower (eth_src hdr) in
      let kw := callback_kwargs w p h mac in
      outcome__run ext w p = snd (process_packet ext kw) /\
      packet_hash (after__run ext w p) = Some h /\
      body_ops ext w p
        = raw_packet_ops w p h (Some mac) ++ device_ops w p h mac
          ++ fst (process_packet ext kw)
  end.
Proof.
  intros He. unfold body_ops. unfold after__run, outcome__run.
  rewrite _run_cached, He.
  remember (PacketProcessor_._run ext _) as R eqn:HR.
  py_eval_in HR. revert HR. py_eval.
  destruct (scapy_dissect ext Ether (original p)) as [copy_packet|e];
    [|intros HR; subst R; py_eval; auto].
  destruct (getlayer IP copy_packet) as [ipv4_layer|].
  - destruct (scapy_build ext _) as [data|e]; [|intros HR; subst R; py_eval; auto].
    destruct (blake2s_hexdigest ext data) as [h|e]; [|intros HR; subst R; py_eval; auto].
    destruct (process_packet ext _) as [appended outcome].
    intros HR; subst R; py_eval. destruct outcome; auto.
  - destruct (haslayer ARP copy_packet).
    + destruct (blake2s_hexdigest ext (original p)) as [h|e];
        [|intros HR; subst R; py_eval; auto].
      destruct (process_packet ext _) as [appended outcome].
      intros HR; subst R; py_eval. destruct outcome; auto.
    + destruct (blake2s_hexdigest ext (original p)) as [h|e];
        [|intros HR; subst R; py_eval; auto].
      destruct (process_packet ext _) as [appended outcome].
      intros HR; subst R; py_eval. destruct outcome; auto.
Qed.

End RunClosedForm.


(** ** The worker's restart protocol *)

Section WorkerLemmas.
Context (ext : Externals).

Lemma _checkpoint_worker_eq (w : Worker) (waiting : bool) :
  _waiting_to_restart w = Some waiting ->
  WorkerBase._checkpoint_worker w
  = if waiting
    then (Raise RestartWorker, with_effect (LogInfo "going down for restart") w)
    else (Ok tt, w).
Proof.
  intros H. unfold WorkerBase._checkpoint_worker, Py.bind, Py.getattr.
  rewrite H. destruct waiting; reflexivity.
Qed.

Lemma _handle_SIGHUP_first (w : Worker) :
  _waiting_to_restart w = Some false ->
  WorkerBase._handle_SIGHUP w
  = (Ok tt,
     with_waiting_to_restart true
       (with_effect (LogInfo "received SIGHUP, will restart at next checkpoint") w)).
Proof.
  intros H. unfold WorkerBase._handle_SIGHUP, Py.bind, Py.getattr.
  rewrite H. reflexivity.
Qed.

Lemma _handle_SIGHUP_second (w : Worker) :
  _waiting_to_restart w = Some true ->
  WorkerBase._handle_SIGHUP w
  = (Raise RestartWorker,
     with_effect (LogInfo "going down for restart")
       (with_effect (LogInfo "received second SIGHUP, forcing restart now") w)).
Proof.
  intros H. unfold WorkerBase._handle_SIGHUP, Py.bind, Py.getattr.
  rewrite H. cbn.
  unfold WorkerBase._checkpoint_worker, Py.bind, Py.getattr. cbn.
  rewrite H. reflexivity.
Qed.

Lemma _wrapped_process_packet_eq
    (process : Packet -> Py.M Worker pyval) (p : Packet) (w : Worker) (waiting : bool) :
  _waiting_to_restart (snd (process p w)) = Some waiting ->
  PacketSnifferWorker._wrapped_process_packet process p w
  = let w1 := after_except (fst (process p w)) (snd (process p w)) in
    if waiting
    then (Raise RestartWorker, with_effect (LogInfo "going down for restart") w1)
    else (match fst (process p w) with Ok v => Ok v | Raise _ => Ok VNone end, w1).
Proof.
  intros H.
  unfold PacketSnifferWorker._wrapped_process_packet, Py.try_finally, Py.try_except.
  destruct (process p w) as [[v|e] w1]; simpl in *.
  - rewrite (_checkpoint_worker_eq _ H). destruct waiting; reflexivity.
  - unfold Py.bind, WorkerBase.log_error, Py.modify, Py.ret.
    rewrite (@_checkpoint_worker_eq _ waiting) by exact H.
    destruct waiting; reflexivity.
Qed.

Lemma _process_packet_eq (p : Packet) (w : Worker) :
  PacketSnifferWorker._process_packet ext p w
  = (match db_execute ext (db w) (batch ext w p) with
     | Raise e => Raise e
     | Ok _ => match outcome__run ext w p with
               | Ok _ => Ok VNone
               | Raise e => Raise e
               end
     end,
     with_db {| submitted := submitted (db w) ++ [batch ext w p] |} w).
Proof.
  unfold PacketSnifferWorker._process_packet. rewrite run_closed_form. simpl.
  destruct (db_execute ext (db w) (batch ext w p)); [|reflexivity].
  destruct (outcome__run ext w p); reflexivity.
Qed.

Lemma started_with_effect c calls e w :
  is_Execv e = false -> started c calls w -> started c calls (with_effect e w).
Proof.
  intros He (Hc & Hw & Hx). repeat split; try assumption.
  unfold execv_calls in *. simpl. rewrite List.filter_app. simpl.
  rewrite He, app_nil_r. exact Hx.
Qed.

Lemma started_with_waiting_to_restart c calls b w :
  started c calls w -> started c calls (with_waiting_to_restart b w).
Proof. intros (Hc & Hw & Hx). repeat split; try assumption. simpl. eauto. Qed.

Lemma started_with_db c calls d w :
  started c calls w -> started c calls (with_db d w).
Proof. intros H. exact H. Qed.

Lemma keeps_log_info c calls msg :
  keeps (started c calls) (WorkerBase.log_info msg).
Proof. apply keeps_modify. intros w. by apply started_with_effect. Qed.

Lemma keeps_log_error c calls msg e :
  keeps (started c calls) (WorkerBase.log_error msg e).
Proof. apply keeps_modify. intros w. by apply started_with_effect. Qed.

Hint Resolve keeps_log_info keeps_log_error started_with_waiting_to_restart
  : keeps.

Lemma keeps__checkpoint_worker c calls :
  keeps (started c calls) WorkerBase._checkpoint_worker.
Proof.
  unfold WorkerBase._checkpoint_worker.
  apply keeps_bind; [auto with keeps|]. intros waiting.
  destruct (negb waiting); auto with keeps.
Qed.

Lemma keeps__handle_SIGHUP c calls :
  keeps (started c calls) WorkerBase._handle_SIGHUP.
Proof.
  unfold WorkerBase._handle_SIGHUP.
  apply keeps_bind; [auto with keeps|]. intros waiting.
  apply keeps_bind.
  { destruct waiting; [|auto with keeps].
    apply keeps_bind; [auto with keeps|]. intros _.
    apply keeps__checkpoint_worker. }
  intros _. auto with keeps.
Qed.

Lemma keeps__process_packet c calls p :
  keeps (started c calls) (PacketSnifferWorker._process_packet ext p).
Proof. intros w Hw. rewrite _process_packet_eq. exact Hw. Qed.

Lemma keeps__wrapped_process_packet c calls process p :
  (forall q, keeps (started c calls) (process q)) ->
  keeps (started c calls) (PacketSnifferWorker._wrapped_process_packet process p).
Proof.
  intros Hp. unfold PacketSnifferWorker._wrapped_process_packet.
  apply keeps_try_finally; [|apply keeps__checkpoint_worker].
  apply keeps_try_except; [apply Hp|]. intros e. auto with keeps.
Qed.

Lemma keeps_sniff c calls prn events :
  (forall q, keeps (started c calls) (prn q)) ->
  keeps (started c calls) (PacketSnifferWorker.sniff prn events).
Proof.
  intros Hp. induction events as [|[q|] rest IH]; simpl.
  - auto with keeps.
  - apply keeps_bind; [apply Hp | intros _; exact IH].
  - apply keeps_bind; [apply keeps__handle_SIGHUP | intros _; exact IH].
Qed.

(** [run] always gets past its start-up. *)
Lemma run_with_eq process events w0 :
  PacketSnifferWorker.run_with ext process events w0
  = PacketSnifferWorker.sniff
      (PacketSnifferWorker._wrapped_process_packet process) events
      (after_startup ext w0).
Proof. reflexivity. Qed.

Lemma after_startup_started w0 :
  started ([sys_executable ext] ++ sys_argv ext) (execv_calls w0)
          (after_startup ext w0).
Proof.
  repeat split; simpl; eauto.
  unfold execv_calls. simpl. rewrite !List.filter_app. simpl.
  by rewrite !app_nil_r.
Qed.

(** From there on the worker stays started with the invocation vector it
    captured. *)
Lemma run_with_started process events w0 :
  (forall c calls q, keeps (started c calls) (process q)) ->
  started ([sys_executable ext] ++ sys_argv ext) (execv_calls w0)
          (snd (PacketSnifferWorker.run_with ext process events w0)).
Proof.
  intros Hp. rewrite run_with_eq.
  apply keeps_sniff; [|apply after_startup_started].
  intros q. by apply keeps__wrapped_process_packet.
Qed.

End WorkerLemmas.

(** * The specification's claims *)

(** ** C1: what a packet's pipeline always carries *)

(** C1.  Whatever the externals answer or raise while one packet is
    processed (the scapy calls, the hash, the analyser's callback, the store
    itself), [PacketProcessor.run] hands exactly one pipeline to the store,
    and that pipeline ends with one set-add per anomaly category recorded
    for the packet followed by the heartbeat entry of this worker at the
    packet's timestamp; every command buffered before stays in front. *)
Theorem run_submits_once_with_issues_and_heartbeat
    (ext : Externals) (w : Worker) (p : Packet) :
  let s' := snd (PacketProcessor_.run ext (PacketProcessor_.__init__ w p)) in
  let w' := snd (PacketSnifferWorker._process_packet ext p w) in
  exists body : list Op,
    submitted (db w')
    = submitted (db w)
      ++ [body
          ++ List.map (fun set => SAdd set (str_or_None (packet_hash s')))
                      (_issue_categories s')
          ++ [HSet "heartbeats" [(name w, VTime (time p))]]]
    /\ w' = worker s'
    /\ _issue_categories s' = _issue_categories (after__run ext w p)
    /\ length (submitted (db w')) = S (length (submitted (db w))).
Proof.
  cbv zeta. rewrite _process_packet_eq, run_closed_form. simpl.
  exists (body_ops ext w p). repeat split.
  rewrite length_app. simpl. lia.
Qed.

(** The analyser's callback fails on a frame with an unknown payload: the
    anomaly and the heartbeat are in the one pipeline submitted. *)
Example run_with_failing_callback :
  let p := Sample.captured Sample.frame_lldp in
  let res := PacketSnifferWorker._process_packet Sample.failing_ext p Sample.susan in
  fst res = Raise (Exception "ValueError") /\
  exists body,
    submitted (db (snd res))
    = [body
       ++ [SAdd "unhandled:pkts:ether_payload"
             (VStr "0adce28107b10a5444127e6a98fbb024077fdbad6cd62750d4725a9fb695cb24");
           HSet "heartbeats" [("susan", VTime Sample.t0)]]].
Proof.
  split; [vm_compute; reflexivity|].
  exists (firstn 8
            (List.hd []
               (submitted
                  (db (snd (PacketSnifferWorker._process_packet Sample.failing_ext
                              (Sample.captured Sample.frame_lldp) Sample.susan)))))).
  vm_compute. reflexivity.
Qed.

(** ** C10: the member added to an anomaly set *)



(** ** C4: the restart state machine *)

(** C4.  With the pending-restart flag clear, a SIGHUP sets it and returns,
    and the capture call goes on with what follows.  With the flag set, a
    SIGHUP raises [RestartWorker] from the handler, which ends the capture
    call there.  After a packet has gone through [_process_packet], whether
    that returned or raised, the checkpoint raises [RestartWorker] when the
    flag is set and lets the wrapper return when it is clear.  Processing a
    packet does not touch the flag. *)
Theorem restart_state_machine
    (ext : Externals) (process : Packet -> Py.M Worker pyval)
    (p : Packet) (rest : list CaptureEvent) (w : Worker) :
  let prn := PacketSnifferWorker._wrapped_process_packet process in
  (_waiting_to_restart w = Some false ->
   fst (WorkerBase._handle_SIGHUP w) = Ok tt /\
   _waiting_to_restart (snd (WorkerBase._handle_SIGHUP w)) = Some true /\
   PacketSnifferWorker.sniff prn (SIGHUP :: rest) w
   = PacketSnifferWorker.sniff prn rest (snd (WorkerBase._handle_SIGHUP w))) /\
  (_waiting_to_restart w = Some true ->
   fst (WorkerBase._handle_SIGHUP w) = Raise RestartWorker /\
   fst (PacketSnifferWorker.sniff prn (SIGHUP :: rest) w) = Raise RestartWorker) /\
  (_waiting_to_restart (snd (process p w)) = Some true ->
   fst (prn p w) = Raise RestartWorker /\
   fst (PacketSnifferWorker.sniff prn (Captured p :: rest) w) = Raise RestartWorker) /\
  (_waiting_to_restart (snd (process p w)) = Some false ->
   fst (prn p w)
   = Ok (match fst (process p w) with Ok v => v | Raise _ => VNone end) /\
   PacketSnifferWorker.sniff prn (Captured p :: rest) w
   = PacketSnifferWorker.sniff prn rest (snd (prn p w))) /\
  _waiting_to_restart (snd (PacketSnifferWorker._process_packet ext p w))
  = _waiting_to_restart w.
Proof.
  cbv zeta. repeat split.
  - rewrite _handle_SIGHUP_first by assumption. reflexivity.
  - rewrite _handle_SIGHUP_first by assumption. reflexivity.
  - simpl. unfold Py.bind. rewrite _handle_SIGHUP_first by assumption.
    reflexivity.
  - rewrite _handle_SIGHUP_second by assumption. reflexivity.
  - simpl. unfold Py.bind. rewrite _handle_SIGHUP_second by assumption.
    reflexivity.
  - rewrite (@_wrapped_process_packet_eq process p w true) by assumption.
    reflexivity.
  - simpl. unfold Py.bind.
    rewrite (@_wrapped_process_packet_eq process p w true) by assumption.
    reflexivity.
  - rewrite (@_wrapped_process_packet_eq process p w false) by assumption.
    simpl. destruct (fst (process p w)); reflexivity.
  - simpl. unfold Py.bind.
    rewrite (@_wrapped_process_packet_eq process p w false) by assumption.
    simpl. destruct (fst (process p w)); reflexivity.
  - rewrite _process_packet_eq. reflexivity.
Qed.

(** A running worker receives SIGHUP, then a packet: the signal only sets
    the flag, and the checkpoint after the packet raises. *)
Lemma restart_state_machine_witness :
  let process := PacketSnifferWorker._process_packet Sample.susan_ext in
  let prn := PacketSnifferWorker._wrapped_process_packet process in
  let p := Sample.captured (Sample.frame_ipv4 x00 x01 x6a xcd) in
  (fst (WorkerBase._handle_SIGHUP (Sample.susan_running false)) = Ok tt /\
   _waiting_to_restart (snd (WorkerBase._handle_SIGHUP (Sample.susan_running false)))
   = Some true /\
   PacketSnifferWorker.sniff prn [SIGHUP; Captured p] (Sample.susan_running false)
   = PacketSnifferWorker.sniff prn [Captured p]
       (snd (WorkerBase._handle_SIGHUP (Sample.susan_running false)))) /\
  (fst (WorkerBase._handle_SIGHUP (Sample.susan_running true)) = Raise RestartWorker /\
   fst (PacketSnifferWorker.sniff prn [SIGHUP; Captured p] (Sample.susan_running true))
   = Raise RestartWorker) /\
  (fst (prn p (Sample.susan_running true)) = Raise RestartWorker /\
   fst (PacketSnifferWorker.sniff prn [Captured p; Captured p] (Sample.susan_running true))
   = Raise RestartWorker) /\
  (fst (prn p (Sample.susan_running false))
   = Ok (match fst (process p (Sample.susan_running false)) with
         | Ok v => v
         | Raise _ => VNone
         end) /\
   PacketSnifferWorker.sniff prn [Captured p; Captured p] (Sample.susan_running false)
   = PacketSnifferWorker.sniff prn [Captured p]
       (snd (prn p (Sample.susan_running false)))).
Proof.
  cbv zeta.
  pose proof (restart_state_machine Sample.susan_ext
                (PacketSnifferWorker._process_packet Sample.susan_ext)
                (Sample.captured (Sample.frame_ipv4 x00 x01 x6a xcd))
                [Captured (Sample.captured (Sample.frame_ipv4 x00 x01 x6a xcd))]
                (Sample.susan_running false)) as Hclear.
  pose proof (restart_state_machine Sample.susan_ext
                (PacketSnifferWorker._process_packet Sample.susan_ext)
                (Sample.captured (Sample.frame_ipv4 x00 x01 x6a xcd))
                [Captured (Sample.captured (Sample.frame_ipv4 x00 x01 x6a xcd))]
                (Sample.susan_running true)) as Hset.
  cbv zeta in Hclear, Hset.
  destruct Hclear as (H1 & _ & _ & H4 & _).
  destruct Hset as (_ & H2 & H3 & _ & _).
  split; [apply H1; reflexivity|].
  split; [apply H2; reflexivity|].
  split; [apply H3; vm_compute; reflexivity|].
  apply H4; vm_compute; reflexivity.
Defined.

(** ** C8: failures stay inside the wrapper *)

(** C8.  Once the worker is running, nothing a packet's processing raises
    leaves [_wrapped_process_packet]: the exception is logged as
    "packet processing failed:" and the wrapper returns, so the capture
    call goes on with the next packet.  The wrapper raises only
    [RestartWorker], and only from the checkpoint, that is exactly when the
    pending-restart flag is set. *)
Theorem packet_failures_stay_in_wrapper
    (process : Packet -> Py.M Worker pyval) (p : Packet)
    (rest : list CaptureEvent) (w : Worker) (waiting : bool) :
  _waiting_to_restart (snd (process p w)) = Some waiting ->
  let prn := PacketSnifferWorker._wrapped_process_packet process in
  (forall e, fst (prn p w) = Raise e -> e = RestartWorker /\ waiting = true) /\
  (waiting = false ->
   (exists v, fst (prn p w) = Ok v) /\
   PacketSnifferWorker.sniff prn (Captured p :: rest) w
   = PacketSnifferWorker.sniff prn rest (snd (prn p w))) /\
  (forall e, fst (process p w) = Raise e ->
   In (LogError "packet processing failed:" e) (effects (snd (prn p w)))).
Proof.
  intros H. cbv zeta.
  rewrite (@_wrapped_process_packet_eq process p w waiting) by exact H.
  repeat split.
  - destruct waiting; simpl in *; [congruence|].
    destruct (fst (process p w)); discriminate.
  - destruct waiting; simpl in *; [reflexivity|].
    destruct (fst (process p w)); discriminate.
  - subst waiting. simpl. destruct (fst (process p w)); eauto.
  - subst waiting. simpl. unfold Py.bind.
    rewrite (@_wrapped_process_packet_eq process p w false) by exact H.
    simpl. destruct (fst (process p w)); reflexivity.
  - intros e He. rewrite He. simpl.
    destruct waiting; simpl; rewrite ?in_app_iff; simpl; auto.
Qed.

(** The analyser's callback raises on the first packet; the error is
    logged and the second packet is processed. *)
Lemma packet_failures_stay_in_wrapper_witness :
  let process := PacketSnifferWorker._process_packet Sample.failing_ext in
  let prn := PacketSnifferWorker._wrapped_process_packet process in
  let p := Sample.captured Sample.frame_lldp in
  let w := Sample.susan_running false in
  (forall e, fst (prn p w) = Raise e -> e = RestartWorker /\ false = true) /\
  (false = false ->
   (exists v, fst (prn p w) = Ok v) /\
   PacketSnifferWorker.sniff prn [Captured p; Captured p] w
   = PacketSnifferWorker.sniff prn [Captured p] (snd (prn p w))) /\
  (forall e, fst (process p w) = Raise e ->
   In (LogError "packet processing failed:" e) (effects (snd (prn p w)))).
Proof.
  cbv zeta.
  apply (@packet_failures_stay_in_wrapper
           (PacketSnifferWorker._process_packet Sample.failing_ext)
           (Sample.captured Sample.frame_lldp)
           [Captured (Sample.captured Sample.frame_lldp)]
           (Sample.susan_running false) false).
  vm_compute. reflexivity.
Defined.

(** The store is down: the submission raises, the wrapper logs it and
    returns, and the pipeline was handed to the store once. *)
Example store_failure_is_logged :
  let ext := Sample.externals Sample.failing_callback Sample.store_down in
  let res := PacketSnifferWorker._wrapped_process_packet
               (PacketSnifferWorker._process_packet ext)
               Sample.cooked (Sample.susan_running false) in
  fst res = Ok VNone /\
  List.last (effects (snd res)) InstallSIGHUP
  = LogError "packet processing failed:" (Exception "ConnectionError") /\
  length (submitted (db (snd res))) = 1%nat.
Proof. vm_compute. repeat split. Qed.

(** ** C9: re-executing the process *)

(** C9.  [run] never calls [os.execv].  When [run] ends by raising
    [RestartWorker], [main] logs, flushes stdout, flushes stderr and calls
    [os.execv] with [sys.executable] as the path and
    [[sys.executable] + sys.argv], as captured when [run] started, as the
    argument vector, and these are the last things it does.  When [run]
    ends in any other way, [main] does nothing more: the worker is as [run]
    left it and another exception goes on to the caller. *)
Theorem main_reexecs_exactly_on_RestartWorker
    (ext : Externals) (events : list CaptureEvent) (w0 : Worker) :
  let ran := PacketSnifferWorker.run ext events w0 in
  let res := PacketSnifferWorker.main ext events w0 in
  let cmd := [sys_executable ext] ++ sys_argv ext in
  execv_calls (snd ran) = execv_calls w0 /\
  _cmd (snd ran) = Some cmd /\
  match fst ran with
  | Raise RestartWorker =>
      fst res = Ok tt /\
      effects (snd res)
      = effects (snd ran)
        ++ [LogInfo "restarting NOW..."; FlushStdout; FlushStderr;
            Execv (sys_executable ext) cmd]
  | Raise e => res = (Raise e, snd ran)
  | Ok _ => res = (Ok tt, snd ran)
  end.
Proof.
  cbv zeta.
  pose proof (@run_with_started ext (PacketSnifferWorker._process_packet ext)
                events w0 (fun c calls q => @keeps__process_packet ext c calls q))
    as (Hcmd & _ & Hexecv).
  fold (PacketSnifferWorker.run ext events w0) in Hcmd, Hexecv.
  split; [exact Hexecv|]. split; [exact Hcmd|].
  unfold PacketSnifferWorker.main, WorkerBase.main, Py.try_except_only.
  unfold Py.bind, Py.getattr, WorkerBase.log_info, Py.modify, Py.ret.
  destruct (PacketSnifferWorker.run ext events w0) as [[v|e] w1]; simpl in *.
  - reflexivity.
  - destruct e; simpl; try reflexivity.
    rewrite Hcmd. simpl. split; [reflexivity|].
    rewrite <- !app_assoc. reflexivity.
Qed.

(** Two SIGHUPs in a row restart the worker at once; with no signal the
    capture call returns and nothing is re-executed. *)
Example main_after_two_SIGHUPs :
  filter is_Execv
    (effects (snd (PacketSnifferWorker.main Sample.susan_ext [SIGHUP; SIGHUP] Sample.susan)))
  = [Execv "/usr/bin/python3" ["/usr/bin/python3"; "/usr/bin/susan"]] /\
  filter is_Execv
    (effects (snd (PacketSnifferWorker.main Sample.susan_ext
                     [Captured Sample.cooked] Sample.susan)))
  = [].
Proof. split; vm_compute; reflexivity. Qed.

(** ** C2: IPv4 canonicalisation *)

(** C2.  For a packet with a link-layer view whose bytes dissect as an
    Ethernet frame with an IPv4 datagram as payload, the bytes that are
    hashed are those scapy builds from the dissected copy once the IPv4
    header's [id] is 0xDEAD and its [chksum] is 0xBEEF, every other field
    and layer being as dissected; the captured packet is untouched.  The
    fingerprint is the digest [hashlib] gives for exactly these bytes (and
    the exception of the build or of the digest when one raises).  So two
    such packets whose copies differ only in these two fields have the same
    hash input and the same fingerprint. *)
Theorem ipv4_fingerprint_is_canonical
    (ext : Externals) (w1 w2 : Worker) (p1 p2 : Packet) (eth1 eth2 : Layer)
    (e : EtherFields) (h1 h2 : IPFields) (rest : list Layer) :
  getlayer Ether (layers p1) = Some eth1 ->
  getlayer Ether (layers p2) = Some eth2 ->
  scapy_dissect ext (layer_class eth1) (original p1) = Ok (EtherL e :: IPL h1 :: rest) ->
  scapy_dissect ext (layer_class eth2) (original p2) = Ok (EtherL e :: IPL h2 :: rest) ->
  same_but_id_chksum h1 h2 ->
  let s1 := PacketProcessor_.__init__ w1 p1 in
  let s2 := PacketProcessor_.__init__ w2 p2 in
  (exists h,
      same_but_id_chksum h1 h /\ ip_id h = 0xdead /\ ip_chksum h = 0xbeef /\
      fst (PacketProcessor_._packet_hash_bytes ext s1)
      = scapy_build ext (EtherL e :: IPL h :: rest) /\
      fst (PacketProcessor_._packet_hash_bytes ext s2)
      = scapy_build ext (EtherL e :: IPL h :: rest) /\
      fst (PacketProcessor_._packet_hash ext s1)
      = match scapy_build ext (EtherL e :: IPL h :: rest) with
        | Ok data => blake2s_hexdigest ext data
        | Raise err => Raise err
        end /\
      fst (PacketProcessor_._packet_hash ext s2)
      = match scapy_build ext (EtherL e :: IPL h :: rest) with
        | Ok data => blake2s_hexdigest ext data
        | Raise err => Raise err
        end) /\
  (forall data,
      fst (PacketProcessor_._packet_hash_bytes ext s1) = Ok data ->
      fst (PacketProcessor_._packet_hash ext s1) = blake2s_hexdigest ext data) /\
  packet (snd (PacketProcessor_._packet_hash_bytes ext s1)) = p1 /\
  fst (PacketProcessor_._packet_hash_bytes ext s1)
  = fst (PacketProcessor_._packet_hash_bytes ext s2) /\
  fst (PacketProcessor_._packet_hash ext s1)
  = fst (PacketProcessor_._packet_hash ext s2).
Proof.
  intros He1 He2 Hd1 Hd2 Hsame. cbv zeta.
  rewrite !_packet_hash_eq, !_packet_hash_bytes_eq. simpl.
  unfold fingerprint, hash_input, ether_view. simpl.
  rewrite He1, He2, Hd1, Hd2. simpl.
  destruct h1 as [vi1 tos1 len1 id1 ff1 ttl1 pr1 ck1 src1 dst1 opt1].
  destruct h2 as [vi2 tos2 len2 id2 ff2 ttl2 pr2 ck2 src2 dst2 opt2].
  destruct Hsame as (? & ? & ? & ? & ? & ? & ? & ? & ?); simpl in *; subst.
  split; [|split; [|repeat split]].
  - eexists {| ip_id := 0xdead; ip_chksum := 0xbeef |}.
    split; [repeat split|]. repeat split.
  - intros data Hdata. rewrite Hdata. reflexivity.
Qed.

(** Two frames that differ in the four bytes of the IPv4 identification
    and header checksum. *)
Lemma ipv4_fingerprint_is_canonical_witness :
  let p1 := Sample.captured (Sample.frame_ipv4 x00 x01 x6a xcd) in
  let p2 := Sample.captured (Sample.frame_ipv4 x12 x34 x58 x9a) in
  original p1 <> original p2 /\
  fst (PacketProcessor_._packet_hash Sample.susan_ext
         (PacketProcessor_.__init__ Sample.susan p1))
  = fst (PacketProcessor_._packet_hash Sample.susan_ext
           (PacketProcessor_.__init__ Sample.susan p2)).
Proof.
  cbv zeta. split; [discriminate|].
  refine (proj2 (proj2 (proj2 (proj2
    (@ipv4_fingerprint_is_canonical Sample.susan_ext Sample.susan Sample.susan
       (Sample.captured (Sample.frame_ipv4 x00 x01 x6a xcd))
       (Sample.captured (Sample.frame_ipv4 x12 x34 x58 x9a))
       (EtherL {| eth_dst := "c8:e1:30:ba:be:23";
                  eth_src := "00:0d:f7:12:ca:fe"; eth_type := 2048 |})
       (EtherL {| eth_dst := "c8:e1:30:ba:be:23";
                  eth_src := "00:0d:f7:12:ca:fe"; eth_type := 2048 |})
       {| eth_dst := "c8:e1:30:ba:be:23";
          eth_src := "00:0d:f7:12:ca:fe"; eth_type := 2048 |}
       {| ip_version_ihl := 69; ip_tos := 0; ip_len := 28; ip_id := 1;
          ip_flags_frag := 0; ip_ttl := 64; ip_proto := 17;
          ip_chksum := 27341; ip_src := [x01; x02; x03; x04];
          ip_dst := [x05; x06; x07; x08]; ip_options := [] |}
       {| ip_version_ihl := 69; ip_tos := 0; ip_len := 28; ip_id := 4660;
          ip_flags_frag := 0; ip_ttl := 64; ip_proto := 17;
          ip_chksum := 22682; ip_src := [x01; x02; x03; x04];
          ip_dst := [x05; x06; x07; x08]; ip_options := [] |}
       [RawL Sample.udp_datagram] _ _ _ _ _))))).
  - vm_compute; reflexivity.
  - vm_compute; reflexivity.
  - vm_compute; reflexivity.
  - vm_compute; reflexivity.
  - repeat split.
Defined.

(** ** C3: anomaly tagging *)

(** A frame with a VLAN tag in front of its IPv4 datagram: the link-layer
    view is present and its payload is an 802.1Q layer, neither IPv4 nor
    ARP; yet no anomaly is recorded for the packet and the bytes hashed are
    not the raw bytes, because the IPv4 layer behind the tag is found and
    canonicalised. *)
Lemma vlan_tagged_ipv4_records_no_anomaly :
  let p := Sample.captured Sample.frame_vlan_ipv4 in
  haslayer Ether (layers p) = true /\
  List.map layer_class (layers p) = [Ether; Dot1Q; IP; Raw] /\
  scapy_dissect Sample.susan_ext Ether (original p) = Ok (layers p) /\
  _issue_categories (after__run Sample.susan_ext Sample.susan p) = [] /\
  fst (PacketProcessor_._packet_hash_bytes Sample.susan_ext
         (PacketProcessor_.__init__ Sample.susan p))
  <> Ok (original p).
Proof.
  cbv zeta. split; [vm_compute; reflexivity|].
  split; [vm_compute; reflexivity|]. split; [vm_compute; reflexivity|].
  split; [vm_compute; reflexivity|].
  vm_compute. discriminate.
Qed.

(** C3, as the code has it.  A packet with no link-layer view gets the
    anomaly "first_layer" and is hashed as its raw bytes.  A packet with a
    link-layer view whose bytes dissect to a copy that holds no IPv4 layer
    at any depth is hashed as its raw bytes too; it gets the anomaly
    "ether_payload" when the copy holds no ARP layer at any depth either,
    and no anomaly when it holds one, as it does when the payload is ARP. *)
Theorem anomaly_tagging_follows_the_layers_present
    (ext : Externals) (w : Worker) (p : Packet) :
  let s := PacketProcessor_.__init__ w p in
  (getlayer Ether (layers p) = None ->
   _issue_categories (after__run ext w p) = ["unhandled:pkts:first_layer"] /\
   fst (PacketProcessor_._packet_hash_bytes ext s) = Ok (original p)) /\
  (forall eth copy_packet,
      getlayer Ether (layers p) = Some eth ->
      scapy_dissect ext (layer_class eth) (original p) = Ok copy_packet ->
      getlayer IP copy_packet = None ->
      haslayer ARP copy_packet = false ->
      _issue_categories (after__run ext w p) = ["unhandled:pkts:ether_payload"] /\
      fst (PacketProcessor_._packet_hash_bytes ext s) = Ok (original p)) /\
  (forall eth copy_packet,
      getlayer Ether (layers p) = Some eth ->
      scapy_dissect ext (layer_class eth) (original p) = Ok copy_packet ->
      getlayer IP copy_packet = None ->
      haslayer ARP copy_packet = true ->
      _issue_categories (after__run ext w p) = [] /\
      fst (PacketProcessor_._packet_hash_bytes ext s) = Ok (original p)).
Proof.
  cbv zeta. rewrite _packet_hash_bytes_eq. unfold ether_view. simpl.
  split; [|split].
  - intros He. rewrite He. split; [|reflexivity].
    apply (_run_no_ether ext w p He).
  - intros eth copy_packet He Hd Hip Harp. rewrite He.
    destruct (getlayer_Ether_inv _ He) as [hdr ->].
    destruct (_run_ether ext w p He) as [-> _].
    unfold hash_issues, hash_input. rewrite Hd, Hip, Harp. split; reflexivity.
  - intros eth copy_packet He Hd Hip Harp. rewrite He.
    destruct (getlayer_Ether_inv _ He) as [hdr ->].
    destruct (_run_ether ext w p He) as [-> _].
    unfold hash_issues, hash_input. rewrite Hd, Hip, Harp. split; reflexivity.
Qed.

(** A cooked-mode packet, an LLDP frame and an ARP request. *)
Lemma anomaly_tagging_follows_the_layers_present_witness :
  (_issue_categories (after__run Sample.susan_ext Sample.susan Sample.cooked)
   = ["unhandled:pkts:first_layer"] /\
   fst (PacketProcessor_._packet_hash_bytes Sample.susan_ext
          (PacketProcessor_.__init__ Sample.susan Sample.cooked))
   = Ok (original Sample.cooked)) /\
  (_issue_categories
     (after__run Sample.susan_ext Sample.susan (Sample.captured Sample.frame_lldp))
   = ["unhandled:pkts:ether_payload"] /\
   fst (PacketProcessor_._packet_hash_bytes Sample.susan_ext
          (PacketProcessor_.__init__ Sample.susan (Sample.captured Sample.frame_lldp)))
   = Ok Sample.frame_lldp) /\
  (_issue_categories
     (after__run Sample.susan_ext Sample.susan (Sample.captured Sample.frame_arp))
   = [] /\
   fst (PacketProcessor_._packet_hash_bytes Sample.susan_ext
          (PacketProcessor_.__init__ Sample.susan (Sample.captured Sample.frame_arp)))
   = Ok Sample.frame_arp).
Proof.
  split; [|split].
  - apply (proj1 (anomaly_tagging_follows_the_layers_present
                    Sample.susan_ext Sample.susan Sample.cooked)).
    reflexivity.
  - apply (proj1 (proj2 (anomaly_tagging_follows_the_layers_present
                           Sample.susan_ext Sample.susan
                           (Sample.captured Sample.frame_lldp)))
             (EtherL {| eth_dst := "c8:e1:30:ba:be:23";
                        eth_src := "00:0d:f7:12:ca:fe"; eth_type := 35020 |})
             (layers (Sample.captured Sample.frame_lldp)));
      vm_compute; reflexivity.
  - apply (proj2 (proj2 (anomaly_tagging_follows_the_layers_present
                           Sample.susan_ext Sample.susan
                           (Sample.captured Sample.frame_arp)))
             (EtherL {| eth_dst := "ff:ff:ff:ff:ff:ff";
                        eth_src := "00:0d:f7:12:ca:fe"; eth_type := 2054 |})
             (layers (Sample.captured Sample.frame_arp)));
      vm_compute; reflexivity.
Defined.

(** ** C5: what fingerprinting changes *)


(** Both are read: the bytes of an Ethernet/IPv4 frame handed over with no
    link-layer view are hashed as they are, not in canonical form. *)
Example link_layer_view_is_part_of_the_hash_input :
  let p1 := Sample.captured (Sample.frame_ipv4 x00 x01 x6a xcd) in
  let p2 := {| layers := [RawL (original p1)]; original := original p1;
               time := time p1; sniffed_on := sniffed_on p1 |} in
  original p1 = original p2 /\
  fst (PacketProcessor_._packet_hash_bytes Sample.susan_ext
         (PacketProcessor_.__init__ Sample.susan p1))
  <> fst (PacketProcessor_._packet_hash_bytes Sample.susan_ext
            (PacketProcessor_.__init__ Sample.susan p2)).
Proof. cbv zeta. split; [reflexivity|]. vm_compute. discriminate. Qed.



(** ** C7: the packet record's time-to-live *)

Section ExpiryLemmas.
Context (ext : Externals).

Lemma issue_ops_no_Expire (s : PacketProcessor) :
  List.existsb is_Expire (issue_ops s) = false.
Proof.
  unfold issue_ops. induction (_issue_categories s) as [|c cats IH]; simpl; auto.
Qed.

Lemma batch_no_ether (w : Worker) (p : Packet) :
  getlayer Ether (layers p) = None ->
  batch ext w p
  = match blake2s_hexdigest ext (original p) with
    | Ok h => raw_packet_ops w p h None
    | Raise _ => []
    end
    ++ issue_ops (after__run ext w p) ++ [heartbeat_op w p].
Proof.
  intros He. unfold batch. destruct (_run_no_ether ext w p He) as [_ H].
  destruct (blake2s_hexdigest ext (original p)); destruct H as (_ & _ & ->);
    reflexivity.
Qed.

Lemma batch_ether (w : Worker) (p : Packet) (hdr : EtherFields) (h : string) :
  getlayer Ether (layers p) = Some (EtherL hdr) ->
  fst (PacketProcessor_._packet_hash ext (PacketProcessor_.__init__ w p)) = Ok h ->
  batch ext w p
  = raw_packet_ops w p h (Some (lower (eth_src hdr)))
    ++ device_ops w p h (lower (eth_src hdr))
    ++ fst (process_packet ext (callback_kwargs w p h (lower (eth_src hdr))))
    ++ issue_ops (after__run ext w p) ++ [heartbeat_op w p].
Proof.
  intros He Hh. rewrite _packet_hash_eq in Hh. unfold ether_view in Hh.
  simpl in Hh. rewrite He in Hh.
  unfold batch. destruct (_run_ether ext w p He) as [_ H].
  rewrite Hh in H. cbv zeta in H. destruct H as (_ & _ & ->).
  rewrite <- !app_assoc. reflexivity.
Qed.

End ExpiryLemmas.

(** A cooked-mode packet goes through the DNS analyser's worker: the
    pipeline submitted for it holds no [expire] command at all. *)
Lemma no_expiry_without_link_layer :
  let res := PacketSnifferWorker._process_packet Sample.susan_ext Sample.cooked Sample.susan in
  fst res = Ok VNone /\
  exists submitted_batch,
    submitted (db (snd res)) = [submitted_batch] /\
    List.existsb is_Expire submitted_batch = false.
Proof.
  cbv zeta. split; [vm_compute; reflexivity|].
  eexists. split; vm_compute; reflexivity.
Qed.

(** C7, as the code has it.  [PacketProcessor] itself buffers no [expire]
    command.  With the DNS analyser's callback, a packet that has a
    link-layer view and whose hash [h] was computed gets one pipeline in
    this order: the raw-packet writes, the device writes, the analyser's
    protocol writes, [expire] of 2,419,200 seconds on the record
    ["pkt_" + h], the anomaly set-adds, the heartbeat.  A packet with no
    link-layer view never reaches the callback and its pipeline holds no
    [expire]. *)
Theorem expiry_is_appended_by_the_analyser
    (ext : Externals) (protocol_writes : process_packet_kwargs -> list Op)
    (w : Worker) (p : Packet) :
  process_packet ext = DNSMonitorWorker_process_packet protocol_writes ->
  submitted (db (snd (PacketSnifferWorker._process_packet ext p w)))
  = submitted (db w) ++ [batch ext w p] /\
  (getlayer Ether (layers p) = None ->
   List.existsb is_Expire (batch ext w p) = false) /\
  (forall hdr h,
      getlayer Ether (layers p) = Some (EtherL hdr) ->
      fst (PacketProcessor_._packet_hash ext (PacketProcessor_.__init__ w p)) = Ok h ->
      let mac := lower (eth_src hdr) in
      batch ext w p
      = raw_packet_ops w p h (Some mac) ++ device_ops w p h mac
        ++ protocol_writes (callback_kwargs w p h mac)
        ++ [Expire ("pkt_" +:+ h) 2419200]
        ++ issue_ops (after__run ext w p)
        ++ [HSet "heartbeats" [(name w, VTime (time p))]] /\
      List.existsb is_Expire
        (raw_packet_ops w p h (Some mac) ++ device_ops w p h mac
         ++ issue_ops (after__run ext w p)
         ++ [HSet "heartbeats" [(name w, VTime (time p))]]) = false).
Proof.
  intros Hcb. split; [|split].
  - rewrite _process_packet_eq. reflexivity.
  - intros He. rewrite (batch_no_ether ext w p He).
    rewrite !existsb_app, issue_ops_no_Expire.
    destruct (blake2s_hexdigest ext (original p)); reflexivity.
  - intros hdr h He Hh. cbv zeta. split.
    + rewrite (batch_ether ext w p He Hh), Hcb.
      unfold DNSMonitorWorker_process_packet. simpl.
      rewrite <- !app_assoc. reflexivity.
    + rewrite !existsb_app, issue_ops_no_Expire. reflexivity.
Qed.

(** The scenario's IPv4 frame through the DNS analyser's worker. *)
Lemma expiry_is_appended_by_the_analyser_witness :
  let p := Sample.captured (Sample.frame_ipv4 x00 x01 x6a xcd) in
  let h := "e0b55be8816879415acccf98bb32fb1c7789ce187bdd4881269a1f603b92ee48" in
  let mac := "00:0d:f7:12:ca:fe" in
  batch Sample.susan_ext Sample.susan p
  = raw_packet_ops Sample.susan p h (Some mac) ++ device_ops Sample.susan p h mac
    ++ Sample.dns_query_writes (callback_kwargs Sample.susan p h mac)
    ++ [Expire ("pkt_" +:+ h) 2419200]
    ++ issue_ops (after__run Sample.susan_ext Sample.susan p)
    ++ [HSet "heartbeats" [("susan", VTime Sample.t0)]].
Proof.
  cbv zeta.
  refine (proj1 (proj2 (proj2
    (@expiry_is_appended_by_the_analyser Sample.susan_ext Sample.dns_query_writes
       Sample.susan (Sample.captured (Sample.frame_ipv4 x00 x01 x6a xcd)) eq_refl))
    {| eth_dst := "c8:e1:30:ba:be:23"; eth_src := "00:0d:f7:12:ca:fe";
       eth_type := 2048 |}
    "e0b55be8816879415acccf98bb32fb1c7789ce187bdd4881269a1f603b92ee48" _ _)).
  - vm_compute; reflexivity.
  - vm_compute; reflexivity.
Defined.

(** ** C6: first_seen, last_seen and num_sightings *)

Section StoreLemmas.

Lemma record_of_put_record_eq key r st :
  record_of (put_record key r st) key = r.
Proof. unfold record_of, put_record. simpl. by rewrite lookup_insert_eq. Qed.

Lemma record_of_put_record_ne key key' r st :
  key <> key' -> record_of (put_record key r st) key' = record_of st key'.
Proof.
  intros Hne. unfold record_of, put_record. simpl.
  by rewrite lookup_insert_ne.
Qed.

Lemma hget_put_record_eq key r st field :
  hget (put_record key r st) key field = r !! field.
Proof. unfold hget. by rewrite record_of_put_record_eq. Qed.

Lemma hget_put_record_ne key key' r st field :
  key <> key' -> hget (put_record key r st) key' field = hget st key' field.
Proof. intros Hne. unfold hget. by rewrite record_of_put_record_ne. Qed.

Lemma hset_fields_other mapping (r : gmap string pyval) field :
  List.existsb (fun kv => String.eqb (fst kv) field) mapping = false ->
  hset_fields mapping r !! field = r !! field.
Proof.
  revert r. induction mapping as [|[k v] mapping IH]; intros r H; simpl in *.
  - reflexivity.
  - apply orb_false_iff in H as [Hk Hrest].
    unfold hset_fields in *. simpl. rewrite (IH _ Hrest).
    apply String.eqb_neq in Hk. by rewrite lookup_insert_ne.
Qed.

Lemma hset_fields_head mapping (r : gmap string pyval) field value :
  List.existsb (fun kv => String.eqb (fst kv) field) mapping = false ->
  hset_fields ((field, value) :: mapping) r !! field = Some value.
Proof.
  intros H. change (hset_fields ((field, value) :: mapping) r)
    with (hset_fields mapping (<[field := value]> r)).
  rewrite (hset_fields_other _ _ _ H). by rewrite lookup_insert_eq.
Qed.

(** A command that does not write a field leaves it as it was. *)
Lemma apply_op_other op st key field :
  writes_field key field op = false ->
  hget (apply_op op st) key field = hget st key field.
Proof.
  destruct op as [k mapping|k f v|k f d|k m|k t]; simpl; intros H;
    try reflexivity.
  - destruct (String.eqb_spec k key) as [->|Hne]; simpl in H.
    + rewrite hget_put_record_eq. by apply hset_fields_other.
    + by rewrite hget_put_record_ne.
  - destruct (record_of st k !! f); [reflexivity|].
    destruct (String.eqb_spec k key) as [->|Hne]; simpl in H.
    + rewrite hget_put_record_eq. apply String.eqb_neq in H.
      by rewrite lookup_insert_ne.
    + by rewrite hget_put_record_ne.
  - assert (forall x,
               hget (put_record k (<[f := x]> (record_of st k)) st) key field
               = hget st key field) as Hput.
    { intros x. destruct (String.eqb_spec k key) as [->|Hne]; simpl in H.
      - rewrite hget_put_record_eq. apply String.eqb_neq in H.
        by rewrite lookup_insert_ne.
      - by rewrite hget_put_record_ne. }
    destruct (record_of st k !! f) as [[]|]; auto.
  - destruct (decide _); reflexivity.
Qed.

Lemma exec_batch_other ops st key field :
  Forall (fun op => writes_field key field op = false) ops ->
  hget (exec_batch ops st) key field = hget st key field.
Proof.
  revert st. induction ops as [|op ops IH]; intros st H; simpl.
  - reflexivity.
  - inversion H; subst. unfold exec_batch in *. simpl.
    rewrite IH by assumption. by apply apply_op_other.
Qed.

Lemma exec_batch_app ops1 ops2 st :
  exec_batch (ops1 ++ ops2) st = exec_batch ops2 (exec_batch ops1 st).
Proof. unfold exec_batch. apply List.fold_left_app. Qed.

Lemma hget_HSetNX key field value st :
  hget (apply_op (HSetNX key field value) st) key field
  = match hget st key field with
    | Some v0 => Some v0
    | None => Some value
    end.
Proof.
  unfold hget at 2. simpl. destruct (record_of st key !! field) eqn:E.
  - exact E.
  - rewrite hget_put_record_eq. by rewrite lookup_insert_eq.
Qed.

Lemma hget_HIncrBy key field amount st :
  hget (apply_op (HIncrBy key field amount) st) key field
  = match hget st key field with
    | None => Some (VInt amount)
    | Some (VInt n) => Some (VInt (n + amount))
    | Some v => Some v
    end.
Proof.
  unfold hget at 2. simpl.
  destruct (record_of st key !! field) as [[]|] eqn:E;
    try exact E; rewrite hget_put_record_eq; by rewrite lookup_insert_eq.
Qed.

End StoreLemmas.

Section ReplayLemmas.
Context (ext : Externals).

(** What the three commands of [_record_raw_packet] do to the record they
    are about. *)
Lemma raw_packet_ops_effect (w : Worker) (p : Packet) (h : string)
    (mac : option string) (st : Store) :
  let pk := "pkt_" +:+ h in
  let st' := exec_batch (raw_packet_ops w p h mac) st in
  hget st' pk "first_seen"
  = match hget st pk "first_seen" with
    | Some v0 => Some v0
    | None => Some (VTime (time p))
    end /\
  hget st' pk "last_seen" = Some (VTime (time p)) /\
  hget st' pk "num_sightings"
  = match hget st pk "num_sightings" with
    | None => Some (VInt 1)
    | Some (VInt n) => Some (VInt (n + 1))
    | Some v => Some v
    end.
Proof.
  unfold raw_packet_ops, exec_batch. cbn [List.fold_left].
  generalize ("pkt_" +:+ h). intros pk. cbv zeta.
  assert (Hnone : forall f,
             List.existsb (fun kv => String.eqb (fst kv) f)
               (List.tl (raw_fields_of w p mac)) = false ->
             f <> "last_seen" ->
             hget (apply_op (HSet pk (raw_fields_of w p mac)) st) pk f
             = hget st pk f).
  { intros f Hf Hne. apply apply_op_other. unfold writes_field.
    rewrite String.eqb_refl.
    change (raw_fields_of w p mac)
      with (("last_seen", VTime (time p)) :: List.tl (raw_fields_of w p mac)).
    cbn [List.existsb fst]. rewrite Hf.
    apply String.eqb_neq in Hne. rewrite String.eqb_sym, Hne. reflexivity. }
  split; [|split].
  - rewrite apply_op_other
      by (simpl; rewrite String.eqb_refl; reflexivity).
    rewrite hget_HSetNX. rewrite Hnone; [reflexivity| |discriminate].
    destruct mac; reflexivity.
  - rewrite apply_op_other
      by (simpl; rewrite String.eqb_refl; reflexivity).
    rewrite apply_op_other
      by (simpl; rewrite String.eqb_refl; reflexivity).
    unfold apply_op. rewrite hget_put_record_eq.
    change (raw_fields_of w p mac)
      with (("last_seen", VTime (time p)) :: List.tl (raw_fields_of w p mac)).
    apply hset_fields_head. destruct mac; reflexivity.
  - rewrite hget_HIncrBy.
    rewrite apply_op_other
      by (simpl; rewrite String.eqb_refl; reflexivity).
    rewrite Hnone; [reflexivity| |discriminate].
    destruct mac; reflexivity.
Qed.

(** What the commands of [_record_device_sighting] do to the device's
    record. *)
Lemma device_ops_effect (w : Worker) (p : Packet) (h mac : string) (st : Store) :
  let mk := "mac_" +:+ mac in
  let st' := exec_batch (device_ops w p h mac) st in
  hget st' mk "first_seen"
  = match hget st mk "first_seen" with
    | Some v0 => Some v0
    | None => Some (VTime (time p))
    end /\
  hget st' mk "last_seen" = Some (VTime (time p)) /\
  hget st' mk "num_sightings" = hget st mk "num_sightings".
Proof.
  unfold device_ops, exec_batch. cbn [List.fold_left]. cbv zeta.
  assert (Hpkts : forall f st0,
             hget (apply_op (HSet ("macpkts_" +:+ mac) [(h, VTime (time p))]) st0)
                  ("mac_" +:+ mac) f
             = hget st0 ("mac_" +:+ mac) f).
  { intros f st0. apply apply_op_other. reflexivity. }
  assert (Hmacs : forall f,
             hget (apply_op (SAdd "macs" (VStr mac)) st) ("mac_" +:+ mac) f
             = hget st ("mac_" +:+ mac) f).
  { intros f. apply apply_op_other. reflexivity. }
  rewrite !Hpkts. generalize ("mac_" +:+ mac) Hmacs. intros mk Hmacs'.
  split; [|split].
  - rewrite hget_HSetNX.
    rewrite apply_op_other
      by (simpl; rewrite String.eqb_refl; reflexivity).
    by rewrite Hmacs'.
  - rewrite apply_op_other
      by (simpl; rewrite String.eqb_refl; reflexivity).
    unfold apply_op. rewrite hget_put_record_eq.
    unfold common_fields_of. by apply hset_fields_head.
  - rewrite apply_op_other
      by (simpl; rewrite String.eqb_refl; reflexivity).
    rewrite apply_op_other
      by (simpl; rewrite String.eqb_refl; reflexivity).
    by rewrite Hmacs'.
Qed.

Lemma issue_ops_write_no_field (s : PacketProcessor) key field :
  Forall (fun op => writes_field key field op = false) (issue_ops s).
Proof.
  unfold issue_ops. induction (_issue_categories s); simpl; constructor; auto.
Qed.

End ReplayLemmas.

(** The scenario's frame is seen at [t0] and seen again with a capture
    time five seconds earlier, on a store that was empty before.  The
    sender's record has no "num_sightings" after the two sightings, and the
    "last_seen" of the packet record goes back to the earlier time. *)
Lemma device_sightings_are_not_counted :
  let h := "e0b55be8816879415acccf98bb32fb1c7789ce187bdd4881269a1f603b92ee48" in
  let p1 := Sample.captured_at Sample.t0 (Sample.frame_ipv4 x00 x01 x6a xcd) in
  let p2 := Sample.captured_at (Sample.t0 - 5000000)
              (Sample.frame_ipv4 x00 x01 x6a xcd) in
  let st1 := exec_batch (batch Sample.susan_ext Sample.susan p1) empty_store in
  let st2 := exec_batch (batch Sample.susan_ext Sample.susan p2) st1 in
  hget st2 ("pkt_" +:+ h) "num_sightings" = Some (VInt 2) /\
  hget st2 "mac_00:0d:f7:12:ca:fe" "first_seen" = Some (VTime Sample.t0) /\
  hget st2 "mac_00:0d:f7:12:ca:fe" "num_sightings" = None /\
  hget st1 ("pkt_" +:+ h) "last_seen" = Some (VTime Sample.t0) /\
  hget st2 ("pkt_" +:+ h) "last_seen" = Some (VTime (Sample.t0 - 5000000)) /\
  (Sample.t0 - 5000000 < Sample.t0)%Z.
Proof. cbv zeta. repeat split; vm_compute; reflexivity. Qed.

(** C6, as the code has it.  Among the commands [PacketProcessor] itself
    buffers for the packet record and the device record, "first_seen" is
    written by [hsetnx] only, "last_seen" by [hset] with the packet's time,
    and "num_sightings" by one [hincrby] of 1 on the packet record; the
    device record gets no "num_sightings".  So once the pipeline of a packet
    with hash [h] has run on a store, the record ["pkt_" + h] has the
    "first_seen" it had before if it had one, the packet's time as
    "last_seen" (later than before exactly when the packet's time is), and
    a "num_sightings" one higher; and the sender's record keeps its
    "first_seen" as well, gets the packet's time as "last_seen", and has
    the "num_sightings" it had before, if any.  This holds for an analyser
    whose own commands do not write these three fields of these two
    records. *)
Theorem first_seen_set_once_last_seen_overwritten_sightings_incremented
    (ext : Externals) (w : Worker) (p : Packet) (h : string) (st : Store) :
  fst (PacketProcessor_._packet_hash ext (PacketProcessor_.__init__ w p)) = Ok h ->
  (forall hdr,
      getlayer Ether (layers p) = Some (EtherL hdr) ->
      Forall (fun op =>
                forall f, In f ["first_seen"; "last_seen"; "num_sightings"] ->
                          writes_field ("pkt_" +:+ h) f op = false /\
                          writes_field ("mac_" +:+ lower (eth_src hdr)) f op = false)
             (fst (process_packet ext
                     (callback_kwargs w p h (lower (eth_src hdr)))))) ->
  let pk := "pkt_" +:+ h in
  let st' := exec_batch (batch ext w p) st in
  (forall mac_opt mac,
      let own f op :=
        writes_field pk f op || writes_field ("mac_" +:+ mac) f op in
      List.filter (own "first_seen")
        (raw_packet_ops w p h mac_opt ++ device_ops w p h mac)
      = [HSetNX pk "first_seen" (VTime (time p));
         HSetNX ("mac_" +:+ mac) "first_seen" (VTime (time p))] /\
      List.filter (own "last_seen")
        (raw_packet_ops w p h mac_opt ++ device_ops w p h mac)
      = [HSet pk (raw_fields_of w p mac_opt);
         HSet ("mac_" +:+ mac) (common_fields_of w p)] /\
      List.filter (own "num_sightings")
        (raw_packet_ops w p h mac_opt ++ device_ops w p h mac)
      = [HIncrBy pk "num_sightings" 1]) /\
  hget st' pk "first_seen"
  = match hget st pk "first_seen" with
    | Some v0 => Some v0
    | None => Some (VTime (time p))
    end /\
  hget st' pk "last_seen" = Some (VTime (time p)) /\
  hget st' pk "num_sightings"
  = match hget st pk "num_sightings" with
    | None => Some (VInt 1)
    | Some (VInt n) => Some (VInt (n + 1))
    | Some v => Some v
    end /\
  (forall hdr,
      getlayer Ether (layers p) = Some (EtherL hdr) ->
      let mk := "mac_" +:+ lower (eth_src hdr) in
      hget st' mk "first_seen"
      = match hget st mk "first_seen" with
        | Some v0 => Some v0
        | None => Some (VTime (time p))
        end /\
      hget st' mk "last_seen" = Some (VTime (time p)) /\
      hget st' mk "num_sightings" = hget st mk "num_sightings").
Proof.
  intros Hh Hcb. cbv zeta.
  split.
  { intros mac_opt mac. cbv zeta. unfold raw_packet_ops, device_ops.
    repeat split; destruct mac_opt; cbn; rewrite !String.eqb_refl; reflexivity. }
  assert (Hpk : forall f,
             In f ["first_seen"; "last_seen"; "num_sightings"] ->
             exists mac_opt tail_ops,
               batch ext w p = raw_packet_ops w p h mac_opt ++ tail_ops /\
               Forall (fun op => writes_field ("pkt_" +:+ h) f op = false) tail_ops).
  { intros f Hf.
    destruct (getlayer Ether (layers p)) as [l|] eqn:He.
    - destruct (getlayer_Ether_inv _ He) as [hdr ->].
      rewrite (batch_ether ext w p He Hh).
      eexists _, _. split; [reflexivity|].
      repeat (apply Forall_app; split).
      + repeat constructor.
      + eapply Forall_impl; [apply (Hcb hdr eq_refl)|].
        intros op Hop. apply (Hop f Hf).
      + apply issue_ops_write_no_field.
      + repeat constructor.
    - rewrite (batch_no_ether ext w p He).
      rewrite _packet_hash_eq in Hh. unfold ether_view, fingerprint, hash_input in Hh.
      simpl in Hh. rewrite He in Hh. rewrite Hh.
      eexists _, _. split; [reflexivity|].
      apply Forall_app; split; [apply issue_ops_write_no_field|].
      repeat constructor. }
  assert (Hpk' : forall f,
             In f ["first_seen"; "last_seen"; "num_sightings"] ->
             exists mac_opt,
               hget (exec_batch (batch ext w p) st) ("pkt_" +:+ h) f
               = hget (exec_batch (raw_packet_ops w p h mac_opt) st) ("pkt_" +:+ h) f).
  { intros f Hf. destruct (Hpk f Hf) as (mac_opt & tail_ops & -> & Htail).
    exists mac_opt. rewrite exec_batch_app. by apply exec_batch_other. }
  split; [|split; [|split]].
  - destruct (Hpk' "first_seen") as [mac_opt ->]; [simpl; auto|].
    apply raw_packet_ops_effect.
  - destruct (Hpk' "last_seen") as [mac_opt ->]; [simpl; auto|].
    apply raw_packet_ops_effect.
  - destruct (Hpk' "num_sightings") as [mac_opt ->]; [simpl; auto|].
    apply raw_packet_ops_effect.
  - intros hdr He.
    rewrite (batch_ether ext w p He Hh).
    set (mac := lower (eth_src hdr)).
    assert (Hmk : forall f,
               In f ["first_seen"; "last_seen"; "num_sightings"] ->
               hget (exec_batch
                       (raw_packet_ops w p h (Some mac) ++ device_ops w p h mac
                        ++ fst (process_packet ext (callback_kwargs w p h mac))
                        ++ issue_ops (after__run ext w p) ++ [heartbeat_op w p]) st)
                    ("mac_" +:+ mac) f
               = hget (exec_batch (device_ops w p h mac)
                         (exec_batch (raw_packet_ops w p h (Some mac)) st))
                      ("mac_" +:+ mac) f).
    { intros f Hf. rewrite exec_batch_app.
      rewrite (exec_batch_app (device_ops w p h mac)).
      apply exec_batch_other.
      repeat (apply Forall_app; split).
      - eapply Forall_impl; [apply (Hcb hdr He)|].
        intros op Hop. apply (Hop f Hf).
      - apply issue_ops_write_no_field.
      - repeat constructor. }
    assert (Hraw : forall f,
               hget (exec_batch (raw_packet_ops w p h (Some mac)) st) ("mac_" +:+ mac) f
               = hget st ("mac_" +:+ mac) f).
    { intros f. apply exec_batch_other. repeat constructor. }
    rewrite !Hmk by (simpl; auto).
    destruct (device_ops_effect w p h mac
                (exec_batch (raw_packet_ops w p h (Some mac)) st)) as (H1 & H2 & H3).
    rewrite !Hraw in *. auto.
Qed.

(** The scenario's frame is seen at [t0] and again five seconds later, on a
    store that was empty before. *)
Lemma replayed_packet_keeps_first_seen_witness :
  let h := "e0b55be8816879415acccf98bb32fb1c7789ce187bdd4881269a1f603b92ee48" in
  let hdr := {| eth_dst := "c8:e1:30:ba:be:23"; eth_src := "00:0d:f7:12:ca:fe";
                eth_type := 2048 |} in
  let p1 := Sample.captured_at Sample.t0 (Sample.frame_ipv4 x00 x01 x6a xcd) in
  let p2 := Sample.captured_at (Sample.t0 + 5000000)
              (Sample.frame_ipv4 x00 x01 x6a xcd) in
  let st1 := exec_batch (batch Sample.susan_ext Sample.susan p1) empty_store in
  let st2 := exec_batch (batch Sample.susan_ext Sample.susan p2) st1 in
  hget st2 ("pkt_" +:+ h) "first_seen" = Some (VTime Sample.t0) /\
  hget st2 ("pkt_" +:+ h) "last_seen" = Some (VTime (time p2)) /\
  hget st2 ("pkt_" +:+ h) "num_sightings" = Some (VInt 2) /\
  hget st2 ("mac_" +:+ lower (eth_src hdr)) "first_seen" = Some (VTime Sample.t0) /\
  hget st2 ("mac_" +:+ lower (eth_src hdr)) "last_seen" = Some (VTime (time p2)).
Proof.
  intros h hdr p1 p2 st1 st2.
  assert (Hh : fst (PacketProcessor_._packet_hash Sample.susan_ext
                      (PacketProcessor_.__init__ Sample.susan p2)) = Ok h).
  { vm_compute. reflexivity. }
  assert (He : getlayer Ether (layers p2) = Some (EtherL hdr)).
  { vm_compute. reflexivity. }
  assert (Hcb : forall hdr',
             getlayer Ether (layers p2) = Some (EtherL hdr') ->
             Forall (fun op =>
                       forall f, In f ["first_seen"; "last_seen"; "num_sightings"] ->
                         writes_field ("pkt_" +:+ h) f op = false /\
                         writes_field ("mac_" +:+ lower (eth_src hdr')) f op = false)
                    (fst (process_packet Sample.susan_ext
                            (callback_kwargs Sample.susan p2 h
                               (lower (eth_src hdr')))))).
  { intros hdr' Hhdr. rewrite He in Hhdr. injection Hhdr as <-.
    match goal with
    | |- Forall _ ?l => let l' := eval vm_compute in l in change l with l'
    end.
    repeat match goal with
           | |- Forall _ (_ :: _) => constructor
           | |- Forall _ [] => constructor
           end;
      intros f Hf; cbn [In] in Hf;
      destruct Hf as [<-|[<-|[<-|[]]]]; split; vm_compute; reflexivity. }
  destruct (@first_seen_set_once_last_seen_overwritten_sightings_incremented
              Sample.susan_ext Sample.susan p2 h st1 Hh Hcb)
    as (_ & H1 & H2 & H3 & H4).
  destruct (H4 hdr He) as (H5 & H6 & _).
  assert (E1 : hget st1 ("pkt_" +:+ h) "first_seen" = Some (VTime Sample.t0))
    by (vm_compute; reflexivity).
  assert (E3 : hget st1 ("pkt_" +:+ h) "num_sightings" = Some (VInt 1))
    by (vm_compute; reflexivity).
  assert (E5 : hget st1 ("mac_" +:+ lower (eth_src hdr)) "first_seen"
               = Some (VTime Sample.t0))
    by (vm_compute; reflexivity).
  fold st2 in H1, H2, H3, H5, H6.
  rewrite E1 in H1. rewrite E3 in H3. rewrite E5 in H5.
  exact (conj H1 (conj H2 (conj H3 (conj H5 H6)))).
Defined.


(** * Further properties of the code *)

(** ** Secrets *)

Section SecretLemmas.

Lemma upper_app (a b : string) : upper (a +:+ b) = upper a +:+ upper b.
Proof. induction a as [|c a IH]; simpl; [reflexivity | by rewrite IH]. Qed.

Lemma ascii_upper_not_lowercase (c : ascii) :
  negb (is_ascii_lowercase (ascii_upper c)) = true.
Proof. destruct c as [[] [] [] [] [] [] [] []]; reflexivity. Qed.

Lemma upper_no_lowercase (s : string) :
  all_chars (fun c => negb (is_ascii_lowercase c)) (upper s) = true.
Proof.
  induction s as [|c s IH]; simpl; [reflexivity|].
  by rewrite ascii_upper_not_lowercase, IH.
Qed.

Lemma ascii_upper_replaced_not_dot (c : ascii) :
  negb (Ascii.eqb (ascii_upper (if Ascii.eqb c "." then "_"%char else c)) ".") = true.
Proof. destruct c as [[] [] [] [] [] [] [] []]; reflexivity. Qed.

Lemma upper_replace_no_dot (s : string) :
  all_chars (fun c => negb (Ascii.eqb c ".")) (upper (replace "." "_" s)) = true.
Proof.
  induction s as [|c s IH]; simpl; [reflexivity|].
  by rewrite ascii_upper_replaced_not_dot, IH.
Qed.

Lemma is_ascii_app (a b : string) :
  is_ascii (a +:+ b) = is_ascii a && is_ascii b.
Proof.
  unfold is_ascii. induction a as [|c a IH]; [reflexivity|].
  change (all_chars is_ascii_char (String c (a +:+ b))
          = all_chars is_ascii_char (String c a) && all_chars is_ascii_char b).
  cbn [all_chars]. rewrite IH. apply andb_assoc.
Qed.

Lemma is_ascii_replace (s : string) :
  is_ascii s = true -> is_ascii (replace "." "_" s) = true.
Proof.
  unfold is_ascii. induction s as [|c s IH]; [reflexivity|].
  cbn [replace all_chars]. intros H. apply andb_true_iff in H as [Hc Hs].
  rewrite (IH Hs), andb_true_r.
  destruct (Ascii.eqb c "."); [reflexivity | exact Hc].
Qed.



Lemma _readfile_secret_cases (src : SecretSources) (self : Worker)
    (key : string) (opened : list string) :
  (WorkerSecrets._readfile_secret src self key opened = (Ok None, opened) /\
   (os_getenv src "CONFIGURATION_DIRECTORY" = None \/
    os_getenv src "CONFIGURATION_DIRECTORY" = Some "")) \/
  (exists confdir,
      os_getenv src "CONFIGURATION_DIRECTORY" = Some confdir /\ confdir <> "" /\
      let path := os_path_join confdir [lower (WORKER_NAME self); key] in
      WorkerSecrets._readfile_secret src self key opened
      = (match audited_open_read src path with
         | Ok text => Ok (Some text)
         | Raise e => Raise e
         end, opened ++ [path])).
Proof.
  unfold WorkerSecrets._readfile_secret.
  destruct (os_getenv src "CONFIGURATION_DIRECTORY") as [[|c confdir]|];
    [left; auto| |left; auto].
  right. exists (String c confdir). split; [reflexivity|]. split; [discriminate|].
  cbv zeta. unfold Py.bind, Py.modify, Py.call, Py.ret.
  destruct (audited_open_read src _); reflexivity.
Qed.

End SecretLemmas.

(** X1.  [load_secret] never returns a value the validity test rejects; it
    hands at most one path to [audited_open], and none when the value from
    the environment is valid, which is then what it returns. *)
Theorem load_secret_returns_valid_secrets_only
    (src : SecretSources) (self : Worker) (key : string) (opened : list string) :
  let res := WorkerSecrets.load_secret src self key opened in
  (forall v, fst res = Ok v -> is_valid_secret src v = true) /\
  (exists more, snd res = opened ++ more /\ (length more <= 1)%nat) /\
  (is_valid_secret src (WorkerSecrets._getenv_secret src self key) = true ->
   res = (Ok (WorkerSecrets._getenv_secret src self key), opened)).
Proof.
  cbv zeta. unfold WorkerSecrets.load_secret.
  destruct (is_valid_secret src (WorkerSecrets._getenv_secret src self key)) eqn:Henv.
  - split; [|split].
    + intros v Hv. inversion Hv; subst. exact Henv.
    + exists []. simpl. rewrite app_nil_r. auto.
    + reflexivity.
  - unfold Py.bind.
    destruct (_readfile_secret_cases src self key opened)
      as [[-> _]|(confdir & _ & _ & ->)].
    + split; [|split; [|discriminate]].
      * destruct (is_valid_secret src None) eqn:Hv; simpl; intros v Hv'.
        -- inversion Hv'; subst. exact Hv.
        -- discriminate.
      * exists []. rewrite app_nil_r.
        destruct (is_valid_secret src None); simpl; auto.
    + split; [|split; [|discriminate]].
      * destruct (audited_open_read src _) as [text|e]; [|discriminate].
        destruct (is_valid_secret src (Some text)) eqn:Hv; simpl; intros v Hv'.
        -- inversion Hv'; subst. exact Hv.
        -- discriminate.
      * eexists [_]. split; [|simpl; lia].
        destruct (audited_open_read src _) as [text|e]; [|reflexivity].
        destruct (is_valid_secret src (Some text)); reflexivity.
Qed.

(** X2.  [load_secret] raises [KeyError(key)] itself only; any other
    exception it ends with is the one the audited file read raised, passed
    on unchanged, for the one path that was opened.  With no valid value in
    the environment and the configuration directory unset or empty, it
    raises [KeyError(key)] without opening a file. *)
Theorem load_secret_errors
    (src : SecretSources) (self : Worker) (key : string) (opened : list string) :
  let res := WorkerSecrets.load_secret src self key opened in
  (forall e, fst res = Raise e ->
             e = KeyError key \/
             exists path, audited_open_read src path = Raise e /\
                          snd res = opened ++ [path]) /\
  (is_valid_secret src (WorkerSecrets._getenv_secret src self key) = false ->
   is_valid_secret src None = false ->
   os_getenv src "CONFIGURATION_DIRECTORY" = None \/
   os_getenv src "CONFIGURATION_DIRECTORY" = Some "" ->
   res = (Raise (KeyError key), opened)).
Proof.
  cbv zeta. unfold WorkerSecrets.load_secret. split.
  - intros e.
    destruct (is_valid_secret src (WorkerSecrets._getenv_secret src self key));
      [discriminate|].
    unfold Py.bind.
    destruct (_readfile_secret_cases src self key opened)
      as [[-> _]|(confdir & _ & _ & ->)].
    + destruct (is_valid_secret src None); simpl; [discriminate|].
      intros H. inversion H. auto.
    + destruct (audited_open_read src _) as [text|e'] eqn:Hread; simpl.
      * destruct (is_valid_secret src (Some text)); simpl; [discriminate|].
        intros H. inversion H. auto.
      * intros H. inversion H; subst. right. eauto.
  - intros -> Hnone Hdir. unfold Py.bind, WorkerSecrets._readfile_secret.
    destruct Hdir as [-> | ->]; simpl; rewrite Hnone; reflexivity.
Qed.

(** The sample sources: the environment wins and no file is opened; the
    file is the fallback; an empty file is no secret; a missing file's error
    is not turned into [KeyError]; without a configuration directory nothing
    is opened. *)
Example load_secret_samples :
  WorkerSecrets.load_secret sample_secrets Sample.susan "redis.password" []
  = (Ok (Some "hunter2"), []) /\
  WorkerSecrets.load_secret sample_secrets Sample.susan "api.token" []
  = (Ok (Some "s3cret"), ["/etc/nx/susan/api.token"]) /\
  WorkerSecrets.load_secret sample_secrets Sample.susan "empty" []
  = (Raise (KeyError "empty"), ["/etc/nx/susan/empty"]) /\
  WorkerSecrets.load_secret sample_secrets Sample.susan "missing" []
  = (Raise (Exception "FileNotFoundError"), ["/etc/nx/susan/missing"]) /\
  WorkerSecrets.load_secret sample_secrets_no_confdir Sample.susan "api.token" []
  = (Raise (KeyError "api.token"), []).
Proof. repeat split; vm_compute; reflexivity. Qed.

(** X3.  Where [str.upper] does to ASCII text what [upper] does, and for
    a worker name and a key that are ASCII text: the environment variable
    [_getenv_secret] reads is the worker's name and the key, upper-cased,
    joined by an underscore, with the dots of the key (not those of the
    name) turned into underscores.  It holds no lower-case letter, its key
    part holds no dot, and ASCII keys that differ only in letter case or in
    dots against underscores read the same variable. *)
Theorem getenv_secret_name_is_normalised
    (src : SecretSources) (self : Worker) (key : string) :
  (forall s, is_ascii s = true -> str_upper src s = upper s) ->
  is_ascii (WORKER_NAME self) = true ->
  is_ascii key = true ->
  let name := upper (WORKER_NAME self) +:+ "_" +:+ upper (replace "." "_" key) in
  WorkerSecrets._getenv_secret src self key = os_getenv src name /\
  all_chars (fun c => negb (is_ascii_lowercase c)) name = true /\
  all_chars (fun c => negb (Ascii.eqb c ".")) (upper (replace "." "_" key)) = true /\
  (forall key',
      is_ascii key' = true ->
      upper (replace "." "_" key') = upper (replace "." "_" key) ->
      WorkerSecrets._getenv_secret src self key'
      = WorkerSecrets._getenv_secret src self key).
Proof.
  intros Hupper Hself Hkey.
  assert (Hname : forall k,
             is_ascii k = true ->
             str_upper src (WORKER_NAME self +:+ "_" +:+ replace "." "_" k)
             = upper (WORKER_NAME self) +:+ "_" +:+ upper (replace "." "_" k)).
  { intros k Hk. rewrite Hupper.
    - rewrite !upper_app. reflexivity.
    - rewrite !is_ascii_app, Hself, (is_ascii_replace k Hk). reflexivity. }
  cbv zeta. unfold WorkerSecrets._getenv_secret.
  split; [by rewrite Hname|]. split; [|split].
  - change "_" with (upper "_"). rewrite <- !upper_app. apply upper_no_lowercase.
  - apply upper_replace_no_dot.
  - intros key' Hkey' H. rewrite !Hname, H by assumption. reflexivity.
Qed.

(** The worker "Susan" and the key "redis.password": the variable is
    SUSAN_REDIS_PASSWORD, which "Redis_Password" reads as well. *)
Lemma getenv_secret_name_is_normalised_witness :
  WorkerSecrets._getenv_secret sample_secrets Sample.susan "redis.password"
  = os_getenv sample_secrets
      (upper (WORKER_NAME Sample.susan) +:+ "_"
       +:+ upper (replace "." "_" "redis.password")) /\
  upper (WORKER_NAME Sample.susan) +:+ "_" +:+ upper (replace "." "_" "redis.password")
  = "SUSAN_REDIS_PASSWORD" /\
  WorkerSecrets._getenv_secret sample_secrets Sample.susan "Redis_Password"
  = WorkerSecrets._getenv_secret sample_secrets Sample.susan "redis.password".
Proof.
  pose proof (@getenv_secret_name_is_normalised sample_secrets Sample.susan
                "redis.password" (fun s _ => eq_refl) eq_refl eq_refl)
    as (H1 & _ & _ & H4).
  split; [exact H1|]. split; [reflexivity|].
  exact (H4 "Redis_Password" eq_refl eq_refl).
Defined.



(** ** The interfaces listened on *)

Lemma land_IFF_LOOPBACK (x : Z) :
  Z.eqb (Z.land x IFF_LOOPBACK) 0 = negb (Z.testbit x 3).
Proof.
  assert (H8 : forall n, (0 <= n)%Z -> Z.testbit IFF_LOOPBACK n = Z.eqb 3 n).
  { intros n Hn. change IFF_LOOPBACK with (2 ^ 3)%Z. by apply Z.pow2_bits_eqb. }
  destruct (Z.testbit x 3) eqn:Hx; simpl.
  - apply Z.eqb_neq. intros H0.
    assert (Hb : Z.testbit (Z.land x IFF_LOOPBACK) 3 = true).
    { rewrite Z.land_spec, Hx, H8 by lia. reflexivity. }
    rewrite H0 in Hb. rewrite Z.bits_0 in Hb. discriminate.
  - apply Z.eqb_eq. apply Z.bits_inj'. intros n Hn.
    rewrite Z.land_spec, Z.bits_0, H8 by exact Hn.
    destruct (Z.eqb_spec 3 n) as [<-|_].
    + rewrite Hx. reflexivity.
    + apply andb_false_r.
Qed.

(** X5.  The [interfaces] property yields exactly the interfaces scapy
    knows that are valid and whose flags have the loopback bit (bit 3, value
    8) clear, whatever their other flags, in scapy's order. *)
Theorem interfaces_are_the_valid_non_loopback_ones
    (ext : Externals) (dev : NetworkInterface) :
  (In dev (PacketSnifferWorker.interfaces ext)
   <-> In dev (IFACES ext) /\ is_valid dev = true /\ Z.testbit (flags dev) 3 = false) /\
  sublist (PacketSnifferWorker.interfaces ext) (IFACES ext).
Proof.
  unfold PacketSnifferWorker.interfaces. split.
  - rewrite List.filter_In, land_IFF_LOOPBACK, andb_true_iff, negb_true_iff.
    tauto.
  - induction (IFACES ext) as [|d l IH]; simpl; [constructor|].
    destruct (is_valid d && _); by constructor.
Qed.

(** ** The capture loop *)

Section LoopLemmas.
Context (ext : Externals).

Lemma common_fields_of_name w w' p :
  name w = name w' -> common_fields_of w p = common_fields_of w' p.
Proof. unfold common_fields_of. by intros ->. Qed.

Lemma raw_packet_ops_name w w' p h mac :
  name w = name w' -> raw_packet_ops w p h mac = raw_packet_ops w' p h mac.
Proof.
  intros H. unfold raw_packet_ops, raw_fields_of.
  by rewrite (common_fields_of_name w w' p H).
Qed.

Lemma device_ops_name w w' p h mac :
  name w = name w' -> device_ops w p h mac = device_ops w' p h mac.
Proof.
  intros H. unfold device_ops. by rewrite (common_fields_of_name w w' p H).
Qed.

Lemma callback_kwargs_name w w' p h mac :
  name w = name w' -> callback_kwargs w p h mac = callback_kwargs w' p h mac.
Proof.
  intros H. unfold callback_kwargs.
  by rewrite (raw_packet_ops_name w w' p h _ H), (device_ops_name w w' p h mac H),
    (common_fields_of_name w w' p H).
Qed.

(** The pipeline of a packet depends on the worker through its name only. *)
Lemma batch_name w w' p : name w = name w' -> batch ext w p = batch ext w' p.
Proof.
  intros Hn. unfold batch, issue_ops, heartbeat_op. rewrite Hn.
  destruct (getlayer Ether (layers p)) as [l|] eqn:He.
  - destruct (getlayer_Ether_inv _ He) as [hdr ->].
    destruct (_run_ether ext w p He) as [-> H].
    destruct (_run_ether ext w' p He) as [-> H'].
    destruct (fingerprint ext _ _) as [h|e]; cbv zeta in H, H'.
    + destruct H as (_ & -> & ->). destruct H' as (_ & -> & ->).
      by rewrite (raw_packet_ops_name w w' p h _ Hn),
        (device_ops_name w w' p h _ Hn), (callback_kwargs_name w w' p h _ Hn).
    + destruct H as (_ & -> & ->). destruct H' as (_ & -> & ->). reflexivity.
  - destruct (_run_no_ether ext w p He) as [-> H].
    destruct (_run_no_ether ext w' p He) as [-> H'].
    destruct (blake2s_hexdigest ext _) as [h|e].
    + destruct H as (_ & -> & ->). destruct H' as (_ & -> & ->).
      by rewrite (raw_packet_ops_name w w' p h _ Hn).
    + destruct H as (_ & -> & ->). destruct H' as (_ & -> & ->). reflexivity.
Qed.

Lemma after_except_fields r w :
  name (after_except r w) = name w /\
  _waiting_to_restart (after_except r w) = _waiting_to_restart w /\
  db (after_except r w) = db w.
Proof. destruct r; repeat split. Qed.

(** Packets captured while no restart is pending go through one by one. *)
Lemma sniff_packets (ps : list Packet) (w : Worker) :
  _waiting_to_restart w = Some false ->
  exists w',
    (forall rest,
        PacketSnifferWorker.sniff
          (PacketSnifferWorker._wrapped_process_packet
             (PacketSnifferWorker._process_packet ext))
          (List.map Captured ps ++ rest) w
        = PacketSnifferWorker.sniff
            (PacketSnifferWorker._wrapped_process_packet
               (PacketSnifferWorker._process_packet ext))
            rest w') /\
    name w' = name w /\
    _waiting_to_restart w' = Some false /\
    submitted (db w') = submitted (db w) ++ List.map (batch ext w) ps.
Proof.
  revert w. induction ps as [|p ps IH]; intros w Hw.
  - exists w. simpl. rewrite app_nil_r. auto.
  - set (w1 := after_except
                 (fst (PacketSnifferWorker._process_packet ext p w))
                 (snd (PacketSnifferWorker._process_packet ext p w))).
    destruct (after_except_fields
                (fst (PacketSnifferWorker._process_packet ext p w))
                (snd (PacketSnifferWorker._process_packet ext p w)))
      as (Hn1 & Hf1 & Hd1).
    fold w1 in Hn1, Hf1, Hd1. rewrite _process_packet_eq in Hn1, Hf1, Hd1.
    simpl in Hn1, Hf1, Hd1.
    destruct (IH w1) as (w' & Heq & Hn & Hf & Hs); [congruence|].
    exists w'. split; [|split; [congruence|split; [exact Hf|]]].
    + intros rest. rewrite <- Heq.
      cbn [List.map app PacketSnifferWorker.sniff]. unfold Py.bind at 1.
      rewrite (@_wrapped_process_packet_eq
                 (PacketSnifferWorker._process_packet ext) p w false)
        by (rewrite _process_packet_eq; exact Hw).
      cbv zeta. fold w1.
      destruct (fst (PacketSnifferWorker._process_packet ext p w)); reflexivity.
    + rewrite Hs, Hd1. simpl. rewrite <- app_assoc. simpl. do 2 f_equal.
      apply List.map_ext. intros q. by apply batch_name.
Qed.

End LoopLemmas.

(** X6.  While no restart is pending, a capture that delivers packets and
    no signal returns normally whatever failed on the way, leaves the flag
    clear, and has submitted one pipeline per packet in capture order, each
    being the pipeline that packet gets when the worker processes it on its
    own: earlier packets leave nothing behind in later pipelines. *)
Theorem capture_submits_one_pipeline_per_packet
    (ext : Externals) (ps : list Packet) (w : Worker) :
  _waiting_to_restart w = Some false ->
  let res := PacketSnifferWorker.sniff
               (PacketSnifferWorker._wrapped_process_packet
                  (PacketSnifferWorker._process_packet ext))
               (List.map Captured ps) w in
  fst res = Ok VNone /\
  _waiting_to_restart (snd res) = Some false /\
  submitted (db (snd res)) = submitted (db w) ++ List.map (batch ext w) ps /\
  (forall p, submitted (db (snd (PacketSnifferWorker._process_packet ext p w)))
             = submitted (db w) ++ [batch ext w p]).
Proof.
  intros Hw. cbv zeta.
  destruct (@sniff_packets ext ps w Hw) as (w' & Heq & _ & Hf & Hs).
  specialize (Heq []). rewrite app_nil_r in Heq. rewrite Heq. simpl.
  repeat split; try assumption.
  intros p. rewrite _process_packet_eq. reflexivity.
Qed.

(** An IPv4 frame and a cooked-mode packet through a running worker. *)
Lemma capture_submits_one_pipeline_per_packet_witness :
  let ps := [Sample.captured (Sample.frame_ipv4 x00 x01 x6a xcd); Sample.cooked] in
  let w := Sample.susan_running false in
  let res := PacketSnifferWorker.sniff
               (PacketSnifferWorker._wrapped_process_packet
                  (PacketSnifferWorker._process_packet Sample.susan_ext))
               (List.map Captured ps) w in
  fst res = Ok VNone /\
  _waiting_to_restart (snd res) = Some false /\
  submitted (db (snd res))
  = submitted (db w) ++ List.map (batch Sample.susan_ext w) ps /\
  (forall p, submitted (db (snd (PacketSnifferWorker._process_packet
                                   Sample.susan_ext p w)))
             = submitted (db w) ++ [batch Sample.susan_ext w p]).
Proof.
  cbv zeta.
  apply (@capture_submits_one_pipeline_per_packet Sample.susan_ext
           [Sample.captured (Sample.frame_ipv4 x00 x01 x6a xcd); Sample.cooked]
           (Sample.susan_running false)).
  reflexivity.
Defined.

(** X7.  A SIGHUP that arrives between packets while no restart is pending
    lets exactly one more packet through: the packets before the signal and
    the first one after it each get their pipeline submitted, then the
    capture call ends with [RestartWorker]; what would have been captured
    after that is never looked at. *)
Theorem restart_after_one_more_packet
    (ext : Externals) (before : list Packet) (p : Packet)
    (rest : list CaptureEvent) (w : Worker) :
  _waiting_to_restart w = Some false ->
  let prn := PacketSnifferWorker._wrapped_process_packet
               (PacketSnifferWorker._process_packet ext) in
  let res := PacketSnifferWorker.sniff prn
               (List.map Captured before ++ SIGHUP :: Captured p :: rest) w in
  fst res = Raise RestartWorker /\
  _waiting_to_restart (snd res) = Some true /\
  submitted (db (snd res))
  = submitted (db w) ++ List.map (batch ext w) (before ++ [p]) /\
  res = PacketSnifferWorker.sniff prn
          (List.map Captured before ++ [SIGHUP; Captured p]) w.
Proof.
  intros Hw. cbv zeta.
  destruct (@sniff_packets ext before w Hw) as (w' & Heq & Hn & Hf & Hs).
  set (w1 := with_waiting_to_restart true
               (with_effect
                  (LogInfo "received SIGHUP, will restart at next checkpoint") w')).
  assert (Hstep : forall tail,
             PacketSnifferWorker.sniff
               (PacketSnifferWorker._wrapped_process_packet
                  (PacketSnifferWorker._process_packet ext))
               (SIGHUP :: Captured p :: tail) w'
             = (Raise RestartWorker,
                with_effect (LogInfo "going down for restart")
                  (after_except
                     (fst (PacketSnifferWorker._process_packet ext p w1))
                     (snd (PacketSnifferWorker._process_packet ext p w1))))).
  { intros tail. cbn [PacketSnifferWorker.sniff]. unfold Py.bind at 1.
    rewrite _handle_SIGHUP_first by exact Hf. fold w1.
    unfold Py.bind at 1.
    rewrite (@_wrapped_process_packet_eq
               (PacketSnifferWorker._process_packet ext) p w1 true)
      by (rewrite _process_packet_eq; reflexivity).
    reflexivity. }
  rewrite !Heq, (Hstep rest), (Hstep []). cbn [fst snd].
  destruct (after_except_fields
              (fst (PacketSnifferWorker._process_packet ext p w1))
              (snd (PacketSnifferWorker._process_packet ext p w1)))
    as (_ & Hf1 & Hd1).
  split; [reflexivity|]. split; [|split; [|reflexivity]].
  - change (_waiting_to_restart (with_effect ?e ?x)) with (_waiting_to_restart x).
    rewrite Hf1, _process_packet_eq. reflexivity.
  - change (db (with_effect ?e ?x)) with (db x).
    rewrite Hd1, _process_packet_eq. simpl.
    rewrite Hs, List.map_app, <- app_assoc. simpl. do 3 f_equal.
    apply batch_name. simpl. exact Hn.
Qed.

(** A frame, a SIGHUP, a cooked-mode packet, and an ARP request that is
    never processed. *)
Lemma restart_after_one_more_packet_witness :
  let before := [Sample.captured (Sample.frame_ipv4 x00 x01 x6a xcd)] in
  let rest := [Captured (Sample.captured Sample.frame_arp)] in
  let w := Sample.susan_running false in
  let prn := PacketSnifferWorker._wrapped_process_packet
               (PacketSnifferWorker._process_packet Sample.susan_ext) in
  let res := PacketSnifferWorker.sniff prn
               (List.map Captured before ++ SIGHUP :: Captured Sample.cooked :: rest)
               w in
  fst res = Raise RestartWorker /\
  _waiting_to_restart (snd res) = Some true /\
  submitted (db (snd res))
  = submitted (db w)
    ++ List.map (batch Sample.susan_ext w) (before ++ [Sample.cooked]) /\
  res = PacketSnifferWorker.sniff prn
          (List.map Captured before ++ [SIGHUP; Captured Sample.cooked]) w.
Proof.
  cbv zeta.
  apply (@restart_after_one_more_packet Sample.susan_ext
           [Sample.captured (Sample.frame_ipv4 x00 x01 x6a xcd)] Sample.cooked
           [Captured (Sample.captured Sample.frame_arp)]
           (Sample.susan_running false)).
  reflexivity.
Defined.

(** X8.  The pending-restart flag exists only once [run] has started the
    worker.  On a worker as [__init__] leaves it, the wrapper still processes
    the packet and submits its pipeline, logs "packet processing failed:"
    if and only if the processing raised, and then ends with the
    [AttributeError] of the checkpoint reading the missing flag, which
    replaces whatever the processing returned or raised; the SIGHUP handler
    fails in the same way and changes nothing. *)
Theorem checkpoint_before_startup_raises_AttributeError
    (ext : Externals) (p : Packet) (w : Worker) :
  _waiting_to_restart w = None ->
  let res := PacketSnifferWorker._wrapped_process_packet
               (PacketSnifferWorker._process_packet ext) p w in
  fst res = Raise (AttributeError "_waiting_to_restart") /\
  submitted (db (snd res)) = submitted (db w) ++ [batch ext w p] /\
  effects (snd res)
  = effects w
    ++ match fst (PacketSnifferWorker._process_packet ext p w) with
       | Ok _ => []
       | Raise e => [LogError "packet processing failed:" e]
       end /\
  WorkerBase._handle_SIGHUP w = (Raise (AttributeError "_waiting_to_restart"), w).
Proof.
  intros Hw. cbv zeta.
  unfold PacketSnifferWorker._wrapped_process_packet, Py.try_finally,
    Py.try_except, WorkerBase._handle_SIGHUP.
  rewrite _process_packet_eq. cbn [fst].
  set (w1 := with_db _ w).
  assert (H1 : _waiting_to_restart w1 = None) by exact Hw.
  set (r := match db_execute ext (db w) (batch ext w p) with
            | Ok _ => _ | Raise e => Raise e end).
  destruct r as [v|e].
  - unfold WorkerBase._checkpoint_worker, Py.bind, Py.getattr.
    rewrite H1, Hw. cbn. rewrite app_nil_r. auto.
  - unfold Py.bind, WorkerBase.log_error, Py.modify, Py.ret,
      WorkerBase._checkpoint_worker, Py.bind, Py.getattr.
    cbn. rewrite Hw. auto.
Qed.

(** The worker as [RedisClientWorker.__init__] builds it, handed a packet. *)
Lemma checkpoint_before_startup_raises_AttributeError_witness :
  let res := PacketSnifferWorker._wrapped_process_packet
               (PacketSnifferWorker._process_packet Sample.susan_ext)
               Sample.cooked Sample.susan in
  fst res = Raise (AttributeError "_waiting_to_restart") /\
  submitted (db (snd res))
  = submitted (db Sample.susan) ++ [batch Sample.susan_ext Sample.susan Sample.cooked] /\
  effects (snd res)
  = effects Sample.susan
    ++ match fst (PacketSnifferWorker._process_packet Sample.susan_ext
                    Sample.cooked Sample.susan) with
       | Ok _ => []
       | Raise e => [LogError "packet processing failed:" e]
       end /\
  WorkerBase._handle_SIGHUP Sample.susan
  = (Raise (AttributeError "_waiting_to_restart"), Sample.susan).
Proof.
  cbv zeta.
  apply (@checkpoint_before_startup_raises_AttributeError Sample.susan_ext
           Sample.cooked Sample.susan).
  reflexivity.
Defined.

(** ** What one packet leaves behind *)

(** X9.  A packet is filed under at most one anomaly category:
    "first_layer" exactly when it has no link-layer view, and otherwise
    "ether_payload" exactly when the bytes dissect to a copy with neither an
    IPv4 nor an ARP layer.  A dissection that raises records no category. *)
Theorem at_most_one_anomaly_per_packet
    (ext : Externals) (w : Worker) (p : Packet) :
  let cats := _issue_categories
                (snd (PacketProcessor_.run ext (PacketProcessor_.__init__ w p))) in
  (cats = [] \/ cats = ["unhandled:pkts:first_layer"]
   \/ cats = ["unhandled:pkts:ether_payload"]) /\
  (cats = ["unhandled:pkts:first_layer"] <-> getlayer Ether (layers p) = None) /\
  (forall eth,
      getlayer Ether (layers p) = Some eth ->
      match scapy_dissect ext (layer_class eth) (original p) with
      | Raise _ => cats = []
      | Ok copy_packet =>
          cats = ["unhandled:pkts:ether_payload"]
          <-> getlayer IP copy_packet = None /\ haslayer ARP copy_packet = false
      end).
Proof.
  cbv zeta. rewrite run_closed_form. cbn [snd].
  change (_issue_categories (PP.set_pipeline ?a (PP.set_worker ?b ?s)))
    with (_issue_categories s).
  destruct (getlayer Ether (layers p)) as [l|] eqn:He.
  - destruct (getlayer_Ether_inv _ He) as [hdr ->].
    destruct (_run_ether ext w p He) as [-> _].
    unfold hash_issues. cbn [layer_class].
    split; [|split].
    + destruct (scapy_dissect ext Ether (original p)) as [copy_packet|e];
        [|auto].
      destruct (getlayer IP copy_packet); [auto|].
      destruct (haslayer ARP copy_packet); auto.
    + split; [|discriminate].
      destruct (scapy_dissect ext Ether (original p)) as [copy_packet|e];
        [|discriminate].
      destruct (getlayer IP copy_packet); [discriminate|].
      destruct (haslayer ARP copy_packet); discriminate.
    + intros eth Heth. injection Heth as <-. cbn [layer_class].
      destruct (scapy_dissect ext Ether (original p)) as [copy_packet|e];
        [|reflexivity].
      destruct (getlayer IP copy_packet), (haslayer ARP copy_packet);
        split; try discriminate; try tauto; intros [? ?]; discriminate.
  - destruct (_run_no_ether ext w p He) as [-> _].
    split; [auto|]. split; [tauto|]. discriminate.
Qed.

(** X10.  [_process_packet] has no failure of its own: an exception it
    ends with was raised by the store's [execute], by scapy dissecting the
    packet's bytes or building the canonical copy, by [hashlib], or by the
    analyser's callback.  No attribute is read before it is assigned and no
    [None] hash reaches the device writes. *)
Theorem process_packet_raises_only_what_it_called
    (ext : Externals) (w : Worker) (p : Packet) (e : exn) :
  fst (PacketSnifferWorker._process_packet ext p w) = Raise e ->
  (exists ops, db_execute ext (db w) ops = Raise e) \/
  scapy_dissect ext Ether (original p) = Raise e \/
  (exists pkt, scapy_build ext pkt = Raise e) \/
  (exists data, blake2s_hexdigest ext data = Raise e) \/
  (exists kw, snd (process_packet ext kw) = Raise e).
Proof.
  rewrite _process_packet_eq. cbn [fst].
  destruct (db_execute ext (db w) (batch ext w p)) as [u|e'] eqn:Hdb.
  2: { intros H. injection H as <-. left. eauto. }
  destruct (outcome__run ext w p) as [v|e'] eqn:Hout; [discriminate|].
  intros H. injection H as <-. right.
  destruct (getlayer Ether (layers p)) as [l|] eqn:He.
  - destruct (getlayer_Ether_inv _ He) as [hdr ->].
    destruct (_run_ether ext w p He) as [_ H].
    unfold fingerprint, hash_input in H. cbn [layer_class] in H.
    destruct (scapy_dissect ext Ether (original p)) as [copy_packet|e1].
    + destruct (getlayer IP copy_packet).
      * destruct (scapy_build ext (canonical copy_packet)) as [data|e2] eqn:Hb.
        -- destruct (blake2s_hexdigest ext data) as [h|e3] eqn:Hh;
             cbv zeta in H; destruct H as (H & _); rewrite Hout in H.
           ++ right. right. right. eauto.
           ++ injection H as <-. right. right. left. eauto.
        -- destruct H as (H & _). rewrite Hout in H. injection H as <-.
           right. left. eauto.
      * destruct (blake2s_hexdigest ext (original p)) as [h|e3] eqn:Hh;
          cbv zeta in H; destruct H as (H & _); rewrite Hout in H.
        -- right. right. right. eauto.
        -- injection H as <-. right. right. left. eauto.
    + destruct H as (H & _). rewrite Hout in H. injection H as <-. auto.
  - destruct (_run_no_ether ext w p He) as [_ H].
    destruct (blake2s_hexdigest ext (original p)) as [h|e3] eqn:Hh;
      destruct H as (H & _); rewrite Hout in H; [discriminate|].
    injection H as <-. right. right. left. eauto.
Qed.

(** The analyser's callback raises [ValueError] on an LLDP frame. *)
Lemma process_packet_raises_only_what_it_called_witness :
  (exists ops, db_execute Sample.failing_ext (db Sample.susan) ops
               = Raise (Exception "ValueError")) \/
  scapy_dissect Sample.failing_ext Ether
    (original (Sample.captured Sample.frame_lldp))
  = Raise (Exception "ValueError") \/
  (exists pkt, scapy_build Sample.failing_ext pkt = Raise (Exception "ValueError")) \/
  (exists data, blake2s_hexdigest Sample.failing_ext data
                = Raise (Exception "ValueError")) \/
  (exists kw, snd (process_packet Sample.failing_ext kw)
              = Raise (Exception "ValueError")).
Proof.
  apply (@process_packet_raises_only_what_it_called Sample.failing_ext
           Sample.susan (Sample.captured Sample.frame_lldp)
           (Exception "ValueError")).
  vm_compute. reflexivity.
Defined.

(** X11.  A packet with no link-layer view whose bytes hash to [h] is
    recorded by five commands and nothing else: its record with the common
    fields, the raw bytes and the interface but no "last_seen_from", the
    first-seen and sightings updates, [h] added to the "first_layer" anomaly
    set, and the heartbeat.  No device is recorded, scapy and the analyser's
    callback are not called, and only the store can make processing fail. *)
Theorem packet_without_link_layer_is_recorded_alone
    (ext : Externals) (w : Worker) (p : Packet) (h : string) :
  getlayer Ether (layers p) = None ->
  blake2s_hexdigest ext (original p) = Ok h ->
  let sent :=
    [HSet ("pkt_" +:+ h)
       [("last_seen", VTime (time p));
        ("last_seen_by", VStr (name w));
        ("last_seen_by_" +:+ name w, VTime (time p));
        ("raw_bytes", VBytes (original p));
        ("last_sniffed_on", VStr (sniffed_on p))];
     HSetNX ("pkt_" +:+ h) "first_seen" (VTime (time p));
     HIncrBy ("pkt_" +:+ h) "num_sightings" 1;
     SAdd "unhandled:pkts:first_layer" (VStr h);
     HSet "heartbeats" [(name w, VTime (time p))]] in
  PacketSnifferWorker._process_packet ext p w
  = (match db_execute ext (db w) sent with
     | Ok _ => Ok VNone
     | Raise e => Raise e
     end,
     with_db {| submitted := submitted (db w) ++ [sent] |} w).
Proof.
  intros He Hh. cbv zeta.
  rewrite _process_packet_eq, (batch_no_ether ext w p He), Hh.
  destruct (_run_no_ether ext w p He) as [Hc H].
  rewrite Hh in H. destruct H as (-> & Hp & _).
  unfold issue_ops. rewrite Hc, Hp. reflexivity.
Qed.

(** A packet captured in cooked mode. *)
Lemma packet_without_link_layer_is_recorded_alone_witness :
  let h := "3abe51208fc3a2159dcbd8ef62ea47b47cd2b5b1308c327a385b22af70ab7197" in
  let sent :=
    [HSet ("pkt_" +:+ h)
       [("last_seen", VTime (time Sample.cooked));
        ("last_seen_by", VStr (name Sample.susan));
        ("last_seen_by_" +:+ name Sample.susan, VTime (time Sample.cooked));
        ("raw_bytes", VBytes (original Sample.cooked));
        ("last_sniffed_on", VStr (sniffed_on Sample.cooked))];
     HSetNX ("pkt_" +:+ h) "first_seen" (VTime (time Sample.cooked));
     HIncrBy ("pkt_" +:+ h) "num_sightings" 1;
     SAdd "unhandled:pkts:first_layer" (VStr h);
     HSet "heartbeats" [(name Sample.susan, VTime (time Sample.cooked))]] in
  PacketSnifferWorker._process_packet Sample.susan_ext Sample.cooked Sample.susan
  = (match db_execute Sample.susan_ext (db Sample.susan) sent with
     | Ok _ => Ok VNone
     | Raise e => Raise e
     end,
     with_db {| submitted := submitted (db Sample.susan) ++ [sent] |} Sample.susan).
Proof.
  cbv zeta.
  apply (@packet_without_link_layer_is_recorded_alone Sample.susan_ext
           Sample.susan Sample.cooked
           "3abe51208fc3a2159dcbd8ef62ea47b47cd2b5b1308c327a385b22af70ab7197").
  - reflexivity.
  - vm_compute. reflexivity.
Defined.

(** X12.  For a packet with a link-layer view and hash [h], the analyser's
    callback is handed a pipeline that already holds the three raw-packet
    commands and the four device commands, and whatever it appends is
    submitted with them even when it then raises: nothing buffered is
    dropped, and the anomaly set-adds (carrying [h]) and the heartbeat
    follow. *)
Theorem analyser_commands_are_sent_even_when_it_raises
    (ext : Externals) (w : Worker) (p : Packet) (hdr : EtherFields) (h : string) :
  getlayer Ether (layers p) = Some (EtherL hdr) ->
  fst (PacketProcessor_._packet_hash ext (PacketProcessor_.__init__ w p)) = Ok h ->
  let mac := lower (eth_src hdr) in
  let kw := callback_kwargs w p h mac in
  exists anomalies,
    submitted (db (snd (PacketSnifferWorker._process_packet ext p w)))
    = submitted (db w)
      ++ [raw_packet_ops w p h (Some mac) ++ device_ops w p h mac
          ++ fst (process_packet ext kw)
          ++ List.map (fun set => SAdd set (VStr h)) anomalies
          ++ [HSet "heartbeats" [(name w, VTime (time p))]]] /\
    (anomalies = [] \/ anomalies = ["unhandled:pkts:ether_payload"]) /\
    kw_pipeline kw = raw_packet_ops w p h (Some mac) ++ device_ops w p h mac /\
    length (kw_pipeline kw) = 7%nat.
Proof.
  intros He Hh. cbv zeta.
  exists (_issue_categories (after__run ext w p)).
  rewrite _process_packet_eq. cbn [snd db with_db submitted].
  rewrite (batch_ether ext w p He Hh).
  pose proof Hh as Hh'. rewrite _packet_hash_eq in Hh'. unfold ether_view in Hh'.
  cbn [fst PacketProcessor_.__init__ _ether_layer packet] in Hh'.
  rewrite He in Hh'.
  destruct (_run_ether ext w p He) as [Hc H].
  rewrite Hh' in H. cbv zeta in H. destruct H as (_ & Hp & _).
  unfold issue_ops. rewrite Hp. cbn [str_or_None].
  split; [reflexivity|]. split; [|split; reflexivity].
  rewrite Hc. unfold hash_issues.
  destruct (scapy_dissect ext _ _); [|auto].
  destruct (getlayer IP _); [auto|].
  destruct (haslayer ARP _); auto.
Qed.

(** An LLDP frame through an analyser that appends one command and raises. *)
Lemma analyser_commands_are_sent_even_when_it_raises_witness :
  let w := Sample.susan in
  let p := Sample.captured Sample.frame_lldp in
  let h := "0adce28107b10a5444127e6a98fbb024077fdbad6cd62750d4725a9fb695cb24" in
  let mac := lower "00:0d:f7:12:ca:fe" in
  let kw := callback_kwargs w p h mac in
  exists anomalies,
    submitted (db (snd (PacketSnifferWorker._process_packet Sample.failing_ext p w)))
    = submitted (db w)
      ++ [raw_packet_ops w p h (Some mac) ++ device_ops w p h mac
          ++ fst (process_packet Sample.failing_ext kw)
          ++ List.map (fun set => SAdd set (VStr h)) anomalies
          ++ [HSet "heartbeats" [(name w, VTime (time p))]]] /\
    (anomalies = [] \/ anomalies = ["unhandled:pkts:ether_payload"]) /\
    kw_pipeline kw = raw_packet_ops w p h (Some mac) ++ device_ops w p h mac /\
    length (kw_pipeline kw) = 7%nat.
Proof.
  cbv zeta.
  refine (@analyser_commands_are_sent_even_when_it_raises Sample.failing_ext
            Sample.susan (Sample.captured Sample.frame_lldp)
            {| eth_dst := "c8:e1:30:ba:be:23"; eth_src := "00:0d:f7:12:ca:fe";
               eth_type := 35020 |}
            "0adce28107b10a5444127e6a98fbb024077fdbad6cd62750d4725a9fb695cb24" _ _).
  - vm_compute; reflexivity.
  - vm_compute; reflexivity.
Defined.

(** X13.  How [_process_packet] ends: with the store's exception when
    [execute] raises, whatever [_run] did, so that a failure of [_run] is
    lost behind it; otherwise with the exception of [_run] if it raised;
    otherwise with [None], whatever the analyser's callback returned. *)
Theorem store_error_takes_precedence
    (ext : Externals) (w : Worker) (p : Packet) :
  let res := PacketSnifferWorker._process_packet ext p w in
  let ran := fst (PacketProcessor_._run ext
                    (PP.set_pipeline [] (PacketProcessor_.__init__ w p))) in
  exists sent,
    submitted (db (snd res)) = submitted (db w) ++ [sent] /\
    (forall e, db_execute ext (db w) sent = Raise e -> fst res = Raise e) /\
    (forall u e, db_execute ext (db w) sent = Ok u -> ran = Raise e ->
                 fst res = Raise e) /\
    (forall u v, db_execute ext (db w) sent = Ok u -> ran = Ok v ->
                 fst res = Ok VNone) /\
    (forall v, fst res = Ok v -> v = VNone).
Proof.
  cbv zeta. exists (batch ext w p). rewrite _process_packet_eq.
  cbn [fst snd db with_db submitted]. fold (run_start w p).
  fold (outcome__run ext w p).
  destruct (db_execute ext (db w) (batch ext w p)) as [u|e];
    destruct (outcome__run ext w p) as [v|e'];
    repeat split; intros; congruence.
Qed.

(** X14.  The heartbeat is the last command of every pipeline, so once the
    store has applied the pipeline of a packet, the worker's entry in
    "heartbeats" is that packet's timestamp, whatever the packet was, whatever
    failed while it was processed and whatever the analyser's callback
    wrote. *)
Theorem heartbeat_follows_every_packet
    (ext : Externals) (w : Worker) (p : Packet) (st : Store) :
  exists sent,
    submitted (db (snd (PacketSnifferWorker._process_packet ext p w)))
    = submitted (db w) ++ [sent] /\
    List.last sent (HSet "heartbeats" []) = HSet "heartbeats" [(name w, VTime (time p))] /\
    hget (exec_batch sent st) "heartbeats" (name w) = Some (VTime (time p)).
Proof.
  exists (batch ext w p). rewrite _process_packet_eq.
  split; [reflexivity|]. unfold batch. rewrite !app_assoc. split.
  - apply List.last_last.
  - rewrite exec_batch_app. unfold exec_batch at 1. cbn [List.fold_left].
    unfold heartbeat_op, apply_op. rewrite hget_put_record_eq.
    unfold hset_fields. cbn [List.fold_left fst snd].
    apply lookup_insert_eq.
Qed.

(** ** Canonicalisation below other layers *)

Lemma getlayer_app (cls : LayerClass) (pre : list Layer) (l : Layer)
    (rest : list Layer) :
  haslayer cls pre = false -> layer_is cls l = true ->
  getlayer cls (pre ++ l :: rest) = Some l.
Proof.
  unfold haslayer, getlayer. intros Hpre Hl.
  induction pre as [|x pre IH]; simpl in *.
  - by rewrite Hl.
  - apply orb_false_iff in Hpre as [Hx Hpre]. rewrite Hx. by apply IH.
Qed.

Lemma setattr_layer_app (cls : LayerClass) (f : Layer -> Layer)
    (pre : list Layer) (l : Layer) (rest : list Layer) :
  haslayer cls pre = false -> layer_is cls l = true ->
  setattr_layer cls f (pre ++ l :: rest) = pre ++ f l :: rest.
Proof.
  unfold haslayer. intros Hpre Hl.
  induction pre as [|x pre IH]; simpl in *.
  - by rewrite Hl.
  - apply orb_false_iff in Hpre as [Hx Hpre]. rewrite Hx. f_equal. by apply IH.
Qed.

(** X15.  The IPv4 header that is canonicalised is the first one of the
    dissected copy, however many layers stand in front of it (a VLAN tag,
    say): the hash input is the copy built back with that header's [id] and
    [chksum] replaced, the layers in front of it and everything behind it,
    including any further IPv4 header of a tunnelled packet, as dissected.
    No anomaly is recorded and the captured packet stays as it was. *)
Theorem first_IPv4_header_is_canonicalised_at_any_depth
    (ext : Externals) (w : Worker) (p : Packet) (eth : Layer)
    (pre : list Layer) (h : IPFields) (rest : list Layer) :
  getlayer Ether (layers p) = Some eth ->
  scapy_dissect ext (layer_class eth) (original p) = Ok (pre ++ IPL h :: rest) ->
  haslayer IP pre = false ->
  let s := PacketProcessor_.__init__ w p in
  fst (PacketProcessor_._packet_hash_bytes ext s)
  = scapy_build ext
      (pre ++ set_chksum 0xbeef (set_id 0xdead (IPL h)) :: rest) /\
  _issue_categories (snd (PacketProcessor_._packet_hash_bytes ext s)) = [] /\
  packet (snd (PacketProcessor_._packet_hash_bytes ext s)) = p.
Proof.
  intros He Hd Hpre. cbv zeta. rewrite _packet_hash_bytes_eq.
  unfold ether_view, hash_input, hash_issues.
  cbn [fst snd PacketProcessor_.__init__ _ether_layer packet].
  rewrite He, Hd.
  rewrite (getlayer_app IP pre (IPL h) rest Hpre eq_refl).
  split; [|split; reflexivity].
  unfold canonical.
  rewrite (setattr_layer_app IP (set_id 0xdead) pre (IPL h) rest Hpre eq_refl).
  rewrite (setattr_layer_app IP (set_chksum 0xbeef) pre
             (set_id 0xdead (IPL h)) rest Hpre eq_refl).
  reflexivity.
Qed.

(** An IPv4 datagram behind an 802.1Q tag. *)
Lemma first_IPv4_header_is_canonicalised_at_any_depth_witness :
  let s := PacketProcessor_.__init__ Sample.susan
             (Sample.captured Sample.frame_vlan_ipv4) in
  let pre := [EtherL {| eth_dst := "c8:e1:30:ba:be:23";
                        eth_src := "00:0d:f7:12:ca:fe"; eth_type := 33024 |};
              Dot1QL 1 2048] in
  let h := {| ip_version_ihl := 69; ip_tos := 0; ip_len := 28; ip_id := 1;
              ip_flags_frag := 0; ip_ttl := 64; ip_proto := 17;
              ip_chksum := 27341; ip_src := [x01; x02; x03; x04];
              ip_dst := [x05; x06; x07; x08]; ip_options := [] |} in
  fst (PacketProcessor_._packet_hash_bytes Sample.susan_ext s)
  = scapy_build Sample.susan_ext
      (pre ++ set_chksum 0xbeef (set_id 0xdead (IPL h))
           :: [RawL Sample.udp_datagram]) /\
  _issue_categories (snd (PacketProcessor_._packet_hash_bytes Sample.susan_ext s))
  = [] /\
  packet (snd (PacketProcessor_._packet_hash_bytes Sample.susan_ext s))
  = Sample.captured Sample.frame_vlan_ipv4.
Proof.
  cbv zeta.
  refine (@first_IPv4_header_is_canonicalised_at_any_depth Sample.susan_ext
            Sample.susan (Sample.captured Sample.frame_vlan_ipv4)
            (EtherL {| eth_dst := "c8:e1:30:ba:be:23";
                       eth_src := "00:0d:f7:12:ca:fe"; eth_type := 33024 |})
            [EtherL {| eth_dst := "c8:e1:30:ba:be:23";
                       eth_src := "00:0d:f7:12:ca:fe"; eth_type := 33024 |};
             Dot1QL 1 2048]
            {| ip_version_ihl := 69; ip_tos := 0; ip_len := 28; ip_id := 1;
               ip_flags_frag := 0; ip_ttl := 64; ip_proto := 17;
               ip_chksum := 27341; ip_src := [x01; x02; x03; x04];
               ip_dst := [x05; x06; x07; x08]; ip_options := [] |}
            [RawL Sample.udp_datagram] _ _ _).
  - vm_compute; reflexivity.
  - vm_compute; reflexivity.
  - reflexivity.
Defined.

(** ** What a packet leaves alone in the store *)

Section LocalityLemmas.

Lemma eqb_prefixed (prefix a b : string) :
  String.eqb (prefix +:+ a) (prefix +:+ b) = String.eqb a b.
Proof.
  induction prefix as [|c prefix IH]; [reflexivity|].
  change (String.eqb (String c (prefix +:+ a)) (String c (prefix +:+ b))
          = String.eqb a b).
  cbn [String.eqb]. rewrite Ascii.eqb_refl. exact IH.
Qed.

Lemma existsb_single_field (f field : string) (v : pyval) :
  List.existsb (fun kv : string * pyval => String.eqb (fst kv) field) [(f, v)]
  = String.eqb f field.
Proof. simpl. apply orb_false_r. Qed.

End LocalityLemmas.

(** X16.  Once the store has applied the pipeline of a packet with a
    link-layer view, hash [h] and sender [mac], the record of every other
    packet, the record and the packet index of every other device, and every
    other worker's heartbeat are as before, wherever the analyser's own
    commands leave them alone: the commands [PacketProcessor] buffers reach
    only the keys ["pkt_" + h], ["mac_" + mac], ["macpkts_" + mac] and the
    worker's own field of "heartbeats", and no hash or MAC string makes two
    of these key families coincide. *)
Theorem packet_writes_only_its_own_records
    (ext : Externals) (w : Worker) (p : Packet) (hdr : EtherFields)
    (h : string) (st : Store) :
  getlayer Ether (layers p) = Some (EtherL hdr) ->
  fst (PacketProcessor_._packet_hash ext (PacketProcessor_.__init__ w p)) = Ok h ->
  let mac := lower (eth_src hdr) in
  let appended := fst (process_packet ext (callback_kwargs w p h mac)) in
  let untouched key field :=
    Forall (fun op => writes_field key field op = false) appended ->
    forall sent,
      submitted (db (snd (PacketSnifferWorker._process_packet ext p w)))
      = submitted (db w) ++ [sent] ->
      hget (exec_batch sent st) key field = hget st key field in
  (forall h' field, h' <> h -> untouched ("pkt_" +:+ h') field) /\
  (forall mac' field, mac' <> mac -> untouched ("mac_" +:+ mac') field) /\
  (forall mac' field, mac' <> mac -> untouched ("macpkts_" +:+ mac') field) /\
  (forall field, field <> name w -> untouched "heartbeats" field).
Proof.
  intros He Hh. cbv zeta.
  assert (Hsent : forall key field,
             Forall (fun op => writes_field key field op = false)
                    (raw_packet_ops w p h (Some (lower (eth_src hdr)))
                     ++ device_ops w p h (lower (eth_src hdr))
                     ++ [heartbeat_op w p]) ->
             Forall (fun op => writes_field key field op = false)
                    (fst (process_packet ext
                            (callback_kwargs w p h (lower (eth_src hdr))))) ->
             forall sent,
               submitted (db (snd (PacketSnifferWorker._process_packet ext p w)))
               = submitted (db w) ++ [sent] ->
               hget (exec_batch sent st) key field = hget st key field).
  { intros key field Hown Hcb sent Hs.
    rewrite _process_packet_eq in Hs. cbn [snd db with_db submitted] in Hs.
    apply app_inv_head in Hs. injection Hs as <-.
    rewrite (batch_ether ext w p He Hh).
    apply exec_batch_other.
    apply Forall_app in Hown as [Hraw Hown].
    apply Forall_app in Hown as [Hdev Hhb].
    repeat (apply Forall_app; split); try assumption.
    apply issue_ops_write_no_field. }
  assert (Hne : forall prefix a b, a <> b ->
                  String.eqb (prefix +:+ a) (prefix +:+ b) = false).
  { intros prefix a b Hab. rewrite eqb_prefixed. by apply String.eqb_neq. }
  split; [|split; [|split]].
  - intros h' field Hh' Hcb. apply Hsent; [|exact Hcb].
    unfold raw_packet_ops, device_ops, heartbeat_op.
    repeat constructor; unfold writes_field;
      rewrite ?(Hne "pkt_" h h') by congruence; reflexivity.
  - intros mac' field Hm Hcb. apply Hsent; [|exact Hcb].
    unfold raw_packet_ops, device_ops, heartbeat_op.
    repeat constructor; unfold writes_field;
      rewrite ?(Hne "mac_" (lower (eth_src hdr)) mac') by congruence;
      reflexivity.
  - intros mac' field Hm Hcb. apply Hsent; [|exact Hcb].
    unfold raw_packet_ops, device_ops, heartbeat_op.
    repeat constructor; unfold writes_field;
      rewrite ?(Hne "macpkts_" (lower (eth_src hdr)) mac') by congruence;
      reflexivity.
  - intros field Hf Hcb. apply Hsent; [|exact Hcb].
    unfold raw_packet_ops, device_ops, heartbeat_op.
    repeat constructor; unfold writes_field; try reflexivity.
    rewrite existsb_single_field.
    assert (String.eqb (name w) field = false) as ->
        by (apply String.eqb_neq; congruence).
    reflexivity.
Qed.

(** The scenario's IPv4 frame through the DNS analyser's worker, on an
    empty store. *)
Lemma packet_writes_only_its_own_records_witness :
  let ext := Sample.susan_ext in
  let w := Sample.susan in
  let p := Sample.captured (Sample.frame_ipv4 x00 x01 x6a xcd) in
  let h := "e0b55be8816879415acccf98bb32fb1c7789ce187bdd4881269a1f603b92ee48" in
  let mac := lower "00:0d:f7:12:ca:fe" in
  let appended := fst (process_packet ext (callback_kwargs w p h mac)) in
  let untouched key field :=
    Forall (fun op => writes_field key field op = false) appended ->
    forall sent,
      submitted (db (snd (PacketSnifferWorker._process_packet ext p w)))
      = submitted (db w) ++ [sent] ->
      hget (exec_batch sent empty_store) key field = hget empty_store key field in
  (forall h' field, h' <> h -> untouched ("pkt_" +:+ h') field) /\
  (forall mac' field, mac' <> mac -> untouched ("mac_" +:+ mac') field) /\
  (forall mac' field, mac' <> mac -> untouched ("macpkts_" +:+ mac') field) /\
  (forall field, field <> name w -> untouched "heartbeats" field).
Proof.
  cbv zeta.
  refine (@packet_writes_only_its_own_records Sample.susan_ext Sample.susan
            (Sample.captured (Sample.frame_ipv4 x00 x01 x6a xcd))
            {| eth_dst := "c8:e1:30:ba:be:23"; eth_src := "00:0d:f7:12:ca:fe";
               eth_type := 2048 |}
            "e0b55be8816879415acccf98bb32fb1c7789ce187bdd4881269a1f603b92ee48"
            empty_store _ _).
  - vm_compute; reflexivity.
  - vm_compute; reflexivity.
Defined.

(** X17.  When the fingerprint of a packet cannot be computed (scapy or
    [hashlib] raises), nothing about the packet is recorded: the pipeline
    holds only the set-adds of the anomaly categories noted so far, with
    [None] as the member, and the heartbeat; neither a packet record nor a
    device record is written and the analyser's callback is not called.
    Processing ends with that exception unless the store raises its own. *)
Theorem failed_fingerprint_records_nothing_of_the_packet
    (ext : Externals) (w : Worker) (p : Packet) (e : exn) :
  fst (PacketProcessor_._packet_hash ext (PacketProcessor_.__init__ w p)) = Raise e ->
  exists anomalies,
    let sent := List.map (fun set => SAdd set VNone) anomalies
                ++ [HSet "heartbeats" [(name w, VTime (time p))]] in
    PacketSnifferWorker._process_packet ext p w
    = (match db_execute ext (db w) sent with
       | Ok _ => Raise e
       | Raise e' => Raise e'
       end,
       with_db {| submitted := submitted (db w) ++ [sent] |} w) /\
    (anomalies = [] \/ anomalies = ["unhandled:pkts:first_layer"]
     \/ anomalies = ["unhandled:pkts:ether_payload"]).
Proof.
  intros Hh. rewrite _packet_hash_eq in Hh. unfold ether_view in Hh.
  cbn [fst PacketProcessor_.__init__ _ether_layer packet] in Hh.
  exists (_issue_categories (after__run ext w p)). cbv zeta.
  rewrite _process_packet_eq. unfold batch, issue_ops, heartbeat_op.
  destruct (getlayer Ether (layers p)) as [l|] eqn:He.
  - destruct (getlayer_Ether_inv _ He) as [hdr ->].
    destruct (_run_ether ext w p He) as [Hc H].
    rewrite Hh in H. destruct H as (-> & -> & ->).
    split.
    + cbn [str_or_None app].
      destruct (db_execute ext (db w) _); reflexivity.
    + rewrite Hc. unfold hash_issues.
      destruct (scapy_dissect ext _ _); [|auto].
      destruct (getlayer IP _); [auto|].
      destruct (haslayer ARP _); auto.
  - destruct (_run_no_ether ext w p He) as [Hc H].
    unfold fingerprint, hash_input in Hh. rewrite Hh in H.
    destruct H as (-> & -> & ->).
    split; [|rewrite Hc; auto].
    cbn [str_or_None app].
    destruct (db_execute ext (db w) _); reflexivity.
Qed.

(** An LLDP frame when the hash call fails: the anomaly is filed under
    [None]. *)
Lemma failed_fingerprint_records_nothing_of_the_packet_witness :
  exists anomalies,
    let sent := List.map (fun set => SAdd set VNone) anomalies
                ++ [HSet "heartbeats"
                      [(name Sample.susan,
                        VTime (time (Sample.captured Sample.frame_lldp)))]] in
    PacketSnifferWorker._process_packet Sample.unhashable_ext
      (Sample.captured Sample.frame_lldp) Sample.susan
    = (match db_execute Sample.unhashable_ext (db Sample.susan) sent with
       | Ok _ => Raise (Exception "TypeError")
       | Raise e' => Raise e'
       end,
       with_db {| submitted := submitted (db Sample.susan) ++ [sent] |}
         Sample.susan) /\
    (anomalies = [] \/ anomalies = ["unhandled:pkts:first_layer"]
     \/ anomalies = ["unhandled:pkts:ether_payload"]).
Proof.
  apply (@failed_fingerprint_records_nothing_of_the_packet Sample.unhashable_ext
           Sample.susan (Sample.captured Sample.frame_lldp)
           (Exception "TypeError")).
  vm_compute. reflexivity.
Defined.
